(** * GOLD API client: a shallow embedding of
      [sample_annotator/clients/gold_client.py] and its properties.

    The client fetches studies, biosamples and projects from the GOLD REST
    service, memoizes every successful response in a disk cache and weaves the
    three flat resources into nested study records.  The Python code is
    modelled as a state-and-exception monad over an explicit [State]: the
    network, the clock, the disk cache, the log, the file system and the
    attributes of the [GoldClient] instance. *)

From Stdlib Require Import List String Ascii ZArith Bool Arith Lia DecimalString.
Import ListNotations.
Open Scope string_scope.
Set Warnings "-register-all".

(** ** JSON payloads *)

(** [JSON = Any] in the source: whatever [results.json()] decodes.  Numbers
    are integers here; GOLD identifiers are strings. *)
Inductive JSON : Type :=
| JNull
| JBool (b : bool)
| JInt (n : Z)
| JStr (s : string)
| JArr (items : list JSON)
| JObj (fields : list (string * JSON)).

(** A Python [dict] with string keys, in insertion order. *)
Definition Dict := list (string * JSON).

Fixpoint dict_get (k : string) (d : Dict) : option JSON :=
  match d with
  | [] => None
  | (k', v) :: d' => if String.eqb k' k then Some v else dict_get k d'
  end.

(** [d[k] = v]: an existing key keeps its position, a new key goes last. *)
Fixpoint dict_set (k : string) (v : JSON) (d : Dict) : Dict :=
  match d with
  | [] => [(k, v)]
  | (k', v') :: d' =>
      if String.eqb k' k then (k, v) :: d' else (k', v') :: dict_set k v d'
  end.

Definition dict_has (k : string) (d : Dict) : bool :=
  match dict_get k d with Some _ => true | None => false end.

(** ** Exceptions and results *)

Inductive Exn : Type :=
| Exception (msg : string)
| KeyError (key : string)
| IndexError
| TypeError
| AttributeError
| ValueError
| JSONDecodeError
| FileNotFoundError
| PermissionError.

Inductive Result (A : Type) : Type :=
| Ok (a : A)
| Raise (e : Exn).
Arguments Ok {A} a.
Arguments Raise {A} e.

(** ** Strings as Python uses them *)

Definition str_of_nat (n : nat) : string :=
  NilEmpty.string_of_uint (Nat.to_uint n).

(** [s.startswith(p)] *)
Definition startswith (p s : string) : bool := String.prefix p s.

(** [s.replace(old, new)] for a non-empty [old]: every occurrence, scanning
    from the left, occurrences not overlapping.  [skip] counts the characters
    of a matched occurrence still to be passed over. *)
Fixpoint replace_from (skip : nat) (old new s : string) : string :=
  match s with
  | EmptyString => EmptyString
  | String c s' =>
      match skip with
      | S k => replace_from k old new s'
      | O =>
          if startswith old s
          then new ++ replace_from (String.length old - 1) old new s'
          else String c (replace_from 0 old new s')
      end
  end.

Definition str_replace (old new s : string) : string := replace_from 0 old new s.

(** The ASCII characters for which [str.isspace] holds. *)
Definition is_space (c : ascii) : bool :=
  let n := nat_of_ascii c in
  (((9 <=? n) && (n <=? 13)) || ((28 <=? n) && (n <=? 32)))%nat.

Fixpoint lstrip (s : string) : string :=
  match s with
  | EmptyString => EmptyString
  | String c s' => if is_space c then lstrip s' else s
  end.

Fixpoint rstrip (s : string) : string :=
  match s with
  | EmptyString => EmptyString
  | String c s' =>
      match rstrip s' with
      | EmptyString => if is_space c then EmptyString else String c EmptyString
      | r => String c r
      end
  end.

(** [s.strip()] *)
Definition strip (s : string) : string := lstrip (rstrip s).

(** [s.split(sep)] for a one-character separator. *)
Fixpoint split_on (sep : ascii) (s : string) : list string :=
  match s with
  | EmptyString => [EmptyString]
  | String c s' =>
      if Ascii.eqb c sep then EmptyString :: split_on sep s'
      else match split_on sep s' with
           | [] => [String c EmptyString]
           | part :: parts => String c part :: parts
           end
  end.

(** ** The state the client runs in *)

(** One [requests.get(endpoint_url, params=params, auth=HTTPBasicAuth(user, passwd))].
    It is also the key under which [cache.memoize] files the result of
    [_fetch_url(endpoint_url, params, user, passwd)]. *)
Record Request : Type := {
  endpoint_url : string;
  params : list (string * string);
  user : string;
  passwd : string
}.

(** What [requests.get] hands back: the status code, and the decoded body
    when the body is JSON ([results.json()] raises otherwise). *)
Record Response : Type := {
  status_code : Z;
  body : option JSON
}.

Inductive Level : Type := DEBUG | INFO | WARNING | ERROR.

(** A value interpolated into a log message. *)
Inductive LogArg : Type :=
| LStr (s : string)
| LNat (n : nat)
| LInt (z : Z)
| LJson (j : JSON)
| LKeys (ks : list JSON).

(** A call of [logging.debug/info/warning/error]: the f-string with its
    holes written [{}], and the values that fill them. *)
Record LogRecord : Type := {
  level : Level;
  fmt : string;
  args : list LogArg
}.

Inductive Format : Type := YAML | JSONFMT.

(** A [yaml.dump] or [json.dump] of [payload] to a path, or to the
    [--output] stream when [target] is [None]. *)
Record Dump : Type := {
  target : option string;
  format : Format;
  payload : JSON
}.

(** The files of the machine: for each path the lines of the file that
    [open(path)] reads, if there is one, and the error that
    [open(path, "w")] raises, if the path cannot be opened for writing (as
    when its directory does not exist).  [fs path] stands for the lines of
    the readable file at [path]. *)
Record Files : Type := {
  lines_of :> string -> option (list string);
  unwritable : string -> option Exn
}.

(** Files to read on a file system that cannot be written to. *)
Definition read_only (lines : string -> option (list string)) : Files :=
  {| lines_of := lines; unwritable := fun _ => Some PermissionError |}.

Record State : Type := {
  network : nat -> Request -> Response; (* the answer to the n-th HTTP request *)
  requests : list Request;              (* the HTTP requests made, oldest first *)
  sleeps : list Z;                      (* the [sleep] calls, in seconds *)
  cache : list (Request * JSON);        (* the disk cache in [CACHEDIR] *)
  logs : list LogRecord;                (* the [logging] calls *)
  files : Files;                        (* the files, to read and to write *)
  written : list Dump;                  (* the documents written *)
  gold_key : option (string * string);  (* [GoldClient.gold_key] *)
  num_calls : nat                       (* [GoldClient.num_calls] *)
}.

Definition add_request (rq : Request) (s : State) : State :=
  {| network := network s; requests := requests s ++ [rq]; sleeps := sleeps s;
     cache := cache s; logs := logs s; files := files s; written := written s;
     gold_key := gold_key s; num_calls := num_calls s |}.

Definition add_sleep (secs : Z) (s : State) : State :=
  {| network := network s; requests := requests s; sleeps := sleeps s ++ [secs];
     cache := cache s; logs := logs s; files := files s; written := written s;
     gold_key := gold_key s; num_calls := num_calls s |}.

Definition set_cache (c : list (Request * JSON)) (s : State) : State :=
  {| network := network s; requests := requests s; sleeps := sleeps s;
     cache := c; logs := logs s; files := files s; written := written s;
     gold_key := gold_key s; num_calls := num_calls s |}.

Definition add_log (r : LogRecord) (s : State) : State :=
  {| network := network s; requests := requests s; sleeps := sleeps s;
     cache := cache s; logs := logs s ++ [r]; files := files s; written := written s;
     gold_key := gold_key s; num_calls := num_calls s |}.

Definition add_written (d : Dump) (s : State) : State :=
  {| network := network s; requests := requests s; sleeps := sleeps s;
     cache := cache s; logs := logs s; files := files s; written := written s ++ [d];
     gold_key := gold_key s; num_calls := num_calls s |}.

Definition set_gold_key (k : option (string * string)) (s : State) : State :=
  {| network := network s; requests := requests s; sleeps := sleeps s;
     cache := cache s; logs := logs s; files := files s; written := written s;
     gold_key := k; num_calls := num_calls s |}.

Definition set_num_calls (n : nat) (s : State) : State :=
  {| network := network s; requests := requests s; sleeps := sleeps s;
     cache := cache s; logs := logs s; files := files s; written := written s;
     gold_key := gold_key s; num_calls := n |}.

(** The seconds slept so far. *)
Definition total_slept (s : State) : Z := fold_right Z.add 0%Z (sleeps s).

(** ** The monad of the embedding: a state, and a value or an exception *)

Definition M (A : Type) : Type := State -> Result A * State.

Definition ret {A} (a : A) : M A := fun s => (Ok a, s).

Definition raise {A} (e : Exn) : M A := fun s => (Raise e, s).

Definition bind {A B} (m : M A) (k : A -> M B) : M B :=
  fun s => match m s with
           | (Ok a, s') => k a s'
           | (Raise e, s') => (Raise e, s')
           end.

Notation "x <- m ;; k" := (bind m (fun x => k))
  (at level 61, m at next level, right associativity).
Notation "m ;;; k" := (bind m (fun _ => k))
  (at level 61, right associativity).

(** A pure step that may raise. *)
Definition lift {A} (r : Result A) : M A := fun s => (r, s).

Definition modify (f : State -> State) : M unit := fun s => (Ok tt, f s).

Definition gets {A} (f : State -> A) : M A := fun s => (Ok (f s), s).

Definition log (lv : Level) (f : string) (a : list LogArg) : M unit :=
  modify (add_log {| level := lv; fmt := f; args := a |}).

Definition sleep (secs : Z) : M unit := modify (add_sleep secs).

(** [requests.get]: the network answers the request according to how many
    requests it has seen. *)
Definition requests_get (rq : Request) : M Response :=
  fun s => (Ok (network s (List.length (requests s)) rq), add_request rq s).

(** [results.json()] *)
Definition response_json (r : Response) : M JSON :=
  match body r with
  | Some j => ret j
  | None => raise JSONDecodeError
  end.

(** ** The HTTP fetcher *)

(** The [while attempt < 4] loop of [_fetch_url], [fuel] being the number of
    iterations left, [4 - attempt]. *)
Fixpoint fetch_attempts (fuel attempt : nat) (rq : Request) : M JSON :=
  match fuel with
  | O =>
      raise (Exception ("API call to " ++ endpoint_url rq ++ " failed after "
                          ++ str_of_nat attempt ++ " attempts"))
  | S fuel' =>
      results <- requests_get rq ;;
      log INFO "STATUS={}" [LInt (status_code results)] ;;;
      if (status_code results =? 200)%Z
      then response_json results
      else
        log ERROR "API call to {} failed, code={}; attempt={} [pausing]"
            [LStr (endpoint_url rq); LInt (status_code results); LNat attempt] ;;;
        sleep (5 ^ Z.of_nat attempt) ;;;
        fetch_attempts fuel' (S attempt) rq
  end.

(** The undecorated body of [_fetch_url]. *)
Definition fetch_url_body (rq : Request) : M JSON := fetch_attempts (4 - 0) 0 rq.

Definition param_eqb (p q : string * string) : bool :=
  String.eqb (fst p) (fst q) && String.eqb (snd p) (snd q).

Fixpoint params_eqb (p q : list (string * string)) : bool :=
  match p, q with
  | [], [] => true
  | x :: p', y :: q' => param_eqb x y && params_eqb p' q'
  | _, _ => false
  end.

Definition request_eqb (a b : Request) : bool :=
  String.eqb (endpoint_url a) (endpoint_url b)
  && params_eqb (params a) (params b)
  && String.eqb (user a) (user b)
  && String.eqb (passwd a) (passwd b).

Fixpoint cache_get (k : Request) (c : list (Request * JSON)) : option JSON :=
  match c with
  | [] => None
  | (k', v) :: c' => if request_eqb k' k then Some v else cache_get k c'
  end.

Fixpoint cache_put (k : Request) (v : JSON) (c : list (Request * JSON))
  : list (Request * JSON) :=
  match c with
  | [] => [(k, v)]
  | (k', v') :: c' =>
      if request_eqb k' k then (k, v) :: c' else (k', v') :: cache_put k v c'
  end.

(** [cache.memoize()]: look the arguments up; on a miss run the function and
    store what it returns.  An exception passes through and stores nothing. *)
Definition memoize (f : Request -> M JSON) (rq : Request) : M JSON :=
  hit <- gets (fun s => cache_get rq (cache s)) ;;
  match hit with
  | Some v => ret v
  | None =>
      v <- f rq ;;
      modify (fun s => set_cache (cache_put rq v (cache s)) s) ;;;
      ret v
  end.

(** [_fetch_url], decorated twice with [@cache.memoize()]; both decorators
    derive the same key from the wrapped function's name and arguments. *)
Definition _fetch_url (rq : Request) : M JSON := memoize (memoize fetch_url_body) rq.

(** ** Python's operations on decoded JSON *)

(** [o[k]] for a string key [k]: only a dict can be subscripted by a string. *)
Definition getitem (o : JSON) (k : string) : Result JSON :=
  match o with
  | JObj d => match dict_get k d with
              | Some v => Ok v
              | None => Raise (KeyError k)
              end
  | _ => Raise TypeError
  end.

(** [o[0]]; no dict decoded from JSON has the integer key [0]. *)
Definition getitem0 (o : JSON) : Result JSON :=
  match o with
  | JArr (x :: _) => Ok x
  | JArr [] => Raise IndexError
  | JStr (String c _) => Ok (JStr (String c EmptyString))
  | JStr EmptyString => Raise IndexError
  | JObj _ => Raise (KeyError "0")
  | _ => Raise TypeError
  end.

(** [o[k] = v] *)
Definition setitem (o : JSON) (k : string) (v : JSON) : Result JSON :=
  match o with
  | JObj d => Ok (JObj (dict_set k v d))
  | _ => Raise TypeError
  end.

(** [len(o)] *)
Definition py_len (o : JSON) : Result nat :=
  match o with
  | JArr l => Ok (List.length l)
  | JObj d => Ok (List.length d)
  | JStr s => Ok (String.length s)
  | _ => Raise TypeError
  end.

Fixpoint chars (s : string) : list JSON :=
  match s with
  | EmptyString => []
  | String c s' => JStr (String c EmptyString) :: chars s'
  end.

(** [for x in o]: the items of a list, the keys of a dict, the characters of
    a string. *)
Definition py_iter (o : JSON) : Result (list JSON) :=
  match o with
  | JArr l => Ok l
  | JObj d => Ok (map (fun kv => JStr (fst kv)) d)
  | JStr s => Ok (chars s)
  | _ => Raise TypeError
  end.

Fixpoint str_contains (p s : string) : bool :=
  startswith p s
  || match s with
     | EmptyString => false
     | String _ s' => str_contains p s'
     end.

Definition is_str (k : string) (j : JSON) : bool :=
  match j with
  | JStr s => String.eqb s k
  | _ => false
  end.

(** [k in o] for a string [k] *)
Definition contains (k : string) (o : JSON) : Result bool :=
  match o with
  | JObj d => Ok (dict_has k d)
  | JArr l => Ok (existsb (is_str k) l)
  | JStr s => Ok (str_contains k s)
  | _ => Raise TypeError
  end.

(** [o.append(x)]: only a list has the method. *)
Definition py_append (o x : JSON) : Result JSON :=
  match o with
  | JArr l => Ok (JArr (l ++ [x]))
  | _ => Raise AttributeError
  end.

(** The values [_normalize_id] can call [.replace] on. *)
Definition as_str (o : JSON) : Result string :=
  match o with
  | JStr s => Ok s
  | _ => Raise AttributeError
  end.

(** Lists and dicts cannot be dict keys. *)
Definition hashable (j : JSON) : bool :=
  match j with
  | JArr _ | JObj _ => false
  | _ => true
  end.

(** Equality of dict keys: Python's [==], under which [True == 1]. *)
Definition key_eqb (a b : JSON) : bool :=
  match a, b with
  | JNull, JNull => true
  | JStr s, JStr t => String.eqb s t
  | JBool x, JBool y => Bool.eqb x y
  | JInt x, JInt y => Z.eqb x y
  | JBool x, JInt y => Z.eqb (Z.b2z x) y
  | JInt x, JBool y => Z.eqb x (Z.b2z y)
  | _, _ => false
  end.

(** A dict whose keys are decoded values. *)
Definition KDict (V : Type) := list (JSON * V).

Fixpoint keyed_get {V} (k : JSON) (d : KDict V) : option V :=
  match d with
  | [] => None
  | (k', v) :: d' => if key_eqb k' k then Some v else keyed_get k d'
  end.

(** [d[k] = v]: an equal key keeps its place (and the key object first
    inserted), its value is replaced. *)
Fixpoint keyed_set {V} (k : JSON) (v : V) (d : KDict V) : KDict V :=
  match d with
  | [] => [(k, v)]
  | (k', v') :: d' =>
      if key_eqb k' k then (k', v) :: d' else (k', v') :: keyed_set k v d'
  end.

(** [l[i] = x] on the list of sample objects. *)
Fixpoint update_nth {A} (i : nat) (x : A) (l : list A) : list A :=
  match l, i with
  | [], _ => []
  | _ :: l', O => x :: l'
  | y :: l', S i' => y :: update_nth i' x l'
  end.

Definition EXCLUSION_LIST : list string := [].

(** [open(path)] and reading its lines. *)
Definition read_lines (path : string) : M (list string) :=
  fun s => match files s path with
           | Some ls => (Ok ls, s)
           | None => (Raise FileNotFoundError, s)
           end.

(** ** The class [GoldClient] *)

Module GoldClient.

Definition url : string := "https://gold.jgi.doe.gov/rest/nmdc".

(** [GoldClient()]: a fresh instance has the class attributes. *)
Definition new : M unit :=
  modify (fun s => set_num_calls 0 (set_gold_key None s)).

Definition load_key (path : string) : M unit :=
  lines <- read_lines path ;;
  match lines with
  | [] => raise IndexError
  | line :: _ =>
      match split_on ":" (strip line) with
      | [u; p] => modify (set_gold_key (Some (u, p)))
      | _ => raise ValueError
      end
  end.

Definition _normalize_id (id : string) : string := str_replace "gold:" "" id.

Definition _call (endpoint : string) (ps : list (string * string)) : M JSON :=
  key <- gets gold_key ;;
  match key with
  | None => raise TypeError
  | Some (u, p) =>
      let endpoint_url := url ++ "/" ++ endpoint in
      obj <- _fetch_url {| endpoint_url := endpoint_url; params := ps;
                           user := u; passwd := p |} ;;
      modify (fun s => set_num_calls (num_calls s + 1) s) ;;;
      ret obj
  end.

Definition clear_cache : M unit := modify (set_cache []).

Definition fetch_projects_by_study (id : string) : M JSON :=
  let id := _normalize_id id in
  _call "projects" [("studyGoldId", id)].

(** The dict comprehension
    [{sample["biosampleGoldId"]: sample for sample in biosamples}].  Its
    values are the sample objects of [biosamples] themselves, so the dict
    holds the position of each in the list; [i] is the position of the head
    of [samples]. *)
Fixpoint index_samples (i : nat) (samples : list JSON) (acc : KDict nat)
  : Result (KDict nat) :=
  match samples with
  | [] => Ok acc
  | sample :: rest =>
      match getitem sample "biosampleGoldId" with
      | Raise e => Raise e
      | Ok k =>
          if hashable k then index_samples (S i) rest (keyed_set k i acc)
          else Raise TypeError
      end
  end.

(** The body of [for project in projects]; [store] is the list of sample
    objects, which the body mutates in place. *)
Definition weave_project (id : string) (samples_by_id : KDict nat)
    (projects project : JSON) (store : list JSON) : M (list JSON) :=
  sample_id <- lift (getitem project "biosampleGoldId") ;;
  match sample_id with
  | JNull => ret store
  | _ =>
      if negb (hashable sample_id) then raise TypeError
      else
        match keyed_get sample_id samples_by_id with
        | None =>
            log ERROR "Sample {} not not samples for {}" [LJson sample_id; LStr id] ;;;
            log ERROR "All samples: {}" [LKeys (map fst samples_by_id)] ;;;
            n <- lift (py_len projects) ;;
            log ERROR "Projects: {}" [LNat n] ;;;
            log ERROR "Project: {}" [LJson project] ;;;
            ret store
        | Some i =>
            let sample := nth i store JNull in
            pid <- lift (getitem project "projectGoldId") ;;
            log DEBUG "Adding project {} to {}" [LJson pid; LJson sample_id] ;;;
            has <- lift (contains "projects" sample) ;;
            sample <- (if has then ret sample
                       else lift (setitem sample "projects" (JArr []))) ;;
            plist <- lift (getitem sample "projects") ;;
            plist <- lift (py_append plist project) ;;
            sample <- lift (setitem sample "projects" plist) ;;
            ret (update_nth i sample store)
        end
  end.

Fixpoint weave_projects (id : string) (samples_by_id : KDict nat)
    (projects : JSON) (todo : list JSON) (store : list JSON) : M (list JSON) :=
  match todo with
  | [] => ret store
  | project :: rest =>
      store <- weave_project id samples_by_id projects project store ;;
      weave_projects id samples_by_id projects rest store
  end.

Definition fetch_biosamples_by_study (id : string) (include_project : bool) : M JSON :=
  let id := _normalize_id id in
  if existsb (String.eqb id) EXCLUSION_LIST then ret (JArr [])
  else
    biosamples <- _call "biosamples" [("studyGoldId", id)] ;;
    if include_project then
      projects <- fetch_projects_by_study id ;;
      samples <- lift (py_iter biosamples) ;;
      samples_by_id <- lift (index_samples 0 samples []) ;;
      todo <- lift (py_iter projects) ;;
      store <- weave_projects id samples_by_id projects todo samples ;;
      ret (match biosamples with
           | JArr _ => JArr store
           | _ => biosamples
           end)
    else ret biosamples.

Definition fetch_study (id : string) (include_biosamples : bool) : M JSON :=
  let id := _normalize_id id in
  log INFO "Fetching study: {}" [LStr id] ;;;
  results <- _call "studies" [("studyGoldId", id)] ;;
  study <- lift (getitem0 results) ;;
  if include_biosamples then
    biosamples <- fetch_biosamples_by_study id true ;;
    lift (setitem study "biosamples" biosamples)
  else ret study.

Definition fetch_study_by_biosample_id (id : string) (include_biosamples : bool)
  : M JSON :=
  let id := _normalize_id id in
  log INFO "Fetching study: {}" [LStr id] ;;;
  results <- _call "studies" [("biosampleGoldId", id)] ;;
  n <- lift (py_len results) ;;
  study <- (if Nat.eqb n 0
            then log WARNING "No study for {}; creating a stub" [LStr id] ;;;
                 ret (JObj [("studyGoldId", JStr ("GsFAKE-" ++ id))])
            else lift (getitem0 results)) ;;
  if include_biosamples then
    sid <- lift (getitem study "studyGoldId") ;;
    sid <- lift (as_str sid) ;;
    biosamples <- fetch_biosamples_by_study sid true ;;
    study <- lift (setitem study "biosamples" biosamples) ;;
    attached <- lift (getitem study "biosamples") ;;
    n <- lift (py_len attached) ;;
    log INFO "  Fetched biosamples for {} == {}" [LStr id; LNat n] ;;;
    ret study
  else ret study.

(** The inner loop [for biosample in study["biosamples"]]. *)
Fixpoint record_samples (study : JSON) (samples : list JSON)
    (biosample_to_study : KDict JSON) : M (KDict JSON) :=
  match samples with
  | [] => ret biosample_to_study
  | biosample :: rest =>
      sid <- lift (getitem biosample "biosampleGoldId") ;;
      study_id <- lift (getitem study "studyGoldId") ;;
      log INFO "Adding {} to {}" [LJson sid; LJson study_id] ;;;
      if hashable sid
      then record_samples study rest (keyed_set sid study_id biosample_to_study)
      else raise TypeError
  end.

(** The loop [for biosample_id in ids] with its three variables; [total] is
    [len(ids)]. *)
Fixpoint studies_loop (total : nat) (ids : list string) (n : nat)
    (biosample_to_study : KDict JSON) (studies : list JSON) : M (list JSON) :=
  match ids with
  | [] => ret studies
  | biosample_id :: rest =>
      let n := n + 1 in
      log DEBUG "{} is {} of {} // TOT: {}"
          [LStr biosample_id; LNat n; LNat total;
           LNat (List.length biosample_to_study)] ;;;
      match keyed_get (JStr biosample_id) biosample_to_study with
      | Some owner =>
          log DEBUG "Skipping {} as already part of {}"
              [LStr biosample_id; LJson owner] ;;;
          studies_loop total rest n biosample_to_study studies
      | None =>
          study <- fetch_study_by_biosample_id biosample_id true ;;
          attached <- lift (getitem study "biosamples") ;;
          k <- lift (py_len attached) ;;
          log INFO "Fetched study for {} SAMPLES= {}" [LStr biosample_id; LNat k] ;;;
          samples <- lift (py_iter attached) ;;
          biosample_to_study <- record_samples study samples biosample_to_study ;;
          studies_loop total rest n biosample_to_study (studies ++ [study])
      end
  end.

Definition fetch_studies_by_biosample_ids (ids : list string) : M (list JSON) :=
  log INFO "Fetching {} samples" [LNat (List.length ids)] ;;;
  studies_loop (List.length ids) ids 0 [] [].

(** [[f(id) for id in ids]] *)
Fixpoint for_each {A B} (f : A -> M B) (l : list A) : M (list B) :=
  match l with
  | [] => ret []
  | x :: l' => y <- f x ;; ys <- for_each f l' ;; ret (y :: ys)
  end.

Definition fetch_studies (ids : list string) (include_biosamples : bool)
  : M (list JSON) :=
  log INFO "Fetching {} studies" [LNat (List.length ids)] ;;;
  for_each (fun id => fetch_study id include_biosamples) ids.

Definition fetch_studies_from_file (path : string) (include_biosamples : bool)
  : M (list JSON) :=
  lines <- read_lines path ;;
  fetch_studies (map strip (filter (startswith "Gs") lines)) include_biosamples.

End GoldClient.

(** ** The command [fetch-studies] *)

(** [yaml.dump] when the format is ["yaml"], [json.dump] otherwise. *)
Definition dump_format (output_format : string) : Format :=
  if String.eqb output_format "yaml" then YAML else JSONFMT.

Definition dump (path : option string) (output_format : string) (doc : JSON) : M unit :=
  modify (add_written {| target := path; format := dump_format output_format;
                         payload := doc |}).

(** The truth value of the option [--directory]. *)
Definition truthy (directory : option string) : bool :=
  match directory with
  | Some (String _ _) => true
  | _ => false
  end.

Inductive IdType : Type := id_study | id_biosample.

(** [open(path, "w")]: the error of the file system when the path cannot be
    opened, as when the directory does not exist. *)
Definition open_for_writing (path : string) : M unit :=
  fun s => match unwritable (files s) path with
           | Some e => (Raise e, s)
           | None => (Ok tt, s)
           end.

(** The loop of the one-file-per-study branch. *)
Fixpoint dump_each (directory output_format : string) (include_biosamples : bool)
    (ids : list string) : M unit :=
  match ids with
  | [] => ret tt
  | id :: rest =>
      study <- GoldClient.fetch_study id include_biosamples ;;
      log INFO "Retrieved {}" [LStr id] ;;;
      let outpath := directory ++ "/" ++ id ++ "." ++ output_format in
      open_for_writing outpath ;;;
      dump (Some outpath) output_format study ;;;
      dump_each directory output_format include_biosamples rest
  end.

(** The command; [include_biosamples] is what [**args] carries. *)
Definition fetch_studies (idfile : string) (directory : option string)
    (clear_cache : bool) (output_format authentication_file : string)
    (include_biosamples : bool) : M unit :=
  log INFO "Additional args: {}"
      [LJson (JObj [("include_biosamples", JBool include_biosamples)])] ;;;
  GoldClient.new ;;;
  GoldClient.load_key authentication_file ;;;
  (if clear_cache then GoldClient.clear_cache else ret tt) ;;;
  lines <- read_lines idfile ;;
  let ids := map strip
                 (filter (fun line => startswith "Gs" line || startswith "Gb" line) lines) in
  if Nat.eqb (List.length ids) 0 then raise (Exception ("No ids in " ++ idfile))
  else
    let study_ids := filter (startswith "Gs") ids in
    let biosample_ids := filter (startswith "Gb") ids in
    id_type <- (if Nat.ltb 0 (List.length study_ids)
                then if Nat.ltb 0 (List.length biosample_ids)
                     then raise (Exception "Cannot mix and match study and sample IDs")
                     else ret id_study
                else ret id_biosample) ;;
    match id_type, truthy directory, directory with
    | id_study, true, Some dir =>
        dump_each dir output_format include_biosamples ids
    | _, _, _ =>
        studies <- match id_type with
                   | id_study => GoldClient.fetch_studies ids include_biosamples
                   | id_biosample => GoldClient.fetch_studies_by_biosample_ids ids
                   end ;;
        log INFO "Retrieved {} studies" [LNat (List.length studies)] ;;;
        dump None output_format (JArr studies)
    end ;;;
    calls <- gets num_calls ;;
    log INFO "DONE. Calls = {}" [LNat calls].

(** * States the statements speak about *)

(** The state after a request that was answered [r]. *)
Definition answered (rq : Request) (r : Response) (s : State) : State :=
  add_log {| level := INFO; fmt := "STATUS={}"; args := [LInt (status_code r)] |}
          (add_request rq s).

(** The state after a failed attempt: the request, its two log records and
    the pause. *)
Definition failed (rq : Request) (r : Response) (attempt : nat) (s : State) : State :=
  add_sleep (5 ^ Z.of_nat attempt)
    (add_log {| level := ERROR;
                fmt := "API call to {} failed, code={}; attempt={} [pausing]";
                args := [LStr (endpoint_url rq); LInt (status_code r); LNat attempt] |}
       (answered rq r s)).

(** The answer the network gives to the next request. *)
Definition next_response (rq : Request) (s : State) : Response :=
  network s (List.length (requests s)) rq.

(** The answer the network gives to the request [k] requests from now. *)
Definition response_at (k : nat) (rq : Request) (s : State) : Response :=
  network s (List.length (requests s) + k) rq.

(** The state after [k] failed attempts in a row, the first of them being
    attempt number [attempt]. *)
Fixpoint retried (k attempt : nat) (rq : Request) (s : State) : State :=
  match k with
  | O => s
  | S k' => retried k' (S attempt) rq (failed rq (next_response rq s) attempt s)
  end.

(** The pauses after attempts [attempt], ..., [attempt + k - 1]. *)
Definition pauses (attempt k : nat) : list Z :=
  map (fun i => (5 ^ Z.of_nat i)%Z) (seq attempt k).

(** A process that has just loaded the key [(u, p)]: nothing requested,
    slept, logged or written yet, over the cache [c] found on disk. *)
Definition started (net : nat -> Request -> Response) (c : list (Request * JSON))
    (u p : string) : State :=
  {| network := net; requests := []; sleeps := []; cache := c; logs := [];
     files := read_only (fun _ => None); written := []; gold_key := Some (u, p);
     num_calls := 0 |}.

(** A later run of the program over the cache the state [s] leaves on disk. *)
Definition next_run (s : State) : State :=
  {| network := fun n => network s (List.length (requests s) + n);
     requests := []; sleeps := []; cache := cache s; logs := [];
     files := files s; written := []; gold_key := None; num_calls := 0 |}.

(** *** Example data *)

Definition studies_of_Gb1 : Request :=
  {| endpoint_url := "https://gold.jgi.doe.gov/rest/nmdc/studies";
     params := [("biosampleGoldId", "Gb1")]; user := "user"; passwd := "pass" |}.

Definition study_Gs1 : JSON := JArr [JObj [("studyGoldId", JStr "Gs1")]].

(** A service that answers 503 to its first [k] requests and 200 afterwards. *)
Definition down_for (k : nat) (doc : JSON) (n : nat) (_ : Request) : Response :=
  if Nat.ltb n k then {| status_code := 503; body := None |}
  else {| status_code := 200; body := Some doc |}.

(** Two fetches in a row with the same endpoint, parameters and credentials. *)
Definition fetch_twice (rq : Request) : M (JSON * JSON) :=
  first <- _fetch_url rq ;;
  second <- _fetch_url rq ;;
  ret (first, second).

(** A fresh process with an empty cache, facing a service that fails its
    first [k] requests. *)
Definition facing_outage (k : nat) : State :=
  started (down_for k study_Gs1) [] "user" "pass".

(** The state after [logging.info(f"Fetching study: {id}")]. *)
Definition announce_study (id : string) (s : State) : State :=
  add_log {| level := INFO; fmt := "Fetching study: {}"; args := [LStr id] |} s.

(** The state after [logging.warning(f"No study for {id}; creating a stub")]. *)
Definition warn_stub (id : string) (s : State) : State :=
  add_log {| level := WARNING; fmt := "No study for {}; creating a stub";
             args := [LStr id] |} s.

(** The state after the last log record of [fetch_study_by_biosample_id]. *)
Definition report_fetched (id : string) (n : nat) (s : State) : State :=
  add_log {| level := INFO; fmt := "  Fetched biosamples for {} == {}";
             args := [LStr id; LNat n] |} s.

(** The stub study of a biosample. *)
Definition stub_study (id : string) : JSON :=
  JObj [("studyGoldId", JStr ("GsFAKE-" ++ id))].

(** A computation that, whatever the state, does not raise [e]. *)
Definition never_raises {A} (e : Exn) (m : M A) : Prop :=
  forall s, fst (m s) <> Raise e.

(** A service without studies: every request is answered 200 with an empty
    list. *)
Definition empty_service : State := started (down_for 0 (JArr [])) [] "user" "pass".

(** *** Samples, projects and what weaving makes of them *)

(** A biosample record as the weaving expects it: a dict whose
    [biosampleGoldId] is a string, and whose [projects], if it has any
    already, is a list. *)
Definition sample_ok (b : JSON) : bool :=
  match b with
  | JObj d =>
      match dict_get "biosampleGoldId" d with
      | Some (JStr _) =>
          match dict_get "projects" d with
          | None | Some (JArr _) => true
          | _ => false
          end
      | _ => false
      end
  | _ => false
  end.

(** A project record: a dict with a [projectGoldId] and a [biosampleGoldId],
    the latter any value a dict can be keyed by, [None] included. *)
Definition project_ok (p : JSON) : bool :=
  match p with
  | JObj d =>
      match dict_get "biosampleGoldId" d, dict_get "projectGoldId" d with
      | Some k, Some _ => hashable k
      | _, _ => false
      end
  | _ => false
  end.

(** The [biosampleGoldId] of a sample that has a string for it. *)
Definition sample_name (b : JSON) : string :=
  match getitem b "biosampleGoldId" with
  | Ok (JStr name) => name
  | _ => EmptyString
  end.

(** The list under [projects] of a sample, empty when there is none. *)
Definition sample_projects (b : JSON) : list JSON :=
  match getitem b "projects" with
  | Ok (JArr l) => l
  | _ => []
  end.

(** The project's [biosampleGoldId] is [None]. *)
Definition null_sample_id (p : JSON) : bool :=
  match getitem p "biosampleGoldId" with
  | Ok JNull => true
  | _ => false
  end.

(** The project's [biosampleGoldId] is the sample's. *)
Definition belongs_to (b p : JSON) : bool :=
  match getitem p "biosampleGoldId" with
  | Ok (JStr name) => String.eqb (sample_name b) name
  | _ => false
  end.

(** Some fetched sample has the project's [biosampleGoldId]. *)
Definition known (bs : list JSON) (p : JSON) : bool :=
  existsb (fun b => belongs_to b p) bs.

(** The sample with one more project at the end of its [projects]. *)
Definition add_project (b p : JSON) : JSON :=
  match b with
  | JObj d => JObj (dict_set "projects" (JArr (sample_projects b ++ [p])) d)
  | _ => b
  end.

(** The sample with the projects of [ps] that belong to it, in their order. *)
Definition attach (ps : list JSON) (b : JSON) : JSON :=
  fold_left add_project (filter (belongs_to b) ps) b.

Definition or_null (r : Result JSON) : JSON :=
  match r with
  | Ok v => v
  | Raise _ => JNull
  end.

(** The log records one project leaves: none when its sample id is [None],
    one debug record when it is attached, four error records when its
    sample is unknown. *)
Definition project_log (id : string) (bs : list JSON) (nprojects : nat) (p : JSON)
  : list LogRecord :=
  let sample_id := or_null (getitem p "biosampleGoldId") in
  if null_sample_id p then []
  else if known bs p then
    [ {| level := DEBUG; fmt := "Adding project {} to {}";
         args := [LJson (or_null (getitem p "projectGoldId")); LJson sample_id] |} ]
  else
    [ {| level := ERROR; fmt := "Sample {} not not samples for {}";
         args := [LJson sample_id; LStr id] |};
      {| level := ERROR; fmt := "All samples: {}";
         args := [LKeys (map (fun b => JStr (sample_name b)) bs)] |};
      {| level := ERROR; fmt := "Projects: {}"; args := [LNat nprojects] |};
      {| level := ERROR; fmt := "Project: {}"; args := [LJson p] |} ].

Definition add_logs (l : list LogRecord) (s : State) : State :=
  fold_left (fun s r => add_log r s) l s.

(** The log of weaving the projects [ps] into the samples [bs]. *)
Definition weave_log (id : string) (bs ps : list JSON) : list LogRecord :=
  flat_map (project_log id bs (List.length ps)) ps.

(** The position of the first occurrence of [name]. *)
Fixpoint index_of (name : string) (names : list string) : option nat :=
  match names with
  | [] => None
  | n :: rest =>
      if String.eqb n name then Some 0 else option_map S (index_of name rest)
  end.

(** The dict the comprehension builds from samples with distinct names. *)
Definition positions (names : list string) (from : nat) : KDict nat :=
  combine (map JStr names) (seq from (List.length names)).

(** The request goes to the endpoint [name] of the service. *)
Definition endpoint_is (name : string) (rq : Request) : bool :=
  String.eqb (endpoint_url rq) (GoldClient.url ++ "/" ++ name).

(** The states differ in the log at most. *)
Definition same_world (s s' : State) : Prop :=
  network s' = network s /\ requests s' = requests s /\ cache s' = cache s
  /\ gold_key s' = gold_key s /\ num_calls s' = num_calls s.

(** A service that is up and answers each request by [answer]. *)
Definition always (answer : Request -> JSON) (n : nat) (rq : Request) : Response :=
  {| status_code := 200; body := Some (answer rq) |}.

Definition sample_B1 : JSON := JObj [("biosampleGoldId", JStr "B1")].
Definition sample_B2 : JSON := JObj [("biosampleGoldId", JStr "B2")].
Definition project_of_B1 : JSON :=
  JObj [("projectGoldId", JStr "P1"); ("biosampleGoldId", JStr "B1")].
Definition project_of_B3 : JSON :=
  JObj [("projectGoldId", JStr "P3"); ("biosampleGoldId", JStr "B3")].

(** A study [S1] with the biosamples [B1] and [B2], a project of [B1] and a
    project of a biosample [B3] that the study does not have. *)
Definition study_S1 (rq : Request) : JSON :=
  if endpoint_is "biosamples" rq then JArr [sample_B1; sample_B2]
  else if endpoint_is "projects" rq then JArr [project_of_B1; project_of_B3]
  else JArr [JObj [("studyGoldId", JStr "S1")]].

Definition serving_S1 : State := started (always study_S1) [] "user" "pass".

Definition nameless_sample : JSON := JObj [("biosampleGoldId", JNull)].
Definition nameless_project : JSON :=
  JObj [("projectGoldId", JStr "P0"); ("biosampleGoldId", JNull)].

(** A study whose only biosample and only project both have [None] for
    [biosampleGoldId]. *)
Definition nameless_study (rq : Request) : JSON :=
  if endpoint_is "biosamples" rq then JArr [nameless_sample]
  else if endpoint_is "projects" rq then JArr [nameless_project]
  else JArr [JObj [("studyGoldId", JStr "S0")]].

Definition serving_nameless : State := started (always nameless_study) [] "user" "pass".

(** The state in which the command loads the key: the arguments logged and
    a fresh client made. *)
Definition command_started (include_biosamples : bool) (s : State) : State :=
  set_num_calls 0
    (set_gold_key None
       (add_log {| level := INFO; fmt := "Additional args: {}";
                   args := [LJson (JObj [("include_biosamples",
                                          JBool include_biosamples)])] |} s)).

(** A machine with a key file and an identifier file that names a study
    and a biosample. *)
Definition mixed_up : State :=
  {| network := always study_S1; requests := []; sleeps := []; cache := [];
     logs := [];
     files := read_only (fun path =>
       if String.eqb path "config/gold-key.txt" then Some ["user:pass"]
       else if String.eqb path "ids.txt" then Some ["Gs0144570"; "Gb0011929"]
       else None);
     written := []; gold_key := None; num_calls := 0 |}.

(** *** A service that answers consistently *)

(** The request that [_call(endpoint, {key: value})] makes for the
    credentials [(u, p)]. *)
Definition call_request (u p endpoint key value : string) : Request :=
  {| endpoint_url := GoldClient.url ++ "/" ++ endpoint; params := [(key, value)];
     user := u; passwd := p |}.

(** From the state [s] on, a fetch of [rq] gives [api rq]: the cache holds
    that payload for it, or holds nothing and the network answers it 200
    with that payload whenever it is asked. *)
Definition served (api : Request -> JSON) (s : State) : Prop :=
  forall rq,
    cache_get rq (cache s) = Some (api rq)
    \/ (cache_get rq (cache s) = None
        /\ forall n, List.length (requests s) <= n ->
             network s n rq = {| status_code := 200; body := Some (api rq) |}).

(** The answer to a studies query: a list, empty or starting with a record
    whose [studyGoldId] is a string. *)
Definition studies_ok (answer : JSON) : bool :=
  match answer with
  | JArr [] => true
  | JArr (JObj d :: _) =>
      match dict_get "studyGoldId" d with
      | Some (JStr _) => true
      | _ => false
      end
  | _ => false
  end.

Definition items (j : JSON) : list JSON :=
  match j with
  | JArr l => l
  | _ => []
  end.

Section Service.

Variable api : Request -> JSON.
Variables u p : string.

(** The biosamples and the projects the service lists for a study id, as
    [fetch_biosamples_by_study] and [fetch_projects_by_study] ask for
    them: the one normalizes the id, the other normalizes it again. *)
Definition biosamples_of (sid : string) : list JSON :=
  items (api (call_request u p "biosamples" "studyGoldId"
                (GoldClient._normalize_id sid))).

Definition projects_of (sid : string) : list JSON :=
  items (api (call_request u p "projects" "studyGoldId"
                (GoldClient._normalize_id (GoldClient._normalize_id sid)))).

(** The service answers every query with well-formed records. *)
Definition service_ok : Prop :=
  (forall b, studies_ok (api (call_request u p "studies" "biosampleGoldId" b)) = true)
  /\ (forall sid,
        api (call_request u p "biosamples" "studyGoldId" sid)
        = JArr (items (api (call_request u p "biosamples" "studyGoldId" sid)))
        /\ api (call_request u p "projects" "studyGoldId" sid)
           = JArr (items (api (call_request u p "projects" "studyGoldId" sid))))
  /\ (forall sid,
        forallb sample_ok (biosamples_of sid) = true
        /\ NoDup (map sample_name (biosamples_of sid))
        /\ forallb project_ok (projects_of sid) = true).

(** The study a biosample id resolves to: the first result of the studies
    query, or the stub. *)
Definition resolved (b : string) : JSON :=
  match api (call_request u p "studies" "biosampleGoldId" (GoldClient._normalize_id b)) with
  | JArr (study :: _) => study
  | _ => stub_study (GoldClient._normalize_id b)
  end.

Definition study_id_of (study : JSON) : string :=
  match getitem study "studyGoldId" with
  | Ok (JStr sid) => sid
  | _ => EmptyString
  end.

(** The biosamples of a study with their projects woven in. *)
Definition woven (sid : string) : list JSON :=
  map (attach (projects_of sid)) (biosamples_of sid).

(** What a full-study fetch for the biosample id [b] returns. *)
Definition full_study (b : string) : JSON :=
  or_null (setitem (resolved b) "biosamples"
             (JArr (woven (study_id_of (resolved b))))).

(** The [biosampleGoldId]s in the biosample list of the study of [b]. *)
Definition listed_with (b : string) : list string :=
  map sample_name (biosamples_of (study_id_of (resolved b))).

(** The studies the loop fetches, in order: an id is passed over when it
    is among the [biosampleGoldId]s [seen] in the biosample lists of the
    studies fetched before. *)
Fixpoint plan (ids : list string) (seen : list string) : list JSON :=
  match ids with
  | [] => []
  | b :: rest =>
      if existsb (String.eqb b) seen then plan rest seen
      else full_study b :: plan rest (seen ++ listed_with b)
  end.

(** The dict [biosample_to_study] has exactly the names [seen] for keys. *)
Definition tracks (m : KDict JSON) (seen : list string) : Prop :=
  forall name, keyed_get (JStr name) m = None <-> ~ In name seen.

End Service.

(** *** More states and measures the statements speak about *)

(** A service that answers 200 with a body that is not JSON. *)
Definition garbled_service : State :=
  started (fun _ _ => {| status_code := 200; body := None |}) [] "user" "pass".

(** A process that finds an outdated answer to [studies_of_Gb1] in its cache
    while the service would now answer [study_Gs1]. *)
Definition stale_cache : State :=
  started (down_for 0 study_Gs1) [(studies_of_Gb1, JArr [])] "user" "pass".

(** The number of occurrences of a character in a string. *)
Fixpoint count_char (c : ascii) (s : string) : nat :=
  match s with
  | EmptyString => 0
  | String a s' => (if Ascii.eqb a c then 1 else 0) + count_char c s'
  end.

(** A machine whose key file has a first line with blanks around the key
    and a line after it. *)
Definition key_on_disk : State :=
  {| network := always study_S1; requests := []; sleeps := []; cache := [];
     logs := [];
     files := read_only (fun path =>
       if String.eqb path "config/gold-key.txt"
       then Some [" alice:s3cret" ++ String "010"%char EmptyString; "bob:other"]
       else None);
     written := []; gold_key := None; num_calls := 0 |}.

(** *** What the methods of the client leave alone *)

(** The request goes to one of the three GOLD endpoints, with the user and
    the password of the key. *)
Definition to_gold (key : option (string * string)) (rq : Request) : bool :=
  match key with
  | Some (u, p) =>
      String.eqb (user rq) u && String.eqb (passwd rq) p
      && (endpoint_is "studies" rq || endpoint_is "biosamples" rq
          || endpoint_is "projects" rq)
  | None => false
  end.

(** From [s] to [s'] new requests were made, all of them to GOLD with the
    key of [s]. *)
Definition asked_gold (s s' : State) : Prop :=
  exists l, requests s' = (requests s ++ l)%list
    /\ forallb (to_gold (gold_key s)) l = true.

(** From [s] to [s'] no document was written, no file and no key changed,
    the network is the same, no call was uncounted and no cache entry was
    dropped or replaced. *)
Definition kept (s s' : State) : Prop :=
  written s' = written s /\ files s' = files s /\ network s' = network s
  /\ gold_key s' = gold_key s
  /\ num_calls s <= num_calls s'
  /\ (forall rq v, cache_get rq (cache s) = Some v ->
        cache_get rq (cache s') = Some v).

(** A computation that does this whatever the state. *)
Definition confined {A} (m : M A) : Prop :=
  forall s, asked_gold s (snd (m s)) /\ kept s (snd (m s)).

(** *** Studies asked for by their own id *)

(** The first record the service lists for a study id, as [fetch_study]
    asks for it. *)
Definition listed_study (api : Request -> JSON) (u p id : string) : JSON :=
  match api (call_request u p "studies" "studyGoldId" (GoldClient._normalize_id id)) with
  | JArr (study :: _) => study
  | _ => JNull
  end.

(** The service lists a record for the study id. *)
Definition study_listed (api : Request -> JSON) (u p id : string) : bool :=
  match api (call_request u p "studies" "studyGoldId" (GoldClient._normalize_id id)) with
  | JArr (JObj _ :: _) => true
  | _ => false
  end.

(** What [fetch_study] returns for a listed study: the record, with the
    woven biosamples of the id that was asked for when they are wanted. *)
Definition study_record (api : Request -> JSON) (u p id : string)
    (include_biosamples : bool) : JSON :=
  if include_biosamples
  then or_null (setitem (listed_study api u p id) "biosamples"
                  (JArr (woven api u p (GoldClient._normalize_id id))))
  else listed_study api u p id.

(** The calls one [fetch_study] makes. *)
Definition calls_per_study (include_biosamples : bool) : nat :=
  if include_biosamples then 3 else 1.

(** A service that knows the study [S1] and no other. *)
Definition only_S1 (rq : Request) : JSON :=
  if endpoint_is "studies" rq
  then if params_eqb (params rq) [("studyGoldId", "S1")]
       then JArr [JObj [("studyGoldId", JStr "S1")]]
       else JArr []
  else study_S1 rq.

Definition serving_only_S1 : State := started (always only_S1) [] "user" "pass".

(** A client with a key, facing [study_S1], on a machine with a list of
    ids: two study lines, an indented study line and a biosample line. *)
Definition list_on_disk : State :=
  {| network := always study_S1; requests := []; sleeps := []; cache := [];
     logs := [];
     files := read_only (fun path =>
       if String.eqb path "studies.txt"
       then Some ["Gs1" ++ String "010"%char EmptyString; " Gs2"; "Gb3"; "Gs1"]
       else None);
     written := []; gold_key := Some ("user", "pass"); num_calls := 0 |}.

(** *** What the command reads and writes *)

(** The ids the command takes from the lines of the id file. *)
Definition ids_of (lines : list string) : list string :=
  map strip (filter (fun line => startswith "Gs" line || startswith "Gb" line) lines).

(** The file the command writes for one study into the directory [dir]. *)
Definition study_file (api : Request -> JSON) (u p dir output_format : string)
    (include_biosamples : bool) (id : string) : Dump :=
  {| target := Some (dir ++ "/" ++ id ++ "." ++ output_format);
     format := dump_format output_format;
     payload := study_record api u p id include_biosamples |}.

(** The one document the command writes to [--output]. *)
Definition studies_document (output_format : string) (studies : list JSON) : Dump :=
  {| target := None; format := dump_format output_format; payload := JArr studies |}.

(** The state after the last log record of the command. *)
Definition command_done (s : State) : State :=
  add_log {| level := INFO; fmt := "DONE. Calls = {}"; args := [LNat (num_calls s)] |} s.

(** What is left of [s] after the prefix [p], when [s] starts with it. *)
Fixpoint after_prefix (p s : string) : option string :=
  match p, s with
  | EmptyString, _ => Some s
  | String a p', String b s' => if Ascii.eqb a b then after_prefix p' s' else None
  | String _ _, EmptyString => None
  end.

(** The path names an entry of the directory [dir] itself. *)
Definition entry_of (dir path : string) : bool :=
  match after_prefix (dir ++ "/") path with
  | Some name => Nat.eqb (count_char "/" name) 0
  | None => false
  end.

(** A machine with the key file [user:pass], an id file of the given lines
    and a directory [out], the one place where files can be written, facing
    the service [study_S1]. *)
Definition machine_with (lines : list string) : State :=
  {| network := always study_S1; requests := []; sleeps := []; cache := [];
     logs := [];
     files :=
       {| lines_of := fun path =>
            if String.eqb path "config/gold-key.txt" then Some ["user:pass"]
            else if String.eqb path "ids.txt" then Some lines
            else None;
          unwritable := fun path =>
            if entry_of "out" path then None else Some FileNotFoundError |};
     written := []; gold_key := None; num_calls := 0 |}.

(** *** Running again over the cache of an earlier run *)

(** The cache [c'] holds what the cache [c] holds. *)
Definition cache_le (c c' : list (Request * JSON)) : Prop :=
  forall rq v, cache_get rq c = Some v -> cache_get rq c' = Some v.

(** The process [t] is where the process [s] is, as far as the client can
    tell without the network: the same key, counter and files, over a cache
    that holds the entries of [C]. *)
Definition follows (C : list (Request * JSON)) (s t : State) : Prop :=
  gold_key t = gold_key s /\ num_calls t = num_calls s /\ files t = files s
  /\ cache_le C (cache t).

(** Running [m] in [t] repeats any successful run of [m] that left its
    cache within [C]: the same result and the same documents, without a
    request, a pause or a new cache entry. *)
Definition replays {A} (C : list (Request * JSON)) (m : M A) : Prop :=
  forall s v s' t,
    m s = (Ok v, s') -> cache_le (cache s') C -> follows C s t ->
    exists t', m t = (Ok v, t') /\ follows C s' t'
      /\ requests t' = requests t /\ sleeps t' = sleeps t /\ cache t' = cache t
      /\ exists docs, written s' = (written s ++ docs)%list
                   /\ written t' = (written t ++ docs)%list.

(** [m] drops and replaces no cache entry. *)
Definition keeps_cache {A} (m : M A) : Prop :=
  forall s, cache_le (cache s) (cache (snd (m s))).

Definition resumable {A} (C : list (Request * JSON)) (m : M A) : Prop :=
  keeps_cache m /\ replays C m.

(** A later process over the cache and the files that [s] leaves, with the
    service down for good. *)
Definition offline (s : State) : State :=
  {| network := fun _ _ => {| status_code := 503; body := None |};
     requests := []; sleeps := []; cache := cache s; logs := [];
     files := files s; written := []; gold_key := None; num_calls := 0 |}.

(** *** Records with a key missing *)

(** A study one of whose biosamples has no [biosampleGoldId]. *)
Definition study_with_unnamed_sample (rq : Request) : JSON :=
  if endpoint_is "biosamples" rq
  then JArr [sample_B1; JObj [("biosampleName", JStr "soil")]; sample_B2]
  else study_S1 rq.

(** A study with a project of [B1] that has no [projectGoldId], after a
    project of a biosample the study does not have. *)
Definition study_with_unnamed_project (rq : Request) : JSON :=
  if endpoint_is "projects" rq
  then JArr [project_of_B3; JObj [("biosampleGoldId", JStr "B1")]]
  else study_S1 rq.

(** *** Biosamples that share an id *)

(** A sample of [later] has the id of [b]. *)
Definition shadowed (b : JSON) (later : list JSON) : bool :=
  existsb (fun b' => String.eqb (sample_name b') (sample_name b)) later.

(** Weaving when ids may repeat: of the samples with one id the last one
    gets the projects of that id, the ones before it stay as fetched. *)
Fixpoint attach_last (ps : list JSON) (bs : list JSON) : list JSON :=
  match bs with
  | [] => []
  | b :: rest => (if shadowed b rest then b else attach ps b) :: attach_last ps rest
  end.

(** The position of the last occurrence of [name]. *)
Fixpoint last_index (name : string) (names : list string) : option nat :=
  match names with
  | [] => None
  | n :: rest =>
      match last_index name rest with
      | Some i => Some (S i)
      | None => if String.eqb n name then Some 0 else None
      end
  end.

(** A study that lists the biosample [B1] twice. *)
Definition study_with_twin_samples (rq : Request) : JSON :=
  if endpoint_is "biosamples" rq
  then JArr [sample_B1; sample_B2; JObj [("biosampleGoldId", JStr "B1"); ("n", JInt 2)]]
  else study_S1 rq.

(** * Properties *)

(** ** Running the monad *)

Lemma bind_ok {A B} (m : M A) (k : A -> M B) s a s' :
  m s = (Ok a, s') -> bind m k s = k a s'.
Proof. intros H. unfold bind. now rewrite H. Qed.

Lemma bind_raise {A B} (m : M A) (k : A -> M B) s e s' :
  m s = (Raise e, s') -> bind m k s = (Raise e, s').
Proof. intros H. unfold bind. now rewrite H. Qed.

(** ** Cache keys *)

Lemma params_eqb_eq p q : params_eqb p q = true <-> p = q.
Proof.
  revert q. induction p as [|[a b] p IH]; intros [|[c d] q]; simpl; try easy.
  unfold param_eqb; simpl. rewrite !andb_true_iff, !String.eqb_eq, IH.
  split.
  - intros [[-> ->] ->]. reflexivity.
  - intros H. injection H as -> -> ->. auto.
Qed.

Lemma request_eqb_eq a b : request_eqb a b = true <-> a = b.
Proof.
  destruct a as [u1 p1 n1 w1], b as [u2 p2 n2 w2]. unfold request_eqb; simpl.
  rewrite !andb_true_iff, !String.eqb_eq, params_eqb_eq.
  split.
  - intros [[[-> ->] ->] ->]. reflexivity.
  - intros H. injection H as -> -> -> ->. auto.
Qed.

Lemma request_eqb_refl a : request_eqb a a = true.
Proof. now apply request_eqb_eq. Qed.

Lemma cache_get_put_same k v c : cache_get k (cache_put k v c) = Some v.
Proof.
  induction c as [|[k' v'] c IH]; simpl.
  - now rewrite request_eqb_refl.
  - destruct (request_eqb k' k) eqn:E; simpl.
    + now rewrite request_eqb_refl.
    + now rewrite E.
Qed.

Lemma cache_get_put_other k k' v c :
  k' <> k -> cache_get k (cache_put k' v c) = cache_get k c.
Proof.
  intros N. induction c as [|[k2 v2] c IH]; simpl.
  - destruct (request_eqb k' k) eqn:E; [|reflexivity].
    apply request_eqb_eq in E. contradiction.
  - destruct (request_eqb k2 k') eqn:E; simpl.
    + apply request_eqb_eq in E. subst k2.
      destruct (request_eqb k' k) eqn:E2; [|reflexivity].
      apply request_eqb_eq in E2. contradiction.
    + destruct (request_eqb k2 k); [reflexivity|apply IH].
Qed.

Lemma cache_put_put k v c : cache_put k v (cache_put k v c) = cache_put k v c.
Proof.
  induction c as [|[k' v'] c IH]; simpl.
  - now rewrite request_eqb_refl.
  - destruct (request_eqb k' k) eqn:E; simpl.
    + now rewrite request_eqb_refl.
    + now rewrite E, IH.
Qed.

(** ** The retry loop *)

Lemma fetch_attempts_retry fuel attempt rq s :
  status_code (next_response rq s) <> 200%Z ->
  fetch_attempts (S fuel) attempt rq s
  = fetch_attempts fuel (S attempt) rq (failed rq (next_response rq s) attempt s).
Proof.
  intros H. apply Z.eqb_neq in H. unfold next_response in *.
  cbn [fetch_attempts]. unfold bind at 1. unfold requests_get at 1.
  unfold bind at 1. unfold log at 1, modify at 1.
  rewrite H. reflexivity.
Qed.

Lemma fetch_attempts_done fuel attempt rq s :
  status_code (next_response rq s) = 200%Z ->
  fetch_attempts (S fuel) attempt rq s
  = response_json (next_response rq s) (answered rq (next_response rq s) s).
Proof.
  intros H. apply Z.eqb_eq in H. unfold next_response in *.
  cbn [fetch_attempts]. unfold bind at 1. unfold requests_get at 1.
  unfold bind at 1. unfold log at 1, modify at 1.
  rewrite H. reflexivity.
Qed.

Lemma fetch_attempts_exhausted attempt rq s :
  fetch_attempts 0 attempt rq s
  = (Raise (Exception ("API call to " ++ endpoint_url rq ++ " failed after "
                         ++ str_of_nat attempt ++ " attempts")), s).
Proof. reflexivity. Qed.

Lemma response_json_state r s : snd (response_json r s) = s.
Proof. unfold response_json. now destruct (body r). Qed.

(** The loop touches neither the cache nor the client. *)
Lemma fetch_attempts_frame fuel : forall attempt rq s,
  let s' := snd (fetch_attempts fuel attempt rq s) in
  cache s' = cache s /\ gold_key s' = gold_key s /\ num_calls s' = num_calls s
  /\ network s' = network s /\ files s' = files s /\ written s' = written s.
Proof.
  induction fuel as [|fuel IH]; intros attempt rq s; cbv zeta.
  - rewrite fetch_attempts_exhausted. simpl. repeat split.
  - destruct (Z.eq_dec (status_code (next_response rq s)) 200) as [E|E].
    + rewrite (fetch_attempts_done fuel attempt rq s E), response_json_state.
      simpl. repeat split.
    + rewrite (fetch_attempts_retry fuel attempt rq s E).
      apply (IH (S attempt) rq (failed rq (next_response rq s) attempt s)).
Qed.

(** ** Memoization *)

Lemma memoize_hit f rq s v :
  cache_get rq (cache s) = Some v -> memoize f rq s = (Ok v, s).
Proof. intros H. unfold memoize, bind, gets. now rewrite H. Qed.

Lemma memoize_miss_ok f rq s v s' :
  cache_get rq (cache s) = None -> f rq s = (Ok v, s') ->
  memoize f rq s = (Ok v, set_cache (cache_put rq v (cache s')) s').
Proof.
  intros H F. unfold memoize, bind, gets. rewrite H. unfold bind. now rewrite F.
Qed.

Lemma memoize_miss_raise f rq s e s' :
  cache_get rq (cache s) = None -> f rq s = (Raise e, s') ->
  memoize f rq s = (Raise e, s').
Proof.
  intros H F. unfold memoize, bind, gets. rewrite H. unfold bind. now rewrite F.
Qed.

Lemma set_cache_set_cache c c' s : set_cache c (set_cache c' s) = set_cache c s.
Proof. reflexivity. Qed.

(** The two stacked decorators act as one on a miss... *)
Lemma fetch_url_miss_ok rq s v s' :
  cache_get rq (cache s) = None -> fetch_url_body rq s = (Ok v, s') ->
  _fetch_url rq s = (Ok v, set_cache (cache_put rq v (cache s)) s').
Proof.
  intros H F. unfold _fetch_url.
  pose proof (fetch_attempts_frame (4 - 0) 0 rq s) as Fr. simpl in Fr.
  unfold fetch_url_body in F. simpl in F. rewrite F in Fr. simpl in Fr.
  destruct Fr as [Hc _].
  rewrite (memoize_miss_ok _ rq s v (set_cache (cache_put rq v (cache s')) s') H).
  - simpl. rewrite Hc, cache_put_put. reflexivity.
  - apply memoize_miss_ok; assumption.
Qed.

Lemma fetch_url_miss_raise rq s e s' :
  cache_get rq (cache s) = None -> fetch_url_body rq s = (Raise e, s') ->
  _fetch_url rq s = (Raise e, s').
Proof.
  intros H F. unfold _fetch_url.
  apply memoize_miss_raise; [assumption|].
  apply memoize_miss_raise; assumption.
Qed.

(** ... and on a hit nothing at all happens. *)
Lemma fetch_url_hit rq s v :
  cache_get rq (cache s) = Some v -> _fetch_url rq s = (Ok v, s).
Proof. intros H. unfold _fetch_url. now apply memoize_hit. Qed.

(** Whatever [_fetch_url] returns is in the cache afterwards. *)
Lemma fetch_url_ok_cached rq s v s' :
  _fetch_url rq s = (Ok v, s') -> cache_get rq (cache s') = Some v.
Proof.
  intros H. destruct (cache_get rq (cache s)) as [v0|] eqn:E.
  - rewrite (fetch_url_hit _ _ _ E) in H. injection H as <- <-. exact E.
  - destruct (fetch_url_body rq s) as [[v1|e] s1] eqn:F.
    + rewrite (fetch_url_miss_ok _ _ _ _ E F) in H. injection H as <- <-.
      simpl. apply cache_get_put_same.
    + rewrite (fetch_url_miss_raise _ _ _ _ E F) in H. discriminate.
Qed.

Lemma total_slept_app s l :
  fold_right Z.add 0%Z (sleeps s ++ l)%list
  = (total_slept s + fold_right Z.add 0%Z l)%Z.
Proof.
  unfold total_slept. induction (sleeps s) as [|x xs IH]; simpl; [reflexivity|].
  rewrite IH. lia.
Qed.

Lemma retried_frame k : forall attempt rq s,
  network (retried k attempt rq s) = network s
  /\ cache (retried k attempt rq s) = cache s
  /\ requests (retried k attempt rq s) = (requests s ++ repeat rq k)%list
  /\ sleeps (retried k attempt rq s) = (sleeps s ++ pauses attempt k)%list.
Proof.
  induction k as [|k IH]; intros attempt rq s; simpl.
  - unfold pauses. simpl. now rewrite !app_nil_r.
  - destruct (IH (S attempt) rq (failed rq (next_response rq s) attempt s))
      as (Hn & Hc & Hr & Hs).
    rewrite Hn, Hc, Hr, Hs. simpl. unfold pauses. simpl.
    rewrite <- !app_assoc. simpl. repeat split.
Qed.

(** As long as the service answers anything but 200 the loop goes round. *)
Lemma fetch_attempts_retried rq k : forall fuel attempt s,
  (forall i, i < k -> status_code (response_at i rq s) <> 200%Z) ->
  fetch_attempts (k + fuel) attempt rq s
  = fetch_attempts fuel (k + attempt) rq (retried k attempt rq s).
Proof.
  induction k as [|k IH]; intros fuel attempt s H; [reflexivity|].
  cbn [Nat.add retried].
  rewrite fetch_attempts_retry.
  - replace (S (k + attempt)) with (k + S attempt) by lia.
    apply IH. intros i Hi. specialize (H (S i) ltac:(lia)).
    unfold response_at in *. simpl. rewrite length_app. simpl.
    now replace (List.length (requests s) + 1 + i)
      with (List.length (requests s) + S i) by lia.
  - specialize (H 0 ltac:(lia)). unfold response_at, next_response in *.
    now rewrite Nat.add_0_r in H.
Qed.

Lemma next_response_retried k attempt rq s :
  next_response rq (retried k attempt rq s) = response_at k rq s.
Proof.
  destruct (retried_frame k attempt rq s) as (Hn & _ & Hr & _).
  unfold next_response, response_at.
  now rewrite Hn, Hr, length_app, repeat_length.
Qed.

(** The undecorated fetch when exactly the first [k < 4] answers are failures. *)
Lemma fetch_url_body_after rq s k :
  k < 4 ->
  (forall i, i < k -> status_code (response_at i rq s) <> 200%Z) ->
  status_code (response_at k rq s) = 200%Z ->
  fetch_url_body rq s
  = response_json (response_at k rq s)
      (answered rq (response_at k rq s) (retried k 0 rq s)).
Proof.
  intros Hk Hf Hok. unfold fetch_url_body.
  replace (4 - 0) with (k + S (3 - k)) by lia.
  rewrite (fetch_attempts_retried rq k _ 0 s Hf).
  rewrite fetch_attempts_done; rewrite next_response_retried; [reflexivity|assumption].
Qed.

Lemma fetch_url_body_exhausted rq s :
  (forall i, i < 4 -> status_code (response_at i rq s) <> 200%Z) ->
  fetch_url_body rq s
  = (Raise (Exception ("API call to " ++ endpoint_url rq
                         ++ " failed after 4 attempts")), retried 4 0 rq s).
Proof.
  intros Hf. unfold fetch_url_body.
  change (4 - 0) with (4 + 0).
  rewrite (fetch_attempts_retried rq 4 0 0 s Hf). reflexivity.
Qed.

(** ** C3 and C4: the fetcher's retries *)

(** C3.  A fetch that is not answered from the cache and whose HTTP request
    gets a non-200 status on the first three attempts and 200 on the fourth
    returns the payload of the fourth response (what its [json()] gives),
    after exactly four requests and pauses of 1, 5 and 25 seconds, that is
    [5 ** attempt] after the failed attempts 0, 1 and 2: 1 + 5 + 25 seconds
    in all. *)
Theorem fetch_url_succeeds_on_fourth_attempt rq s :
  cache_get rq (cache s) = None ->
  status_code (response_at 0 rq s) <> 200%Z ->
  status_code (response_at 1 rq s) <> 200%Z ->
  status_code (response_at 2 rq s) <> 200%Z ->
  status_code (response_at 3 rq s) = 200%Z ->
  let out := _fetch_url rq s in
  fst out = match body (response_at 3 rq s) with
            | Some payload => Ok payload
            | None => Raise JSONDecodeError
            end
  /\ requests (snd out) = (requests s ++ [rq; rq; rq; rq])%list
  /\ sleeps (snd out) = (sleeps s ++ [5 ^ 0; 5 ^ 1; 5 ^ 2])%list%Z
  /\ total_slept (snd out) = (total_slept s + (1 + 5 + 25))%Z.
Proof.
  intros Hmiss H0 H1 H2 H3 out.
  assert (Hf : forall i, i < 3 -> status_code (response_at i rq s) <> 200%Z).
  { intros [|[|[|i]]] Hi; try assumption; lia. }
  pose proof (fetch_url_body_after rq s 3 ltac:(lia) Hf H3) as Hb.
  destruct (retried_frame 3 0 rq s) as (_ & _ & Hr & Hs).
  assert (Hout : fst out = match body (response_at 3 rq s) with
                           | Some payload => Ok payload
                           | None => Raise JSONDecodeError
                           end
                 /\ requests (snd out) = (requests (retried 3 0 rq s) ++ [rq])%list
                 /\ sleeps (snd out) = sleeps (retried 3 0 rq s)).
  { subst out. unfold response_json in Hb.
    destruct (body (response_at 3 rq s)) as [payload|].
    - rewrite (fetch_url_miss_ok _ _ _ _ Hmiss Hb). repeat split.
    - rewrite (fetch_url_miss_raise _ _ _ _ Hmiss Hb). repeat split. }
  destruct Hout as (Hres & Hreq & Hsl).
  split; [exact Hres|]. split; [|split].
  - rewrite Hreq, Hr, <- app_assoc. reflexivity.
  - rewrite Hsl, Hs. reflexivity.
  - unfold total_slept at 1. rewrite Hsl, Hs, total_slept_app. reflexivity.
Qed.

Lemma fetch_url_succeeds_on_fourth_attempt_witness :
  fst (_fetch_url studies_of_Gb1 (facing_outage 3)) = Ok study_Gs1
  /\ total_slept (snd (_fetch_url studies_of_Gb1 (facing_outage 3))) = 31%Z.
Proof.
  destruct (fetch_url_succeeds_on_fourth_attempt studies_of_Gb1 (facing_outage 3))
    as (Hres & _ & _ & Hsl);
    [reflexivity | discriminate | discriminate | discriminate | reflexivity |].
  split; [exact Hres | exact Hsl].
Defined.

(** C4.  A fetch that is not answered from the cache and whose HTTP request
    gets a non-200 status on all four attempts raises an exception whose
    message names the endpoint URL and the number of attempts, 4; it returns
    no value and memoizes nothing. *)
Theorem fetch_url_raises_after_four_failures rq s :
  cache_get rq (cache s) = None ->
  status_code (response_at 0 rq s) <> 200%Z ->
  status_code (response_at 1 rq s) <> 200%Z ->
  status_code (response_at 2 rq s) <> 200%Z ->
  status_code (response_at 3 rq s) <> 200%Z ->
  let out := _fetch_url rq s in
  fst out = Raise (Exception ("API call to " ++ endpoint_url rq
                                ++ " failed after " ++ str_of_nat 4 ++ " attempts"))
  /\ (forall payload, fst out <> Ok payload)
  /\ requests (snd out) = (requests s ++ [rq; rq; rq; rq])%list
  /\ cache (snd out) = cache s.
Proof.
  intros Hmiss H0 H1 H2 H3 out.
  assert (Hf : forall i, i < 4 -> status_code (response_at i rq s) <> 200%Z).
  { intros [|[|[|[|i]]]] Hi; try assumption; lia. }
  pose proof (fetch_url_body_exhausted rq s Hf) as Hb.
  destruct (retried_frame 4 0 rq s) as (_ & Hc & Hr & _).
  subst out. rewrite (fetch_url_miss_raise _ _ _ _ Hmiss Hb). simpl.
  split; [reflexivity|]. split; [discriminate|]. split; assumption.
Qed.

Lemma fetch_url_raises_after_four_failures_witness :
  fst (_fetch_url studies_of_Gb1 (facing_outage 4))
  = Raise (Exception
      "API call to https://gold.jgi.doe.gov/rest/nmdc/studies failed after 4 attempts").
Proof.
  destruct (fetch_url_raises_after_four_failures studies_of_Gb1 (facing_outage 4))
    as (Hres & _);
    [reflexivity | discriminate | discriminate | discriminate | discriminate |].
  exact Hres.
Defined.

(** ** C6: memoization *)

(** The loop makes one request per iteration: at most [fuel] of them, at
    least one when it returns, exactly one when the first answer is 200. *)
Lemma fetch_attempts_requests rq fuel : forall attempt s,
  exists k, k <= fuel
    /\ requests (snd (fetch_attempts fuel attempt rq s)) = (requests s ++ repeat rq k)%list
    /\ ((exists v, fst (fetch_attempts fuel attempt rq s) = Ok v) -> 1 <= k)
    /\ (1 <= fuel -> status_code (next_response rq s) = 200%Z -> k = 1).
Proof.
  induction fuel as [|fuel IH]; intros attempt s.
  - exists 0. rewrite fetch_attempts_exhausted. simpl. rewrite app_nil_r.
    repeat split; try lia. intros [v Hv]. discriminate.
  - destruct (Z.eq_dec (status_code (next_response rq s)) 200) as [E|E].
    + exists 1. rewrite (fetch_attempts_done fuel attempt rq s E), response_json_state.
      repeat split; lia.
    + destruct (IH (S attempt) (failed rq (next_response rq s) attempt s))
        as (k & Hk & Hr & _ & _).
      exists (S k). rewrite (fetch_attempts_retry fuel attempt rq s E), Hr.
      simpl. rewrite <- app_assoc. repeat split; lia.
Qed.

(** C6, as the code has it.  After a successful fetch, a fetch with the same
    endpoint URL, parameters and credentials is answered from the cache with
    the same payload and changes nothing: no request, no pause, no log
    record.  This holds in the same process, in a later run over the same
    cache directory, and in any state whose cache still holds the entry.
    The network calls of the pair are therefore those of the first fetch:
    none when that was itself a cache hit, otherwise one per attempt of its
    retry loop, between one and four, and exactly one when its first attempt
    was answered 200. *)
Theorem second_fetch_served_from_cache rq s payload s1 :
  _fetch_url rq s = (Ok payload, s1) ->
  _fetch_url rq s1 = (Ok payload, s1)
  /\ _fetch_url rq (next_run s1) = (Ok payload, next_run s1)
  /\ (forall s2, cache_get rq (cache s2) = cache_get rq (cache s1) ->
        _fetch_url rq s2 = (Ok payload, s2))
  /\ fetch_twice rq s = (Ok (payload, payload), s1)
  /\ exists k, k <= 4
       /\ requests s1 = (requests s ++ repeat rq k)%list
       /\ (cache_get rq (cache s) <> None -> k = 0)
       /\ (cache_get rq (cache s) = None -> 1 <= k)
       /\ (cache_get rq (cache s) = None ->
           status_code (response_at 0 rq s) = 200%Z -> k = 1).
Proof.
  intros H. pose proof (fetch_url_ok_cached _ _ _ _ H) as Hc.
  assert (Hhit : forall s2, cache_get rq (cache s2) = cache_get rq (cache s1) ->
                            _fetch_url rq s2 = (Ok payload, s2)).
  { intros s2 E. apply fetch_url_hit. now rewrite E. }
  split; [now apply Hhit|]. split; [now apply Hhit|]. split; [exact Hhit|].
  split.
  { unfold fetch_twice. rewrite (bind_ok _ _ _ _ _ H).
    rewrite (bind_ok _ _ _ _ _ (Hhit s1 eq_refl)). reflexivity. }
  destruct (cache_get rq (cache s)) as [v0|] eqn:E.
  - rewrite (fetch_url_hit _ _ _ E) in H. injection H as <- <-.
    exists 0. simpl. rewrite app_nil_r. repeat split; try lia; discriminate.
  - destruct (fetch_attempts_requests rq (4 - 0) 0 s) as (k & Hk & Hr & Hpos & Hone).
    fold (fetch_url_body rq s) in Hr, Hpos.
    destruct (fetch_url_body rq s) as [[v1|e] s'] eqn:F.
    + rewrite (fetch_url_miss_ok _ _ _ _ E F) in H. injection H as <- <-.
      exists k. simpl in *. repeat split; try assumption.
      * intros N. now contradiction N.
      * intros _. apply Hpos. now exists v1.
      * intros _ H200. apply Hone; [lia|].
        unfold response_at, next_response in *. now rewrite Nat.add_0_r in H200.
    + rewrite (fetch_url_miss_raise _ _ _ _ E F) in H. discriminate.
Qed.

Lemma second_fetch_served_from_cache_witness :
  fetch_twice studies_of_Gb1 (facing_outage 0)
  = (Ok (study_Gs1, study_Gs1), snd (_fetch_url studies_of_Gb1 (facing_outage 0))).
Proof.
  destruct (second_fetch_served_from_cache studies_of_Gb1 (facing_outage 0) study_Gs1
              (snd (_fetch_url studies_of_Gb1 (facing_outage 0))) eq_refl)
    as (_ & _ & _ & Htwice & _).
  exact Htwice.
Defined.

(** C6 as stated fails when the first fetch has to retry: the service
    answers the first request 503 and the second 200, the first fetch
    succeeds, the second is served from the cache, and two network calls
    have been made, not one. *)
Lemma two_fetches_two_network_calls :
  fst (_fetch_url studies_of_Gb1 (facing_outage 1)) = Ok study_Gs1
  /\ fst (fetch_twice studies_of_Gb1 (facing_outage 1)) = Ok (study_Gs1, study_Gs1)
  /\ requests (snd (fetch_twice studies_of_Gb1 (facing_outage 1)))
     = [studies_of_Gb1; studies_of_Gb1]
  /\ List.length (requests (snd (fetch_twice studies_of_Gb1 (facing_outage 1)))) <> 1.
Proof. vm_compute. repeat split; discriminate. Qed.

(** ** C7: identifiers *)

Lemma replace_absent old s :
  str_contains old s = false -> str_replace old "" s = s.
Proof.
  unfold str_replace. induction s as [|c s IH]; [reflexivity|].
  intros H. cbn [str_contains] in H. apply orb_false_iff in H as [Hp Hs].
  cbn [replace_from]. rewrite Hp, (IH Hs). reflexivity.
Qed.

(** An identifier in which [gold:] does not occur is left as it is. *)
Lemma normalize_id_local_id s :
  str_contains "gold:" s = false -> GoldClient._normalize_id s = s.
Proof. apply replace_absent. Qed.

(** A CURIE whose local identifier holds no further [gold:] loses its prefix. *)
Lemma normalize_id_curie s :
  str_contains "gold:" s = false -> GoldClient._normalize_id ("gold:" ++ s) = s.
Proof.
  intros H. unfold GoldClient._normalize_id, str_replace.
  cbn. replace (prefix "" s) with true by (now destruct s).
  now apply replace_absent.
Qed.

Example normalize_id_Gb123 : GoldClient._normalize_id "gold:Gb123" = "Gb123".
Proof. reflexivity. Qed.

(** C7 at the inputs where the code departs from it: [str.replace] removes
    every occurrence of [gold:], not only a leading one, so the local
    identifier of [gold:gold:Gb123] comes out as [Gb123] instead of
    [gold:Gb123], and [Gbgold:123], which has no prefix, is changed. *)
Theorem normalize_id_removes_inner_occurrences :
  GoldClient._normalize_id "gold:gold:Gb123" = "Gb123"
  /\ GoldClient._normalize_id "gold:gold:Gb123" <> "gold:Gb123"
  /\ GoldClient._normalize_id "Gbgold:123" = "Gb123"
  /\ GoldClient._normalize_id "Gbgold:123" <> "Gbgold:123".
Proof. vm_compute. repeat split; discriminate. Qed.

(** ** Which exceptions can be raised *)

Lemma never_ret {A} e (a : A) : never_raises e (ret a).
Proof. intros s. discriminate. Qed.

Lemma never_raise {A} e e' : e' <> e -> never_raises e (@raise A e').
Proof. intros N s H. simpl in H. injection H as ->. now apply N. Qed.

Lemma never_lift {A} e (r : Result A) : r <> Raise e -> never_raises e (lift r).
Proof. intros N s. exact N. Qed.

Lemma never_modify e f : never_raises e (modify f).
Proof. intros s. discriminate. Qed.

Lemma never_gets {A} e (f : State -> A) : never_raises e (gets f).
Proof. intros s. discriminate. Qed.

Lemma never_bind {A B} e (m : M A) (k : A -> M B) :
  never_raises e m -> (forall a, never_raises e (k a)) -> never_raises e (bind m k).
Proof.
  intros Hm Hk s. unfold bind. specialize (Hm s).
  destruct (m s) as [[a|e'] s']; [apply Hk|].
  simpl in *. intros H. apply Hm. injection H as ->. reflexivity.
Qed.

Lemma never_log e lv f a : never_raises e (log lv f a).
Proof. apply never_modify. Qed.

Create HintDb never.
#[local] Hint Resolve never_ret never_modify never_gets never_log : never.

Lemma getitem_no_index_error o k : getitem o k <> Raise IndexError.
Proof. destruct o; simpl; try discriminate. destruct (dict_get k fields); discriminate. Qed.

Lemma setitem_no_index_error o k v : setitem o k v <> Raise IndexError.
Proof. destruct o; discriminate. Qed.

Lemma py_len_no_index_error o : py_len o <> Raise IndexError.
Proof. destruct o; discriminate. Qed.

Lemma py_iter_no_index_error o : py_iter o <> Raise IndexError.
Proof. destruct o; discriminate. Qed.

Lemma contains_no_index_error k o : contains k o <> Raise IndexError.
Proof. destruct o; discriminate. Qed.

Lemma py_append_no_index_error o x : py_append o x <> Raise IndexError.
Proof. destruct o; discriminate. Qed.

Lemma fetch_attempts_no_index_error fuel : forall attempt rq,
  never_raises IndexError (fetch_attempts fuel attempt rq).
Proof.
  induction fuel as [|fuel IH]; intros attempt rq s.
  - rewrite fetch_attempts_exhausted. discriminate.
  - destruct (Z.eq_dec (status_code (next_response rq s)) 200) as [E|E].
    + rewrite (fetch_attempts_done fuel attempt rq s E).
      unfold response_json. destruct (body (next_response rq s)); discriminate.
    + rewrite (fetch_attempts_retry fuel attempt rq s E). apply IH.
Qed.

Lemma memoize_never e f :
  (forall rq, never_raises e (f rq)) -> forall rq, never_raises e (memoize f rq).
Proof.
  intros Hf rq. unfold memoize. apply never_bind; [auto with never|].
  intros [v|]; [auto with never|].
  apply never_bind; [apply Hf|]. intros v.
  apply never_bind; auto with never.
Qed.

Lemma fetch_url_no_index_error rq : never_raises IndexError (_fetch_url rq).
Proof.
  unfold _fetch_url. apply memoize_never. apply memoize_never.
  intros rq'. apply fetch_attempts_no_index_error.
Qed.

Lemma call_no_index_error endpoint ps :
  never_raises IndexError (GoldClient._call endpoint ps).
Proof.
  unfold GoldClient._call. apply never_bind; [auto with never|].
  intros [[u p]|]; [|apply never_raise; discriminate].
  apply never_bind; [apply fetch_url_no_index_error|]. intros obj.
  apply never_bind; auto with never.
Qed.

Lemma index_samples_no_index_error samples : forall i acc,
  GoldClient.index_samples i samples acc <> Raise IndexError.
Proof.
  induction samples as [|b bs IH]; intros i acc; simpl; [discriminate|].
  pose proof (getitem_no_index_error b "biosampleGoldId") as G.
  destruct (getitem b "biosampleGoldId") as [k|e].
  - destruct (hashable k); [apply IH|discriminate].
  - intros H. injection H as ->. now apply G.
Qed.

Lemma weave_project_no_index_error id sbi projects project store :
  never_raises IndexError (GoldClient.weave_project id sbi projects project store).
Proof.
  unfold GoldClient.weave_project.
  apply never_bind; [apply never_lift, getitem_no_index_error|]. intros k.
  assert (G : never_raises IndexError
    (if negb (hashable k) then raise TypeError
     else match keyed_get k sbi with
       | None =>
         log ERROR "Sample {} not not samples for {}" [LJson k; LStr id] ;;;
         log ERROR "All samples: {}" [LKeys (map fst sbi)] ;;;
         n <- lift (py_len projects) ;;
         log ERROR "Projects: {}" [LNat n] ;;;
         log ERROR "Project: {}" [LJson project] ;;;
         ret store
       | Some i =>
         let sample := nth i store JNull in
         pid <- lift (getitem project "projectGoldId") ;;
         log DEBUG "Adding project {} to {}" [LJson pid; LJson k] ;;;
         has <- lift (contains "projects" sample) ;;
         sample <- (if has then ret sample
                    else lift (setitem sample "projects" (JArr []))) ;;
         plist <- lift (getitem sample "projects") ;;
         plist <- lift (py_append plist project) ;;
         sample <- lift (setitem sample "projects" plist) ;;
         ret (update_nth i sample store)
       end)).
  { destruct (negb (hashable k)); [apply never_raise; discriminate|].
    destruct (keyed_get k sbi) as [i|].
    - cbv zeta.
      apply never_bind; [apply never_lift, getitem_no_index_error|]. intros pid.
      apply never_bind; [auto with never|]. intros _.
      apply never_bind; [apply never_lift, contains_no_index_error|]. intros has.
      apply never_bind.
      { destruct has; [auto with never|apply never_lift, setitem_no_index_error]. }
      intros sample.
      apply never_bind; [apply never_lift, getitem_no_index_error|]. intros plist.
      apply never_bind; [apply never_lift, py_append_no_index_error|]. intros plist'.
      apply never_bind; [apply never_lift, setitem_no_index_error|]. intros sample'.
      auto with never.
    - repeat (apply never_bind; [auto with never|intros _]).
      apply never_bind; [apply never_lift, py_len_no_index_error|]. intros n.
      repeat (apply never_bind; [auto with never|intros _]).
      auto with never. }
  destruct k; try exact G. auto with never.
Qed.

Lemma weave_projects_no_index_error id sbi projects todo : forall store,
  never_raises IndexError (GoldClient.weave_projects id sbi projects todo store).
Proof.
  induction todo as [|p todo IH]; intros store; simpl; [auto with never|].
  apply never_bind; [apply weave_project_no_index_error|]. intros store'. apply IH.
Qed.

Lemma fetch_biosamples_no_index_error id include_project :
  never_raises IndexError (GoldClient.fetch_biosamples_by_study id include_project).
Proof.
  unfold GoldClient.fetch_biosamples_by_study. cbv zeta.
  destruct (existsb _ EXCLUSION_LIST); [auto with never|].
  apply never_bind; [apply call_no_index_error|]. intros biosamples.
  destruct include_project; [|auto with never].
  apply never_bind; [apply call_no_index_error|]. intros projects.
  apply never_bind; [apply never_lift, py_iter_no_index_error|]. intros samples.
  apply never_bind; [apply never_lift, index_samples_no_index_error|]. intros sbi.
  apply never_bind; [apply never_lift, py_iter_no_index_error|]. intros todo.
  apply never_bind; [apply weave_projects_no_index_error|]. intros store.
  auto with never.
Qed.

Lemma bind_ok_inv {A B} (m : M A) (k : A -> M B) s b s' :
  bind m k s = (Ok b, s') ->
  exists a s1, m s = (Ok a, s1) /\ k a s1 = (Ok b, s').
Proof.
  unfold bind. destruct (m s) as [[a|e] s1]; [|discriminate].
  intros H. now exists a, s1.
Qed.

Lemma lift_ok_inv {A} (r : Result A) s a s' :
  lift r s = (Ok a, s') -> r = Ok a /\ s' = s.
Proof. unfold lift. intros H. injection H as -> ->. auto. Qed.

(** What [fetch_biosamples_by_study] returns after weaving has a length. *)
Lemma fetch_biosamples_has_len id s biosamples s' :
  GoldClient.fetch_biosamples_by_study id true s = (Ok biosamples, s') ->
  exists n, py_len biosamples = Ok n.
Proof.
  unfold GoldClient.fetch_biosamples_by_study. cbv zeta.
  destruct (existsb _ EXCLUSION_LIST).
  { intros H. injection H as <- <-. now exists 0. }
  intros H.
  apply bind_ok_inv in H as (raw & s1 & _ & H).
  apply bind_ok_inv in H as (projects & s2 & _ & H).
  apply bind_ok_inv in H as (samples & s3 & Hit & H).
  apply lift_ok_inv in Hit as [Hit _].
  apply bind_ok_inv in H as (sbi & s4 & _ & H).
  apply bind_ok_inv in H as (todo & s5 & _ & H).
  apply bind_ok_inv in H as (store & s6 & _ & H).
  injection H as <- <-.
  destruct raw; simpl in *; try discriminate; eauto.
Qed.

(** ** C9: [fetch_study] takes the first result *)

(** C9.  When the studies query of [fetch_study] returns an empty list the
    call ends in an [IndexError], raised by [results[0]], whatever
    [include_biosamples] is: no stub study is made up.  When the query
    returns at least one result, the first result is what is returned
    (after the biosamples have been attached to it when they are asked
    for), and no [IndexError] can come out. *)
Theorem fetch_study_takes_first_result id s results s1 :
  GoldClient._call "studies" [("studyGoldId", GoldClient._normalize_id id)]
    (announce_study (GoldClient._normalize_id id) s) = (Ok (JArr results), s1) ->
  match results with
  | [] =>
      forall include_biosamples,
        GoldClient.fetch_study id include_biosamples s = (Raise IndexError, s1)
  | first :: _ =>
      GoldClient.fetch_study id false s = (Ok first, s1)
      /\ GoldClient.fetch_study id true s
         = (biosamples <- GoldClient.fetch_biosamples_by_study
                            (GoldClient._normalize_id id) true ;;
            lift (setitem first "biosamples" biosamples)) s1
      /\ fst (GoldClient.fetch_study id true s) <> Raise IndexError
  end.
Proof.
  intros H.
  assert (Hrun : forall include_biosamples,
    GoldClient.fetch_study id include_biosamples s
    = (study <- lift (getitem0 (JArr results)) ;;
       if include_biosamples
       then biosamples <- GoldClient.fetch_biosamples_by_study
                            (GoldClient._normalize_id id) true ;;
            lift (setitem study "biosamples" biosamples)
       else ret study) s1).
  { intros inc. unfold GoldClient.fetch_study. cbv zeta.
    unfold bind at 1. unfold log at 1, modify at 1.
    fold (announce_study (GoldClient._normalize_id id) s).
    now rewrite (bind_ok _ _ _ _ _ H). }
  destruct results as [|first rest].
  - intros inc. rewrite Hrun. reflexivity.
  - split; [rewrite Hrun; reflexivity|]. split; [rewrite Hrun; reflexivity|].
    rewrite Hrun. simpl getitem0.
    apply (never_bind IndexError (lift (Ok first))); [apply never_lift; discriminate|].
    intros study.
    apply never_bind; [apply fetch_biosamples_no_index_error|].
    intros biosamples. apply never_lift, setitem_no_index_error.
Qed.

Lemma fetch_study_takes_first_result_witness :
  fst (GoldClient.fetch_study "gold:Gs0144570" false empty_service) = Raise IndexError.
Proof.
  pose proof (fetch_study_takes_first_result "gold:Gs0144570" empty_service []
                (snd (GoldClient.fetch_study "gold:Gs0144570" false empty_service))
                eq_refl false) as H.
  exact (f_equal fst H).
Defined.

(** ** C5: the stub study *)

(** C5.  When the studies query for a biosample returns no result,
    [fetch_study_by_biosample_id] raises nothing on that account: it logs a
    warning and returns the record [{"studyGoldId": "GsFAKE-<id>"}], [<id>]
    being the normalized biosample id.  With [include_biosamples] the
    biosamples fetched for that placeholder id are attached to the stub,
    whose [studyGoldId] stays the same; only an error of that nested fetch
    can come out. *)
Theorem stub_study_when_no_study id s s1 :
  GoldClient._call "studies" [("biosampleGoldId", GoldClient._normalize_id id)]
    (announce_study (GoldClient._normalize_id id) s) = (Ok (JArr []), s1) ->
  let nid := GoldClient._normalize_id id in
  GoldClient.fetch_study_by_biosample_id id false s
  = (Ok (JObj [("studyGoldId", JStr ("GsFAKE-" ++ nid))]), warn_stub nid s1)
  /\ (forall biosamples s2,
        GoldClient.fetch_biosamples_by_study ("GsFAKE-" ++ nid) true (warn_stub nid s1)
        = (Ok biosamples, s2) ->
        exists n, py_len biosamples = Ok n
          /\ GoldClient.fetch_study_by_biosample_id id true s
             = (Ok (JObj [("studyGoldId", JStr ("GsFAKE-" ++ nid));
                          ("biosamples", biosamples)]),
                report_fetched nid n s2))
  /\ (forall e s2,
        GoldClient.fetch_biosamples_by_study ("GsFAKE-" ++ nid) true (warn_stub nid s1)
        = (Raise e, s2) ->
        GoldClient.fetch_study_by_biosample_id id true s = (Raise e, s2)).
Proof.
  intros H nid.
  assert (Hrun : forall include_biosamples,
    GoldClient.fetch_study_by_biosample_id id include_biosamples s
    = (if include_biosamples
       then
         biosamples <- GoldClient.fetch_biosamples_by_study ("GsFAKE-" ++ nid) true ;;
         study <- lift (setitem (stub_study nid) "biosamples" biosamples) ;;
         attached <- lift (getitem study "biosamples") ;;
         n <- lift (py_len attached) ;;
         log INFO "  Fetched biosamples for {} == {}" [LStr nid; LNat n] ;;;
         ret study
       else ret (stub_study nid)) (warn_stub nid s1)).
  { intros inc. unfold GoldClient.fetch_study_by_biosample_id. cbv zeta.
    unfold bind at 1. unfold log at 1, modify at 1.
    fold (announce_study (GoldClient._normalize_id id) s).
    rewrite (bind_ok _ _ _ _ _ H). destruct inc; reflexivity. }
  split; [rewrite Hrun; reflexivity|]. split.
  - intros biosamples s2 Hb.
    destruct (fetch_biosamples_has_len _ _ _ _ Hb) as [n Hn].
    exists n. split; [exact Hn|].
    rewrite Hrun, (bind_ok _ _ _ _ _ Hb). simpl.
    unfold bind at 1. unfold lift at 1.
    unfold bind at 1. unfold lift at 1. simpl.
    unfold bind at 1. unfold lift at 1. rewrite Hn. reflexivity.
  - intros e s2 Hb. rewrite Hrun. apply bind_raise. exact Hb.
Qed.

Lemma stub_study_when_no_study_witness :
  fst (GoldClient.fetch_study_by_biosample_id "gold:Gb0051032" false empty_service)
  = Ok (JObj [("studyGoldId", JStr "GsFAKE-Gb0051032")]).
Proof.
  destruct (stub_study_when_no_study "gold:Gb0051032" empty_service
              (snd (GoldClient._call "studies" [("biosampleGoldId", "Gb0051032")]
                      (announce_study "Gb0051032" empty_service))) eq_refl)
    as (H & _).
  exact (f_equal fst H).
Defined.

(** ** Dicts *)

Lemma dict_get_set_same k v d : dict_get k (dict_set k v d) = Some v.
Proof.
  induction d as [|[k' v'] d IH]; simpl.
  - now rewrite String.eqb_refl.
  - destruct (String.eqb k' k) eqn:E; simpl.
    + now rewrite String.eqb_refl.
    + now rewrite E.
Qed.

Lemma dict_get_set_other k k' v d :
  k' <> k -> dict_get k (dict_set k' v d) = dict_get k d.
Proof.
  intros N. induction d as [|[k2 v2] d IH]; simpl.
  - destruct (String.eqb k' k) eqn:E; [|reflexivity].
    apply String.eqb_eq in E. contradiction.
  - destruct (String.eqb k2 k') eqn:E; simpl.
    + apply String.eqb_eq in E. subst k2.
      destruct (String.eqb k' k) eqn:E2; [|reflexivity].
      apply String.eqb_eq in E2. contradiction.
    + destruct (String.eqb k2 k); [reflexivity|apply IH].
Qed.

Lemma dict_set_set k v v' d : dict_set k v' (dict_set k v d) = dict_set k v' d.
Proof.
  induction d as [|[k' w] d IH]; simpl.
  - now rewrite String.eqb_refl.
  - destruct (String.eqb k' k) eqn:E; simpl.
    + now rewrite String.eqb_refl.
    + now rewrite E, IH.
Qed.

(** ** Samples with their projects *)

Lemma add_project_ok b p : sample_ok b = true -> sample_ok (add_project b p) = true.
Proof.
  destruct b as [| | | |l|d]; try discriminate. simpl.
  rewrite dict_get_set_other by discriminate.
  destruct (dict_get "biosampleGoldId" d) as [[]|]; try discriminate.
  now rewrite dict_get_set_same.
Qed.

Lemma add_project_getitem b p k :
  k <> "projects" -> getitem (add_project b p) k = getitem b k.
Proof.
  intros N. destruct b as [| | | |l|d]; try reflexivity. simpl.
  rewrite dict_get_set_other; [reflexivity|]. intros E. now apply N.
Qed.

Lemma add_project_name b p : sample_name (add_project b p) = sample_name b.
Proof. unfold sample_name. rewrite add_project_getitem; [reflexivity|discriminate]. Qed.

Lemma add_project_projects b p :
  sample_ok b = true -> sample_projects (add_project b p) = (sample_projects b ++ [p])%list.
Proof.
  destruct b as [| | | |l|d]; try discriminate. intros _.
  unfold sample_projects at 1. simpl. now rewrite dict_get_set_same.
Qed.

Lemma add_projects_facts l : forall b,
  sample_ok b = true ->
  sample_ok (fold_left add_project l b) = true
  /\ sample_name (fold_left add_project l b) = sample_name b
  /\ sample_projects (fold_left add_project l b) = (sample_projects b ++ l)%list
  /\ (forall k, k <> "projects" ->
        getitem (fold_left add_project l b) k = getitem b k).
Proof.
  induction l as [|p l IH]; intros b Hb; simpl.
  - rewrite app_nil_r. auto.
  - destruct (IH (add_project b p) (add_project_ok b p Hb)) as (H1 & H2 & H3 & H4).
    rewrite H1, H2, H3, add_project_name, add_project_projects by assumption.
    rewrite <- app_assoc. repeat split; try reflexivity.
    intros k N. rewrite H4 by assumption. now apply add_project_getitem.
Qed.

Lemma attach_ok ps b : sample_ok b = true -> sample_ok (attach ps b) = true.
Proof. intros H. now apply add_projects_facts. Qed.

Lemma attach_name ps b : sample_ok b = true -> sample_name (attach ps b) = sample_name b.
Proof. intros H. now apply add_projects_facts. Qed.

(** One more project at the end of the list goes to its sample only. *)
Lemma attach_snoc ps p b :
  attach (ps ++ [p]) b
  = if belongs_to b p then add_project (attach ps b) p else attach ps b.
Proof.
  unfold attach. rewrite filter_app. simpl.
  destruct (belongs_to b p); [|now rewrite app_nil_r].
  now rewrite fold_left_app.
Qed.

(** ** Positions of the samples *)

Lemma keyed_get_app {V} k (d d' : KDict V) :
  keyed_get k (d ++ d')%list = match keyed_get k d with
                          | Some v => Some v
                          | None => keyed_get k d'
                          end.
Proof.
  induction d as [|[k' v] d IH]; simpl; [reflexivity|].
  destruct (key_eqb k' k); [reflexivity|apply IH].
Qed.

Lemma keyed_set_fresh {V} k (v : V) d :
  keyed_get k d = None -> keyed_set k v d = (d ++ [(k, v)])%list.
Proof.
  induction d as [|[k' v'] d IH]; simpl; [reflexivity|].
  destruct (key_eqb k' k); [discriminate|]. intros H. now rewrite IH.
Qed.

Lemma keyed_get_positions k names : forall from,
  keyed_get k (positions names from)
  = match k with
    | JStr name => option_map (Nat.add from) (index_of name names)
    | _ => None
    end.
Proof.
  unfold positions.
  induction names as [|n names IH]; intros from; simpl.
  - now destruct k.
  - rewrite IH. destruct k as [| | |name| |]; try reflexivity. simpl.
    destruct (String.eqb n name); simpl.
    + now rewrite Nat.add_0_r.
    + destruct (index_of name names); simpl; [|reflexivity].
      f_equal. lia.
Qed.

Lemma index_of_none name names : index_of name names = None <-> ~ In name names.
Proof.
  induction names as [|n names IH]; simpl; [tauto|].
  destruct (String.eqb n name) eqn:E.
  - apply String.eqb_eq in E. split; [discriminate|]. intros H. exfalso. auto.
  - apply String.eqb_neq in E. destruct (index_of name names); simpl.
    + split; [discriminate|]. intros H. exfalso. apply H. right.
      apply Decidable.not_not; [|intros N; now apply IH in N].
      destruct (in_dec string_dec name names); [left|right]; assumption.
    + split; [|reflexivity]. intros _ [H|H]; [contradiction|].
      now apply (proj1 IH).
Qed.

Lemma sample_ok_getitem b :
  sample_ok b = true -> getitem b "biosampleGoldId" = Ok (JStr (sample_name b)).
Proof.
  destruct b as [| | | |l|d]; try discriminate. unfold sample_name. simpl.
  destruct (dict_get "biosampleGoldId" d) as [[]|]; try discriminate. reflexivity.
Qed.

(** The comprehension over well-formed samples with distinct names. *)
Lemma index_samples_positions bs : forall from acc,
  forallb sample_ok bs = true ->
  NoDup (map sample_name bs) ->
  (forall b, In b bs -> keyed_get (JStr (sample_name b)) acc = None) ->
  GoldClient.index_samples from bs acc
  = Ok (acc ++ positions (map sample_name bs) from)%list.
Proof.
  induction bs as [|b bs IH]; intros from acc Hok Hnd Hacc; simpl.
  - unfold positions. simpl. now rewrite app_nil_r.
  - apply andb_true_iff in Hok as [Hb Hok]. inversion Hnd as [|? ? Hnotin Hnd']; subst.
    rewrite (sample_ok_getitem b Hb). simpl.
    rewrite keyed_set_fresh by (apply Hacc; now left).
    rewrite IH; try assumption.
    + unfold positions. simpl. now rewrite <- app_assoc.
    + intros b' Hin. rewrite keyed_get_app, (Hacc b' (or_intror Hin)). simpl.
      destruct (String.eqb (sample_name b) (sample_name b')) eqn:E; [|reflexivity].
      apply String.eqb_eq in E. exfalso. apply Hnotin. rewrite E.
      now apply in_map.
Qed.

(** Updating the sample at the position of [name] touches the sample of
    that name and no other. *)
Lemma update_at_index (F g : JSON -> JSON) name bs : forall i,
  NoDup (map sample_name bs) ->
  index_of name (map sample_name bs) = Some i ->
  update_nth i (g (nth i (map F bs) JNull)) (map F bs)
  = map (fun b => if String.eqb (sample_name b) name then g (F b) else F b) bs.
Proof.
  induction bs as [|b bs IH]; intros i Hnd Hi; simpl in *; [discriminate|].
  inversion Hnd as [|? ? Hnotin Hnd']; subst.
  destruct (String.eqb (sample_name b) name) eqn:E.
  - injection Hi as <-. simpl. f_equal.
    apply String.eqb_eq in E. subst name.
    apply map_ext_in. intros b' Hin.
    destruct (String.eqb (sample_name b') (sample_name b)) eqn:E'; [|reflexivity].
    apply String.eqb_eq in E'. exfalso. apply Hnotin. rewrite <- E'. now apply in_map.
  - destruct (index_of name (map sample_name bs)) as [j|]; [|discriminate].
    injection Hi as <-. simpl. f_equal. now apply IH.
Qed.

(** ** Weaving, one project at a time *)

(** The statements of [weave_project] that append the project to a sample. *)
Lemma append_project_run sample project i store s :
  sample_ok sample = true ->
  (has <- lift (contains "projects" sample) ;;
   sample' <- (if has then ret sample
               else lift (setitem sample "projects" (JArr []))) ;;
   plist <- lift (getitem sample' "projects") ;;
   plist <- lift (py_append plist project) ;;
   sample' <- lift (setitem sample' "projects" plist) ;;
   ret (update_nth i sample' store)) s
  = (Ok (update_nth i (add_project sample project) store), s).
Proof.
  destruct sample as [| | | |l|d]; try discriminate. intros Hok.
  unfold add_project, sample_projects. simpl in *.
  destruct (dict_get "biosampleGoldId" d) as [[]|]; try discriminate.
  unfold bind, lift, ret. simpl. unfold dict_has.
  destruct (dict_get "projects" d) as [[| | | |l|]|] eqn:E; try discriminate.
  - simpl. rewrite E. reflexivity.
  - simpl. rewrite dict_get_set_same. simpl. now rewrite dict_set_set.
Qed.

Lemma known_index_of name p bs :
  getitem p "biosampleGoldId" = Ok (JStr name) ->
  known bs p = match index_of name (map sample_name bs) with
               | Some _ => true
               | None => false
               end.
Proof.
  intros Hp. unfold known, belongs_to. rewrite Hp.
  induction bs as [|b bs IH]; simpl; [reflexivity|].
  destruct (String.eqb (sample_name b) name); [reflexivity|].
  rewrite IH. now destruct (index_of name (map sample_name bs)).
Qed.

Lemma index_of_nth name names : forall i,
  index_of name names = Some i -> nth_error names i = Some name.
Proof.
  induction names as [|n names IH]; intros i; simpl; [discriminate|].
  destruct (String.eqb n name) eqn:E.
  - intros H. injection H as <-. apply String.eqb_eq in E. now subst.
  - destruct (index_of name names) as [j|]; [|discriminate].
    intros H. injection H as <-. simpl. now apply IH.
Qed.

Lemma nth_attached_ok done bs i name :
  forallb sample_ok bs = true ->
  index_of name (map sample_name bs) = Some i ->
  sample_ok (nth i (map (attach done) bs) JNull) = true.
Proof.
  intros Hok Hi. apply index_of_nth in Hi.
  assert (Hlt : i < List.length (map (attach done) bs)).
  { rewrite length_map, <- (length_map sample_name). apply nth_error_Some.
    now rewrite Hi. }
  pose proof (nth_In _ JNull Hlt) as Hin.
  apply in_map_iff in Hin as (b & <- & Hb).
  apply attach_ok. rewrite forallb_forall in Hok. now apply Hok.
Qed.

(** A project that belongs to no fetched sample leaves every sample as it is. *)
Lemma attach_unknown done p bs :
  known bs p = false ->
  map (attach (done ++ [p])) bs = map (attach done) bs.
Proof.
  intros H. apply map_ext_in. intros b Hb. rewrite attach_snoc.
  unfold known in H.
  destruct (belongs_to b p) eqn:E; [|reflexivity].
  assert (existsb (fun b => belongs_to b p) bs = true) as C.
  { apply existsb_exists. now exists b. }
  congruence.
Qed.

Lemma known_not_str p bs :
  (forall name, getitem p "biosampleGoldId" <> Ok (JStr name)) -> known bs p = false.
Proof.
  intros H. unfold known, belongs_to.
  destruct (getitem p "biosampleGoldId") as [[| | |name| |]|];
    try (induction bs; simpl; auto; fail).
  exfalso. now apply (H name).
Qed.

Lemma positions_keys names : forall from,
  map fst (positions names from) = map JStr names.
Proof.
  unfold positions. induction names as [|n names IH]; intros from; simpl; [reflexivity|].
  now rewrite IH.
Qed.

(** One turn of the loop over well-formed records. *)
Lemma weave_project_step id bs n projects done p s :
  forallb sample_ok bs = true ->
  NoDup (map sample_name bs) ->
  project_ok p = true ->
  py_len projects = Ok n ->
  GoldClient.weave_project id (positions (map sample_name bs) 0) projects p
    (map (attach done) bs) s
  = (Ok (map (attach (done ++ [p])) bs), add_logs (project_log id bs n p) s).
Proof.
  intros Hok Hnd Hp Hn.
  destruct p as [| | | |l|d]; try discriminate. simpl in Hp.
  destruct (dict_get "biosampleGoldId" d) as [k|] eqn:Ek; [|discriminate].
  destruct (dict_get "projectGoldId" d) as [pid|] eqn:Epid; [|discriminate].
  assert (Hget : getitem (JObj d) "biosampleGoldId" = Ok k) by (simpl; now rewrite Ek).
  assert (Hpid : getitem (JObj d) "projectGoldId" = Ok pid) by (simpl; now rewrite Epid).
  unfold GoldClient.weave_project. rewrite (bind_ok _ _ s k s); [|now rewrite Hget].
  unfold project_log, null_sample_id. rewrite Hget, Hpid. simpl or_null.
  assert (Hmiss : keyed_get k (positions (map sample_name bs) 0) = None ->
                  known bs (JObj d) = false ->
    (log ERROR "Sample {} not not samples for {}" [LJson k; LStr id] ;;;
     log ERROR "All samples: {}" [LKeys (map fst (positions (map sample_name bs) 0))] ;;;
     n0 <- lift (py_len projects) ;;
     log ERROR "Projects: {}" [LNat n0] ;;;
     log ERROR "Project: {}" [LJson (JObj d)] ;;;
     ret (map (attach done) bs)) s
    = (Ok (map (attach (done ++ [JObj d])) bs),
       add_logs
         [ {| level := ERROR; fmt := "Sample {} not not samples for {}";
              args := [LJson k; LStr id] |};
           {| level := ERROR; fmt := "All samples: {}";
              args := [LKeys (map (fun b => JStr (sample_name b)) bs)] |};
           {| level := ERROR; fmt := "Projects: {}"; args := [LNat n] |};
           {| level := ERROR; fmt := "Project: {}"; args := [LJson (JObj d)] |} ] s)).
  { intros _ Hk. rewrite (attach_unknown _ _ _ Hk).
    rewrite positions_keys, map_map.
    unfold bind, log, modify, lift, ret. rewrite Hn. reflexivity. }
  destruct k as [| | |name| |]; try discriminate.
  - (* None *)
    rewrite (attach_unknown done (JObj d) bs); [reflexivity|].
    apply known_not_str. intros name. rewrite Hget. discriminate.
  - (* a boolean *)
    assert (Hk : known bs (JObj d) = false).
    { apply known_not_str. intros name. rewrite Hget. discriminate. }
    rewrite Hk. simpl negb. cbv iota. rewrite keyed_get_positions.
    apply Hmiss; [apply keyed_get_positions|exact Hk].
  - (* a number *)
    assert (Hk : known bs (JObj d) = false).
    { apply known_not_str. intros name. rewrite Hget. discriminate. }
    rewrite Hk. simpl negb. cbv iota. rewrite keyed_get_positions.
    apply Hmiss; [apply keyed_get_positions|exact Hk].
  - (* a string *)
    rewrite (known_index_of name _ bs Hget).
    simpl negb. cbv iota.
    pose proof (keyed_get_positions (JStr name) (map sample_name bs) 0) as Hpos.
    simpl in Hpos.
    destruct (index_of name (map sample_name bs)) as [i|] eqn:Ei.
    + rewrite Hpos. cbn [negb hashable option_map]. cbv zeta.
      unfold bind at 1. unfold lift at 1.
      unfold bind at 1. unfold log at 1, modify at 1.
      rewrite append_project_run by (now apply (nth_attached_ok done bs i name)).
      simpl add_logs. f_equal. f_equal.
      rewrite (update_at_index (attach done) (fun x => add_project x (JObj d)) name bs i)
        by assumption.
      apply map_ext. intros b. rewrite attach_snoc. unfold belongs_to. now rewrite Hget.
    + rewrite Hpos. simpl option_map.
      apply Hmiss; [exact Hpos|].
      rewrite (known_index_of name _ bs Hget). now rewrite Ei.
Qed.

Lemma add_logs_app l l' s : add_logs (l ++ l') s = add_logs l' (add_logs l s).
Proof. unfold add_logs. apply fold_left_app. Qed.

(** The whole loop over well-formed records. *)
Lemma weave_projects_run id bs n projects todo : forall done s,
  forallb sample_ok bs = true ->
  NoDup (map sample_name bs) ->
  forallb project_ok todo = true ->
  py_len projects = Ok n ->
  GoldClient.weave_projects id (positions (map sample_name bs) 0) projects todo
    (map (attach done) bs) s
  = (Ok (map (attach (done ++ todo)) bs),
     add_logs (flat_map (project_log id bs n) todo) s).
Proof.
  induction todo as [|p todo IH]; intros done s Hok Hnd Hps Hn; simpl.
  - now rewrite app_nil_r.
  - apply andb_true_iff in Hps as [Hp Hps].
    rewrite (bind_ok _ _ _ _ _ (weave_project_step id bs n projects done p s Hok Hnd Hp Hn)).
    rewrite IH by assumption.
    now rewrite <- app_assoc, add_logs_app.
Qed.

Lemma attach_nil bs : map (attach []) bs = bs.
Proof. unfold attach. simpl. apply map_id. Qed.

(** [fetch_biosamples_by_study] over well-formed records: each sample comes
    back with the projects that belong to it. *)
Lemma fetch_biosamples_weaves id s bs ps s1 s2 :
  GoldClient._call "biosamples" [("studyGoldId", GoldClient._normalize_id id)] s
  = (Ok (JArr bs), s1) ->
  GoldClient.fetch_projects_by_study (GoldClient._normalize_id id) s1
  = (Ok (JArr ps), s2) ->
  forallb sample_ok bs = true ->
  NoDup (map sample_name bs) ->
  forallb project_ok ps = true ->
  GoldClient.fetch_biosamples_by_study id true s
  = (Ok (JArr (map (attach ps) bs)),
     add_logs (weave_log (GoldClient._normalize_id id) bs ps) s2).
Proof.
  intros Hb Hp Hok Hnd Hps.
  unfold GoldClient.fetch_biosamples_by_study, EXCLUSION_LIST. cbv zeta.
  cbn [existsb].
  rewrite (bind_ok _ _ _ _ _ Hb), (bind_ok _ _ _ _ _ Hp).
  unfold bind at 1. unfold lift at 1. simpl py_iter.
  unfold bind at 1. unfold lift at 1.
  rewrite (index_samples_positions bs 0 [] Hok Hnd) by reflexivity.
  simpl app.
  unfold bind at 1. unfold lift at 1. simpl py_iter.
  rewrite <- (attach_nil bs) at 2.
  rewrite (bind_ok _ _ _ _ _
             (weave_projects_run _ bs (List.length ps) (JArr ps) ps [] s2
                Hok Hnd Hps eq_refl)).
  reflexivity.
Qed.

(** ** C1: projects are woven into their biosamples *)

(** C1.  When the study's biosamples are records with distinct string
    [biosampleGoldId]s and its projects are records with a [projectGoldId]
    and a [biosampleGoldId], [fetch_biosamples_by_study(id)] raises nothing
    and returns the fetched biosamples, all of them and in their order, each
    one changed in its [projects] only: to the end of that list are appended
    exactly the fetched projects whose [biosampleGoldId] is the biosample's.
    A project whose [biosampleGoldId] is that of no fetched biosample is in
    no list; it is reported in the log. *)
Theorem fetch_biosamples_by_study_weaves_projects id s bs ps s1 s2 :
  GoldClient._call "biosamples" [("studyGoldId", GoldClient._normalize_id id)] s
  = (Ok (JArr bs), s1) ->
  GoldClient.fetch_projects_by_study (GoldClient._normalize_id id) s1
  = (Ok (JArr ps), s2) ->
  forallb sample_ok bs = true ->
  NoDup (map sample_name bs) ->
  forallb project_ok ps = true ->
  GoldClient.fetch_biosamples_by_study id true s
  = (Ok (JArr (map (attach ps) bs)),
     add_logs (weave_log (GoldClient._normalize_id id) bs ps) s2)
  /\ List.length (map (attach ps) bs) = List.length bs
  /\ (forall b, In b bs ->
        sample_name (attach ps b) = sample_name b
        /\ sample_projects (attach ps b)
           = (sample_projects b ++ filter (belongs_to b) ps)%list
        /\ (forall k, k <> "projects" -> getitem (attach ps b) k = getitem b k)
        /\ (forall p, In p (filter (belongs_to b) ps) <->
              In p ps
              /\ getitem p "biosampleGoldId" = getitem b "biosampleGoldId"))
  /\ (forall p, In p ps -> known bs p = false ->
        forall b, In b bs -> ~ In p (filter (belongs_to b) ps)).
Proof.
  intros Hb Hp Hok Hnd Hps.
  split; [apply (fetch_biosamples_weaves id s bs ps s1 s2); assumption|].
  split; [apply length_map|].
  split.
  - intros b Hin.
    assert (Hbok : sample_ok b = true).
    { rewrite forallb_forall in Hok. now apply Hok. }
    destruct (add_projects_facts (filter (belongs_to b) ps) b Hbok) as (_ & Hn & Hpr & Hk).
    split; [exact Hn|]. split; [exact Hpr|]. split; [exact Hk|].
    intros p. rewrite filter_In. unfold belongs_to.
    rewrite (sample_ok_getitem b Hbok).
    split; intros [Hp1 Hp2]; split; try assumption.
    + destruct (getitem p "biosampleGoldId") as [[| | |name| |]|]; try discriminate.
      apply String.eqb_eq in Hp2. now subst.
    + rewrite Hp2. apply String.eqb_refl.
  - intros p _ Hk b Hin Hf. apply filter_In in Hf as [_ Hf].
    unfold known in Hk.
    assert (existsb (fun b => belongs_to b p) bs = true) as C.
    { apply existsb_exists. now exists b. }
    congruence.
Qed.

Lemma fetch_biosamples_by_study_weaves_projects_witness :
  fst (GoldClient.fetch_biosamples_by_study "gold:S1" true serving_S1)
  = Ok (JArr [JObj [("biosampleGoldId", JStr "B1"); ("projects", JArr [project_of_B1])];
              sample_B2]).
Proof.
  destruct (fetch_biosamples_by_study_weaves_projects "gold:S1" serving_S1
              [sample_B1; sample_B2] [project_of_B1; project_of_B3]
              (snd (GoldClient._call "biosamples" [("studyGoldId", "S1")] serving_S1))
              (snd (GoldClient.fetch_projects_by_study "S1"
                      (snd (GoldClient._call "biosamples" [("studyGoldId", "S1")]
                              serving_S1)))))
    as (H & _).
  - reflexivity.
  - reflexivity.
  - reflexivity.
  - repeat constructor; simpl; intuition discriminate.
  - reflexivity.
  - exact (f_equal fst H).
Defined.

(** ** C10: projects without a sample id *)

Lemma weave_project_none id sbi projects p store s :
  null_sample_id p = true ->
  GoldClient.weave_project id sbi projects p store s = (Ok store, s).
Proof.
  unfold null_sample_id. intros H.
  destruct (getitem p "biosampleGoldId") as [[| | | | |]|] eqn:E; try discriminate.
  unfold GoldClient.weave_project. rewrite (bind_ok _ _ s JNull s); [reflexivity|].
  unfold lift. now rewrite E.
Qed.

Lemma weave_projects_skip_none id sbi projects todo : forall store s,
  GoldClient.weave_projects id sbi projects todo store s
  = GoldClient.weave_projects id sbi projects
      (filter (fun p => negb (null_sample_id p)) todo) store s.
Proof.
  induction todo as [|p todo IH]; intros store s; simpl; [reflexivity|].
  destruct (null_sample_id p) eqn:E; simpl.
  - rewrite (bind_ok _ _ _ _ _ (weave_project_none id sbi projects p store s E)).
    apply IH.
  - unfold bind.
    destruct (GoldClient.weave_project id sbi projects p store s) as [[store'|e] s'];
      [apply IH|reflexivity].
Qed.

(** C10.  A project whose [biosampleGoldId] is [None] is passed over by the
    loop of [fetch_biosamples_by_study] before the dict of samples is even
    consulted: the samples and the state, the log included, are left as they
    were, whatever the samples are, one keyed by [None] among them or not.
    The loop, and so the function, gives the same result and the same log as
    over the projects without those. *)
Theorem project_without_sample_id_is_skipped id samples_by_id projects :
  (forall project store s,
     null_sample_id project = true ->
     GoldClient.weave_project id samples_by_id projects project store s = (Ok store, s))
  /\ (forall todo store s,
        GoldClient.weave_projects id samples_by_id projects todo store s
        = GoldClient.weave_projects id samples_by_id projects
            (filter (fun p => negb (null_sample_id p)) todo) store s)
  /\ (forall s biosamples ps s1 s2,
        GoldClient._call "biosamples" [("studyGoldId", GoldClient._normalize_id id)] s
        = (Ok (JArr biosamples), s1) ->
        GoldClient.fetch_projects_by_study (GoldClient._normalize_id id) s1
        = (Ok (JArr ps), s2) ->
        GoldClient.fetch_biosamples_by_study id true s
        = (by_id <- lift (GoldClient.index_samples 0 biosamples []) ;;
           store <- GoldClient.weave_projects (GoldClient._normalize_id id) by_id
                      (JArr ps) (filter (fun p => negb (null_sample_id p)) ps)
                      biosamples ;;
           ret (JArr store)) s2).
Proof.
  split; [intros; now apply weave_project_none|].
  split; [intros; apply weave_projects_skip_none|].
  intros s biosamples ps s1 s2 Hb Hp.
  unfold GoldClient.fetch_biosamples_by_study, EXCLUSION_LIST. cbv zeta.
  cbn [existsb].
  rewrite (bind_ok _ _ _ _ _ Hb), (bind_ok _ _ _ _ _ Hp).
  unfold bind at 1. unfold lift at 1. simpl py_iter.
  unfold bind at 1 3. unfold lift at 1 3.
  destruct (GoldClient.index_samples 0 biosamples []) as [by_id|e]; [|reflexivity].
  unfold bind at 1. unfold lift at 1. simpl py_iter.
  unfold bind at 1 2. rewrite weave_projects_skip_none. reflexivity.
Qed.

Lemma project_without_sample_id_is_skipped_witness :
  GoldClient.weave_project "S0" [(JNull, 0)] (JArr [nameless_project])
    nameless_project [nameless_sample] serving_nameless
  = (Ok [nameless_sample], serving_nameless).
Proof.
  destruct (project_without_sample_id_is_skipped "S0" [(JNull, 0)]
              (JArr [nameless_project])) as (H & _).
  apply H. reflexivity.
Defined.

(** The same on a whole call: the only sample and the only project of the
    study both have [None] for [biosampleGoldId]; the sample comes back
    without projects and nothing is logged but the two status lines of the
    two requests. *)
Example nameless_project_not_attached :
  fst (GoldClient.fetch_biosamples_by_study "S0" true serving_nameless)
  = Ok (JArr [nameless_sample])
  /\ logs (snd (GoldClient.fetch_biosamples_by_study "S0" true serving_nameless))
     = [ {| level := INFO; fmt := "STATUS={}"; args := [LInt 200] |};
         {| level := INFO; fmt := "STATUS={}"; args := [LInt 200] |} ].
Proof. split; reflexivity. Qed.

(** ** C8: the identifier file *)

Lemma startswith_two a b s :
  startswith (String a (String b EmptyString)) s = true ->
  exists rest, s = String a (String b rest).
Proof.
  unfold startswith. destruct s as [|c1 [|c2 rest]]; simpl; try discriminate.
  - destruct (ascii_dec a c1); discriminate.
  - destruct (ascii_dec a c1); [|discriminate].
    destruct (ascii_dec b c2); [|discriminate].
    subst. intros _. now exists rest.
Qed.

Lemma startswith_two_intro a b rest :
  startswith (String a (String b EmptyString)) (String a (String b rest)) = true.
Proof.
  unfold startswith. simpl.
  destruct (ascii_dec a a); [|contradiction].
  destruct (ascii_dec b b); [|contradiction].
  now destruct rest.
Qed.

Lemma rstrip_cons c s : is_space c = false -> rstrip (String c s) = String c (rstrip s).
Proof. intros H. simpl. rewrite H. now destruct (rstrip s). Qed.

(** Stripping a line keeps a prefix of two characters that are not spaces. *)
Lemma strip_keeps_prefix a b s :
  is_space a = false -> is_space b = false ->
  startswith (String a (String b EmptyString)) s = true ->
  startswith (String a (String b EmptyString)) (strip s) = true.
Proof.
  intros Ha Hb H. apply startswith_two in H as [rest ->].
  unfold strip. rewrite (rstrip_cons a _ Ha), (rstrip_cons b _ Hb).
  simpl. rewrite Ha. apply startswith_two_intro.
Qed.

Lemma load_key_frame path s :
  requests (snd (GoldClient.load_key path s)) = requests s
  /\ files (snd (GoldClient.load_key path s)) = files s
  /\ written (snd (GoldClient.load_key path s)) = written s.
Proof.
  unfold GoldClient.load_key, bind, read_lines.
  destruct (files s path) as [[|line rest]|]; simpl; auto.
  destruct (split_on ":" (strip line)) as [|u [|p [|x parts]]]; simpl; auto.
Qed.

Lemma load_key_ok path s line rest u p :
  files s path = Some (line :: rest) ->
  split_on ":" (strip line) = [u; p] ->
  GoldClient.load_key path s = (Ok tt, set_gold_key (Some (u, p)) s).
Proof.
  intros Hf Hs. unfold GoldClient.load_key, bind, read_lines. now rewrite Hf, Hs.
Qed.

(** Lines of both kinds leave identifiers of both kinds. *)
Lemma mixed_lines_mixed_ids lines :
  (exists l, In l lines /\ startswith "Gs" l = true) ->
  (exists l, In l lines /\ startswith "Gb" l = true) ->
  let ids := map strip
               (filter (fun line => startswith "Gs" line || startswith "Gb" line) lines) in
  Nat.eqb (List.length ids) 0 = false
  /\ Nat.ltb 0 (List.length (filter (startswith "Gs") ids)) = true
  /\ Nat.ltb 0 (List.length (filter (startswith "Gb") ids)) = true.
Proof.
  intros (ls & Hls & Hs) (lb & Hlb & Hb) ids.
  assert (Is : In (strip ls) (filter (startswith "Gs") ids)).
  { apply filter_In. split.
    - apply in_map, filter_In. split; [assumption|]. now rewrite Hs.
    - now apply strip_keeps_prefix. }
  assert (Ib : In (strip lb) (filter (startswith "Gb") ids)).
  { apply filter_In. split.
    - apply in_map, filter_In. split; [assumption|]. rewrite Hb. apply orb_true_r.
    - now apply strip_keeps_prefix. }
  assert (Ii : In (strip ls) ids) by (apply filter_In in Is; tauto).
  repeat split.
  - destruct ids; [contradiction|reflexivity].
  - destruct (filter (startswith "Gs") ids); [contradiction|reflexivity].
  - destruct (filter (startswith "Gb") ids); [contradiction|reflexivity].
Qed.

(** C8.  When the identifier file has a line that starts with [Gs] and a
    line that starts with [Gb], the command [fetch-studies] ends in an
    exception and has made no HTTP request by then.  With a key file whose
    first line reads [user:pass] the exception is the one that says that
    study and sample ids cannot be mixed; a missing or malformed key file
    stops the command even earlier. *)
Theorem fetch_studies_rejects_mixed_ids idfile directory clear_cache output_format
    authentication_file include_biosamples s lines :
  files s idfile = Some lines ->
  (exists l, In l lines /\ startswith "Gs" l = true) ->
  (exists l, In l lines /\ startswith "Gb" l = true) ->
  let out := fetch_studies idfile directory clear_cache output_format
               authentication_file include_biosamples s in
  (exists e, fst out = Raise e)
  /\ requests (snd out) = requests s
  /\ written (snd out) = written s
  /\ (forall st, GoldClient.load_key authentication_file
                   (command_started include_biosamples s) = (Ok tt, st) ->
        fst out = Raise (Exception "Cannot mix and match study and sample IDs")).
Proof.
  intros Hf Hs Hb out.
  destruct (mixed_lines_mixed_ids lines Hs Hb) as (Hne & Hst & Hbi).
  cbv zeta in Hne, Hst, Hbi.
  pose proof (load_key_frame authentication_file (command_started include_biosamples s))
    as (Hreq & Hfiles & Hwr).
  assert (Hout : out
    = match GoldClient.load_key authentication_file
              (command_started include_biosamples s) with
      | (Ok _, st) =>
          (Raise (Exception "Cannot mix and match study and sample IDs"),
           if clear_cache then set_cache [] st else st)
      | (Raise e, st) => (Raise e, st)
      end).
  { subst out. unfold fetch_studies.
    unfold bind at 1. unfold log at 1, modify at 1.
    unfold bind at 1. unfold GoldClient.new at 1, modify at 1.
    fold (command_started include_biosamples s).
    unfold bind at 1.
    destruct (GoldClient.load_key authentication_file
                (command_started include_biosamples s)) as [[[]|e] st]; [|reflexivity].
    simpl in Hfiles.
    assert (Hrd : forall st', files st' = files st ->
                  read_lines idfile st' = (Ok lines, st')).
    { intros st' E. unfold read_lines. now rewrite E, Hfiles, Hf. }
    unfold bind at 1.
    destruct clear_cache.
    - unfold GoldClient.clear_cache at 1, modify at 1.
      rewrite (bind_ok _ _ _ _ _ (Hrd (set_cache [] st) eq_refl)).
      rewrite Hne. rewrite (bind_raise _ _ _ (Exception "Cannot mix and match study and sample IDs") (set_cache [] st));
        [reflexivity|].
      now rewrite Hst, Hbi.
    - unfold ret at 1.
      rewrite (bind_ok _ _ _ _ _ (Hrd st eq_refl)).
      rewrite Hne. rewrite (bind_raise _ _ _ (Exception "Cannot mix and match study and sample IDs") st);
        [reflexivity|].
      now rewrite Hst, Hbi. }
  rewrite Hout.
  destruct (GoldClient.load_key authentication_file
              (command_started include_biosamples s)) as [[[]|e] st];
    simpl in *.
  - split; [eauto|]. split; [now destruct clear_cache|].
    split; [now destruct clear_cache|]. intros; reflexivity.
  - split; [eauto|]. split; [assumption|]. split; [assumption|]. discriminate.
Qed.

Lemma fetch_studies_rejects_mixed_ids_witness :
  fst (fetch_studies "ids.txt" None false "yaml" "config/gold-key.txt" false mixed_up)
  = Raise (Exception "Cannot mix and match study and sample IDs")
  /\ requests (snd (fetch_studies "ids.txt" None false "yaml" "config/gold-key.txt"
                      false mixed_up)) = [].
Proof.
  destruct (fetch_studies_rejects_mixed_ids "ids.txt" None false "yaml"
              "config/gold-key.txt" false mixed_up ["Gs0144570"; "Gb0011929"])
    as (_ & Hreq & _ & Hexn).
  - reflexivity.
  - exists "Gs0144570". split; [now left|reflexivity].
  - exists "Gb0011929". split; [right; now left|reflexivity].
  - split; [|exact Hreq].
    apply (Hexn (set_gold_key (Some ("user", "pass")) (command_started false mixed_up))).
    reflexivity.
Defined.

(** ** C2: the batch of biosample ids *)

(** A fetch from a consistent service returns the service's answer and
    leaves the service consistent. *)
Lemma fetch_url_served api rq s :
  served api s ->
  exists s', _fetch_url rq s = (Ok (api rq), s')
    /\ served api s'
    /\ gold_key s' = gold_key s
    /\ num_calls s' = num_calls s
    /\ List.length (requests s') <= List.length (requests s) + 1.
Proof.
  intros Hs. destruct (Hs rq) as [Hhit|[Hmiss Hnet]].
  - exists s. rewrite (fetch_url_hit _ _ _ Hhit). repeat split; auto; lia.
  - assert (Hr : response_at 0 rq s = {| status_code := 200; body := Some (api rq) |}).
    { unfold response_at. apply Hnet. lia. }
    assert (Hb : fetch_url_body rq s = (Ok (api rq), answered rq (response_at 0 rq s) s)).
    { rewrite (fetch_url_body_after rq s 0); [| lia | intros i Hi; lia | now rewrite Hr].
      simpl retried. rewrite Hr. reflexivity. }
    eexists. rewrite (fetch_url_miss_ok _ _ _ _ Hmiss Hb).
    split; [reflexivity|]. split; [|simpl; rewrite length_app; simpl; repeat split; lia].
    intros rq'. simpl.
    destruct (request_eqb rq rq') eqn:E.
    + apply request_eqb_eq in E. subst rq'. left. apply cache_get_put_same.
    + assert (N : rq <> rq').
      { intros ->. now rewrite request_eqb_refl in E. }
      rewrite (cache_get_put_other rq' rq _ _ N).
      destruct (Hs rq') as [H|[H1 H2]]; [now left|right].
      split; [assumption|]. intros n Hn. apply H2.
      rewrite length_app in Hn. simpl in Hn. lia.
Qed.

Lemma call_served api u p endpoint key value s :
  served api s ->
  gold_key s = Some (u, p) ->
  exists s', GoldClient._call endpoint [(key, value)] s
             = (Ok (api (call_request u p endpoint key value)), s')
    /\ served api s'
    /\ gold_key s' = Some (u, p)
    /\ num_calls s' = num_calls s + 1
    /\ List.length (requests s') <= List.length (requests s) + 1.
Proof.
  intros Hs Hk.
  destruct (fetch_url_served api (call_request u p endpoint key value) s Hs)
    as (s1 & Hf & Hs1 & Hk1 & Hn1 & Hr1).
  exists (set_num_calls (num_calls s1 + 1) s1).
  unfold GoldClient._call, bind at 1, gets at 1. rewrite Hk.
  fold (call_request u p endpoint key value).
  rewrite (bind_ok _ _ _ _ _ Hf). unfold bind, modify, ret. simpl.
  split; [reflexivity|]. split; [exact Hs1|].
  split; [now rewrite Hk1|]. split; [now rewrite Hn1|exact Hr1].
Qed.

Lemma same_world_refl s : same_world s s.
Proof. repeat split. Qed.

Lemma same_world_log r s : same_world s (add_log r s).
Proof. repeat split. Qed.

Lemma same_world_trans s1 s2 s3 :
  same_world s1 s2 -> same_world s2 s3 -> same_world s1 s3.
Proof.
  intros (A1 & A2 & A3 & A4 & A5) (B1 & B2 & B3 & B4 & B5).
  repeat split; congruence.
Qed.

Lemma same_world_logs l : forall s, same_world s (add_logs l s).
Proof.
  induction l as [|r l IH]; intros s; simpl; [apply same_world_refl|].
  eapply same_world_trans; [apply same_world_log|apply IH].
Qed.

Lemma served_same_world api s s' : same_world s s' -> served api s -> served api s'.
Proof.
  intros (Hn & Hr & Hc & _) Hs rq. rewrite Hc, Hr, Hn. apply Hs.
Qed.

Lemma resolved_record api u p b :
  service_ok api u p ->
  exists d sid, resolved api u p b = JObj d
    /\ dict_get "studyGoldId" d = Some (JStr sid).
Proof.
  intros (Hst & _). specialize (Hst (GoldClient._normalize_id b)).
  unfold resolved, studies_ok in *.
  destruct (api _) as [| | | |[|[| | | |l|d] rest]|]; try discriminate.
  - eexists _, _. split; reflexivity.
  - destruct (dict_get "studyGoldId" d) as [[| | |sid| |]|] eqn:E; try discriminate.
    now exists d, sid.
Qed.

(** Fetching the biosamples of a study from a consistent service. *)
Lemma fetch_biosamples_served api u p sid s :
  service_ok api u p -> served api s -> gold_key s = Some (u, p) ->
  exists s', GoldClient.fetch_biosamples_by_study sid true s
             = (Ok (JArr (woven api u p sid)), s')
    /\ served api s'
    /\ gold_key s' = Some (u, p)
    /\ num_calls s' = num_calls s + 2
    /\ List.length (requests s') <= List.length (requests s) + 2.
Proof.
  intros Hok Hs Hk. pose proof Hok as (_ & Hlist & Hrec).
  destruct (call_served api u p "biosamples" "studyGoldId"
              (GoldClient._normalize_id sid) s Hs Hk) as (s1 & Hc1 & Hs1 & Hk1 & Hn1 & Hr1).
  destruct (call_served api u p "projects" "studyGoldId"
              (GoldClient._normalize_id (GoldClient._normalize_id sid)) s1 Hs1 Hk1)
    as (s2 & Hc2 & Hs2 & Hk2 & Hn2 & Hr2).
  destruct (Hlist (GoldClient._normalize_id sid)) as [Hb _].
  destruct (Hlist (GoldClient._normalize_id (GoldClient._normalize_id sid))) as [_ Hp].
  rewrite Hb in Hc1. rewrite Hp in Hc2.
  destruct (Hrec sid) as (Hsok & Hnd & Hpok).
  pose proof (fetch_biosamples_weaves sid s _ _ s1 s2 Hc1 Hc2 Hsok Hnd Hpok) as H.
  eexists. split; [exact H|].
  match type of H with
  | _ = (_, add_logs ?l ?s0) => pose proof (same_world_logs l s0) as Hw
  end.
  split; [exact (served_same_world _ _ _ Hw Hs2)|].
  destruct Hw as (_ & Wr & _ & Wk & Wn).
  rewrite Wk, Wn, Wr. repeat split; [assumption|lia|lia].
Qed.

(** The part of [fetch_study_by_biosample_id] that attaches the biosamples
    to the study record [d]. *)
Lemma attach_biosamples_served api u p nid d sid s :
  service_ok api u p -> served api s -> gold_key s = Some (u, p) ->
  dict_get "studyGoldId" d = Some (JStr sid) ->
  exists s',
    (sid0 <- lift (getitem (JObj d) "studyGoldId") ;;
     sid1 <- lift (as_str sid0) ;;
     biosamples <- GoldClient.fetch_biosamples_by_study sid1 true ;;
     study <- lift (setitem (JObj d) "biosamples" biosamples) ;;
     attached <- lift (getitem study "biosamples") ;;
     n <- lift (py_len attached) ;;
     log INFO "  Fetched biosamples for {} == {}" [LStr nid; LNat n] ;;;
     ret study) s
    = (Ok (JObj (dict_set "biosamples" (JArr (woven api u p sid)) d)), s')
    /\ served api s'
    /\ gold_key s' = Some (u, p)
    /\ num_calls s' = num_calls s + 2
    /\ List.length (requests s') <= List.length (requests s) + 2.
Proof.
  intros Hok Hs Hk Hsid.
  destruct (fetch_biosamples_served api u p sid s Hok Hs Hk)
    as (s3 & Hf3 & Hs3 & Hk3 & Hn3 & Hr3).
  exists (report_fetched nid (List.length (woven api u p sid)) s3).
  split.
  - rewrite (bind_ok _ _ s (JStr sid) s) by (unfold lift; simpl; now rewrite Hsid).
    rewrite (bind_ok _ _ s sid s) by reflexivity.
    rewrite (bind_ok _ _ _ _ _ Hf3).
    unfold bind, lift, log, modify, ret. simpl.
    rewrite dict_get_set_same. reflexivity.
  - pose proof (same_world_log {| level := INFO;
                                  fmt := "  Fetched biosamples for {} == {}";
                                  args := [LStr nid;
                                           LNat (List.length (woven api u p sid))] |} s3)
      as W.
    fold (report_fetched nid (List.length (woven api u p sid)) s3) in W.
    split; [exact (served_same_world _ _ _ W Hs3)|].
    destruct W as (_ & Wr & _ & Wk & Wn). rewrite Wk, Wn, Wr. auto.
Qed.

Lemma full_study_record api u p b d sid :
  resolved api u p b = JObj d ->
  dict_get "studyGoldId" d = Some (JStr sid) ->
  full_study api u p b = JObj (dict_set "biosamples" (JArr (woven api u p sid)) d).
Proof.
  intros Hr Hsid. unfold full_study, study_id_of. rewrite Hr. simpl. now rewrite Hsid.
Qed.

(** A full-study fetch from a consistent service: three calls, and the
    study the id resolves to with the woven biosamples of that study. *)
Lemma fetch_study_by_biosample_served api u p b s :
  service_ok api u p -> served api s -> gold_key s = Some (u, p) ->
  exists s', GoldClient.fetch_study_by_biosample_id b true s
             = (Ok (full_study api u p b), s')
    /\ served api s'
    /\ gold_key s' = Some (u, p)
    /\ num_calls s' = num_calls s + 3
    /\ List.length (requests s') <= List.length (requests s) + 3.
Proof.
  intros Hok Hs Hk.
  set (nid := GoldClient._normalize_id b).
  pose proof (same_world_log {| level := INFO; fmt := "Fetching study: {}";
                                args := [LStr nid] |} s) as W0.
  fold (announce_study nid s) in W0.
  assert (Hs0 := served_same_world _ _ _ W0 Hs).
  destruct W0 as (_ & R0 & _ & K0 & N0).
  destruct (call_served api u p "studies" "biosampleGoldId" nid (announce_study nid s)
              Hs0 (eq_trans K0 Hk)) as (s1 & Hc1 & Hs1 & Hk1 & Hn1 & Hr1).
  destruct (resolved_record api u p b Hok) as (d & sid & Hres & Hsid).
  rewrite (full_study_record api u p b d sid Hres Hsid).
  assert (Hrun : forall s2, same_world s1 s2 ->
    (if true
     then sid0 <- lift (getitem (JObj d) "studyGoldId") ;;
          sid1 <- lift (as_str sid0) ;;
          biosamples <- GoldClient.fetch_biosamples_by_study sid1 true ;;
          study <- lift (setitem (JObj d) "biosamples" biosamples) ;;
          attached <- lift (getitem study "biosamples") ;;
          n <- lift (py_len attached) ;;
          log INFO "  Fetched biosamples for {} == {}" [LStr nid; LNat n] ;;;
          ret study
     else ret (JObj d)) s2
    = GoldClient.fetch_study_by_biosample_id b true s ->
    exists s', GoldClient.fetch_study_by_biosample_id b true s
               = (Ok (JObj (dict_set "biosamples" (JArr (woven api u p sid)) d)), s')
      /\ served api s' /\ gold_key s' = Some (u, p)
      /\ num_calls s' = num_calls s + 3
      /\ List.length (requests s') <= List.length (requests s) + 3).
  { intros s2 W2 E.
    assert (Hs2 := served_same_world _ _ _ W2 Hs1).
    destruct W2 as (_ & R2 & _ & K2 & N2).
    destruct (attach_biosamples_served api u p nid d sid s2 Hok Hs2
                (eq_trans K2 Hk1) Hsid) as (s' & Ht & Hs' & Hk' & Hn' & Hr').
    exists s'. rewrite <- E. split; [exact Ht|].
    rewrite N2 in Hn'. rewrite R2 in Hr'. rewrite R0 in Hr1.
    repeat split; try assumption; lia. }
  assert (Hst := proj1 Hok nid). unfold studies_ok in Hst.
  unfold resolved in Hres. fold nid in Hres.
  destruct (api (call_request u p "studies" "biosampleGoldId" nid))
    as [| | | |[|first rest]|] eqn:Ea; try discriminate.
  - apply (Hrun (warn_stub nid s1) (same_world_log _ s1)).
    unfold stub_study in Hres. injection Hres as <-.
    symmetry.
    unfold GoldClient.fetch_study_by_biosample_id. cbv zeta. fold nid.
    unfold bind at 1. unfold log at 1, modify at 1. fold (announce_study nid s).
    rewrite (bind_ok _ _ _ _ _ Hc1). reflexivity.
  - subst first. apply (Hrun s1 (same_world_refl s1)).
    symmetry.
    unfold GoldClient.fetch_study_by_biosample_id. cbv zeta. fold nid.
    unfold bind at 1. unfold log at 1, modify at 1. fold (announce_study nid s).
    rewrite (bind_ok _ _ _ _ _ Hc1). reflexivity.
Qed.

Lemma keyed_get_set_str {V} k name (v : V) m :
  keyed_get (JStr k) (keyed_set (JStr name) v m) = None
  <-> name <> k /\ keyed_get (JStr k) m = None.
Proof.
  induction m as [|[k' v'] m IH]; simpl.
  - destruct (String.eqb name k) eqn:E.
    + apply String.eqb_eq in E. split; [discriminate|]. intros [N _]. contradiction.
    + apply String.eqb_neq in E. tauto.
  - destruct (key_eqb k' (JStr name)) eqn:E1; simpl.
    + destruct k' as [| | |n'| |]; try discriminate. simpl in E1.
      apply String.eqb_eq in E1. subst n'. simpl.
      destruct (String.eqb name k) eqn:E.
      * apply String.eqb_eq in E. split; [discriminate|]. intros [N _]. contradiction.
      * apply String.eqb_neq in E. tauto.
    + destruct (key_eqb k' (JStr k)); [|exact IH].
      split; [discriminate|]. intros [_ H]. discriminate.
Qed.

Lemma tracks_set name (v : JSON) m seen :
  tracks m seen -> tracks (keyed_set (JStr name) v m) (seen ++ [name]).
Proof.
  intros T k. rewrite keyed_get_set_str, (T k), in_app_iff. simpl. intuition.
Qed.

Lemma tracks_nil : tracks [] [].
Proof. intros name. simpl. tauto. Qed.

(** The inner loop enters the names of the study's samples in the dict. *)
Lemma record_samples_tracks study owner samples : forall m seen s,
  getitem study "studyGoldId" = Ok owner ->
  forallb sample_ok samples = true ->
  tracks m seen ->
  exists m' s', GoldClient.record_samples study samples m s = (Ok m', s')
    /\ tracks m' (seen ++ map sample_name samples)
    /\ same_world s s'.
Proof.
  induction samples as [|b bs IH]; intros m seen s Ho Hok T; simpl.
  - exists m, s. rewrite app_nil_r. split; [reflexivity|]. split; [exact T|].
    apply same_world_refl.
  - apply andb_true_iff in Hok as [Hb Hbs].
    set (r := {| level := INFO; fmt := "Adding {} to {}";
                 args := [LJson (JStr (sample_name b)); LJson owner] |}).
    destruct (IH (keyed_set (JStr (sample_name b)) owner m) (seen ++ [sample_name b])%list
                (add_log r s) Ho Hbs (tracks_set _ _ _ _ T)) as (m' & s' & Hrun & T' & W).
    exists m', s'.
    rewrite (bind_ok _ _ s (JStr (sample_name b)) s)
      by (unfold lift; now rewrite (sample_ok_getitem b Hb)).
    rewrite (bind_ok _ _ s owner s) by (unfold lift; now rewrite Ho).
    unfold bind at 1. unfold log at 1, modify at 1. fold r. simpl hashable. cbv iota.
    split; [exact Hrun|]. split.
    + now rewrite <- app_assoc in T'.
    + eapply same_world_trans; [apply (same_world_log r s)|exact W].
Qed.

Lemma existsb_eqb_in b seen : existsb (String.eqb b) seen = true <-> In b seen.
Proof.
  rewrite existsb_exists. split.
  - intros (x & Hin & E). apply String.eqb_eq in E. now subst.
  - intros H. exists b. split; [assumption|apply String.eqb_refl].
Qed.

Lemma woven_names api u p sid :
  service_ok api u p ->
  map sample_name (woven api u p sid) = map sample_name (biosamples_of api u p sid)
  /\ forallb sample_ok (woven api u p sid) = true.
Proof.
  intros (_ & _ & Hrec). destruct (Hrec sid) as (Hok & _ & _).
  unfold woven. rewrite forallb_forall in Hok. split.
  - rewrite map_map. apply map_ext_in. intros b Hb. apply attach_name. now apply Hok.
  - apply forallb_forall. intros x Hx. apply in_map_iff in Hx as (b & <- & Hb).
    apply attach_ok. now apply Hok.
Qed.

(** The loop over the ids against a consistent service: it returns the
    studies of [plan], three calls for each. *)
Lemma studies_loop_plan api u p total ids : forall n m seen acc s,
  service_ok api u p -> served api s -> gold_key s = Some (u, p) ->
  tracks m seen ->
  exists s', GoldClient.studies_loop total ids n m acc s
             = (Ok (acc ++ plan api u p ids seen)%list, s')
    /\ num_calls s' = num_calls s + 3 * List.length (plan api u p ids seen)
    /\ List.length (requests s')
       <= List.length (requests s) + 3 * List.length (plan api u p ids seen).
Proof.
  induction ids as [|b rest IH]; intros n m seen acc s Hok Hs Hk T.
  - exists s. simpl. rewrite app_nil_r. repeat split; lia.
  - cbn [GoldClient.studies_loop plan]. cbv zeta.
    set (r0 := {| level := DEBUG; fmt := "{} is {} of {} // TOT: {}";
                  args := [LStr b; LNat (n + 1); LNat total; LNat (List.length m)] |}).
    unfold bind at 1. unfold log at 1, modify at 1. fold r0.
    pose proof (same_world_log r0 s) as W0.
    assert (Hs0 := served_same_world _ _ _ W0 Hs).
    destruct W0 as (_ & R0 & _ & K0 & N0).
    destruct (keyed_get (JStr b) m) as [owner|] eqn:Eget.
    + assert (Hin : existsb (String.eqb b) seen = true).
      { apply existsb_eqb_in. apply Decidable.not_not.
        - destruct (in_dec string_dec b seen); [left|right]; assumption.
        - intros N. apply (T b) in N. congruence. }
      rewrite Hin.
      set (r1 := {| level := DEBUG; fmt := "Skipping {} as already part of {}";
                    args := [LStr b; LJson owner] |}).
      unfold bind at 1. unfold log at 1, modify at 1. fold r1.
      pose proof (same_world_log r1 (add_log r0 s)) as W1.
      assert (Hs1 := served_same_world _ _ _ W1 Hs0).
      destruct W1 as (_ & R1 & _ & K1 & N1).
      destruct (IH (n + 1) m seen acc (add_log r1 (add_log r0 s)) Hok Hs1
                  (eq_trans K1 (eq_trans K0 Hk)) T) as (s' & Hrun & Hn & Hr).
      exists s'. split; [exact Hrun|].
      rewrite N1, N0 in Hn. rewrite R1, R0 in Hr. split; assumption.
    + assert (Hin : existsb (String.eqb b) seen = false).
      { destruct (existsb (String.eqb b) seen) eqn:E; [|reflexivity].
        apply existsb_eqb_in in E. apply (T b) in Eget. contradiction. }
      rewrite Hin.
      destruct (fetch_study_by_biosample_served api u p b (add_log r0 s) Hok Hs0
                  (eq_trans K0 Hk)) as (s1 & Hf & Hs1 & Hk1 & Hn1 & Hr1).
      destruct (resolved_record api u p b Hok) as (d & sid & Hres & Hsid).
      pose proof (full_study_record api u p b d sid Hres Hsid) as Hfull.
      destruct (woven_names api u p sid Hok) as (Hnames & Hwok).
      set (r2 := {| level := INFO; fmt := "Fetched study for {} SAMPLES= {}";
                    args := [LStr b; LNat (List.length (woven api u p sid))] |}).
      pose proof (same_world_log r2 s1) as W2.
      assert (Hs2 := served_same_world _ _ _ W2 Hs1).
      destruct W2 as (_ & R2 & _ & K2 & N2).
      assert (Howner : getitem (full_study api u p b) "studyGoldId" = Ok (JStr sid)).
      { rewrite Hfull. simpl. rewrite dict_get_set_other by discriminate.
        now rewrite Hsid. }
      destruct (record_samples_tracks (full_study api u p b) (JStr sid)
                  (woven api u p sid) m seen (add_log r2 s1) Howner Hwok T)
        as (m' & s3 & Hrec & T' & W3).
      assert (Hs3 := served_same_world _ _ _ W3 Hs2).
      destruct W3 as (_ & R3 & _ & K3 & N3).
      assert (Hlisted : listed_with api u p b = map sample_name (woven api u p sid)).
      { unfold listed_with, study_id_of. rewrite Hres. simpl. rewrite Hsid.
        now rewrite Hnames. }
      rewrite <- Hlisted in T'.
      destruct (IH (n + 1) m' (seen ++ listed_with api u p b)%list
                  (acc ++ [full_study api u p b])%list s3 Hok Hs3
                  (eq_trans K3 (eq_trans K2 Hk1)) T') as (s' & Hrun & Hn & Hr).
      exists s'. split.
      * rewrite (bind_ok _ _ _ _ _ Hf).
        rewrite (bind_ok _ _ s1 (JArr (woven api u p sid)) s1)
          by (unfold lift; rewrite Hfull; simpl; now rewrite dict_get_set_same).
        rewrite (bind_ok _ _ s1 (List.length (woven api u p sid)) s1) by reflexivity.
        unfold bind at 1. unfold log at 1, modify at 1. fold r2.
        rewrite (bind_ok _ _ (add_log r2 s1) (woven api u p sid) (add_log r2 s1))
          by reflexivity.
        rewrite (bind_ok _ _ _ _ _ Hrec).
        rewrite Hrun, <- app_assoc. reflexivity.
      * cbn [List.length]. rewrite N3, N2 in Hn. rewrite R3, R2 in Hr.
        rewrite N0 in Hn1. rewrite R0 in Hr1. split; lia.
Qed.

(** *** What the plan holds *)


Lemma full_study_id api u p b :
  service_ok api u p ->
  study_id_of (full_study api u p b) = study_id_of (resolved api u p b)
  /\ getitem (full_study api u p b) "biosamples"
     = Ok (JArr (woven api u p (study_id_of (resolved api u p b)))).
Proof.
  intros Hok. destruct (resolved_record api u p b Hok) as (d & sid & Hres & Hsid).
  rewrite (full_study_record api u p b d sid Hres Hsid).
  unfold study_id_of. rewrite Hres. simpl.
  rewrite dict_get_set_other by discriminate.
  rewrite dict_get_set_same, Hsid. auto.
Qed.



Lemma serving_S1_ok : service_ok study_S1 "user" "pass".
Proof.
  split; [intros b; reflexivity|]. split; [intros sid; split; reflexivity|].
  intros sid. split; [reflexivity|]. split; [|reflexivity].
  change (NoDup ["B1"; "B2"]).
  repeat constructor; simpl; intuition discriminate.
Defined.

Lemma serving_S1_served : served study_S1 serving_S1.
Proof. intros rq. right. split; [reflexivity|]. intros n _. reflexivity. Defined.



(** * Further properties of the fetcher and its cache *)

(** The three ways a fetch can go: answered from the cache, fetched and
    stored, or failed. *)
Lemma fetch_url_cases rq s :
  (exists v, cache_get rq (cache s) = Some v /\ _fetch_url rq s = (Ok v, s))
  \/ (cache_get rq (cache s) = None
      /\ ((exists v s', fetch_url_body rq s = (Ok v, s')
             /\ _fetch_url rq s = (Ok v, set_cache (cache_put rq v (cache s)) s'))
          \/ (exists e s', fetch_url_body rq s = (Raise e, s')
                /\ _fetch_url rq s = (Raise e, s')))).
Proof.
  destruct (cache_get rq (cache s)) as [v|] eqn:E.
  - left. exists v. split; [reflexivity|now apply fetch_url_hit].
  - right. split; [reflexivity|].
    destruct (fetch_url_body rq s) as [[v|e] s'] eqn:F.
    + left. exists v, s'. split; [reflexivity|now apply fetch_url_miss_ok].
    + right. exists e, s'. split; [reflexivity|now apply fetch_url_miss_raise].
Qed.

(** The requests and the pauses of the loop: [k] requests, and a pause after
    each of the first [j] of them. *)
Lemma fetch_attempts_trace rq fuel : forall attempt s,
  exists k j, k <= fuel /\ j <= k
    /\ requests (snd (fetch_attempts fuel attempt rq s))
       = (requests s ++ repeat rq k)%list
    /\ sleeps (snd (fetch_attempts fuel attempt rq s))
       = (sleeps s ++ pauses attempt j)%list.
Proof.
  induction fuel as [|fuel IH]; intros attempt s.
  - exists 0, 0. rewrite fetch_attempts_exhausted. unfold pauses. simpl.
    rewrite !app_nil_r. repeat split; lia.
  - destruct (Z.eq_dec (status_code (next_response rq s)) 200) as [E|E].
    + exists 1, 0.
      rewrite (fetch_attempts_done fuel attempt rq s E), response_json_state.
      unfold pauses. simpl. rewrite app_nil_r. repeat split; lia.
    + destruct (IH (S attempt) (failed rq (next_response rq s) attempt s))
        as (k & j & Hk & Hj & Hr & Hs).
      exists (S k), (S j).
      rewrite (fetch_attempts_retry fuel attempt rq s E), Hr, Hs.
      unfold pauses. simpl. rewrite <- !app_assoc. simpl. repeat split; lia.
Qed.

Lemma pauses_total j :
  j <= 4 -> (0 <= fold_right Z.add 0 (pauses 0 j) <= 156)%Z.
Proof.
  intros H. destruct j as [|[|[|[|[|j]]]]]; try lia; vm_compute; split; discriminate.
Qed.

(** X1.  A fetch that is not answered from the cache and whose request is
    answered non-200 [k] times, [k < 4], and then 200, returns what
    [json()] of that response gives, after [k + 1] requests and the pauses
    [5 ** 0, ..., 5 ** (k - 1)]; a decoded payload is in the cache
    afterwards. *)
Theorem fetch_url_after_failures rq s k :
  cache_get rq (cache s) = None ->
  k < 4 ->
  (forall i, i < k -> status_code (response_at i rq s) <> 200%Z) ->
  status_code (response_at k rq s) = 200%Z ->
  let out := _fetch_url rq s in
  fst out = match body (response_at k rq s) with
            | Some payload => Ok payload
            | None => Raise JSONDecodeError
            end
  /\ requests (snd out) = (requests s ++ repeat rq (k + 1))%list
  /\ sleeps (snd out) = (sleeps s ++ pauses 0 k)%list
  /\ (forall payload, body (response_at k rq s) = Some payload ->
        cache_get rq (cache (snd out)) = Some payload).
Proof.
  intros Hmiss Hk Hf Hok out.
  pose proof (fetch_url_body_after rq s k Hk Hf Hok) as Hb.
  destruct (retried_frame k 0 rq s) as (_ & _ & Hr & Hs).
  assert (Hreq : (requests (retried k 0 rq s) ++ [rq])%list
                 = (requests s ++ repeat rq (k + 1))%list).
  { rewrite Hr, repeat_app, <- app_assoc. reflexivity. }
  subst out. unfold response_json in Hb.
  destruct (body (response_at k rq s)) as [payload|].
  - rewrite (fetch_url_miss_ok _ _ _ _ Hmiss Hb). simpl.
    split; [reflexivity|]. split; [exact Hreq|]. split; [exact Hs|].
    intros p E. injection E as <-. apply cache_get_put_same.
  - rewrite (fetch_url_miss_raise _ _ _ _ Hmiss Hb). simpl.
    split; [reflexivity|]. split; [exact Hreq|]. split; [exact Hs|]. discriminate.
Qed.

Lemma fetch_url_after_failures_witness :
  fst (_fetch_url studies_of_Gb1 (facing_outage 2)) = Ok study_Gs1
  /\ requests (snd (_fetch_url studies_of_Gb1 (facing_outage 2)))
     = [studies_of_Gb1; studies_of_Gb1; studies_of_Gb1]
  /\ sleeps (snd (_fetch_url studies_of_Gb1 (facing_outage 2))) = [1%Z; 5%Z].
Proof.
  destruct (fetch_url_after_failures studies_of_Gb1 (facing_outage 2) 2)
    as (Hres & Hreq & Hsl & _).
  - reflexivity.
  - lia.
  - intros [|[|i]] Hi; [discriminate|discriminate|lia].
  - reflexivity.
  - split; [exact Hres|]. split; [exact Hreq|exact Hsl].
Defined.

(** X2.  Whatever the network does and whatever the cache holds, one call of
    [_fetch_url] makes at most four requests, all of them the same request,
    pauses only after requests, and sleeps 156 seconds at most. *)
Theorem fetch_url_is_bounded rq s :
  exists k j, k <= 4 /\ j <= k
    /\ requests (snd (_fetch_url rq s)) = (requests s ++ repeat rq k)%list
    /\ sleeps (snd (_fetch_url rq s)) = (sleeps s ++ pauses 0 j)%list
    /\ (total_slept s <= total_slept (snd (_fetch_url rq s)) <= total_slept s + 156)%Z.
Proof.
  assert (Hsum : forall s' j, j <= 4 ->
            sleeps s' = (sleeps s ++ pauses 0 j)%list ->
            (total_slept s <= total_slept s' <= total_slept s + 156)%Z).
  { intros s' j Hj E. unfold total_slept at 2 3. rewrite E, total_slept_app.
    pose proof (pauses_total j Hj). lia. }
  destruct (fetch_attempts_trace rq (4 - 0) 0 s) as (k & j & Hk & Hj & Hr & Hs).
  fold (fetch_url_body rq s) in Hr, Hs. simpl in Hk.
  destruct (fetch_url_cases rq s)
    as [(v & _ & E)|[_ [(v & s' & F & E)|(e & s' & F & E)]]]; rewrite E.
  - exists 0, 0. unfold pauses. simpl. rewrite !app_nil_r.
    repeat split; try lia; reflexivity.
  - rewrite F in Hr, Hs. simpl in *. exists k, j.
    split; [lia|]. split; [lia|]. split; [exact Hr|]. split; [exact Hs|].
    apply (Hsum _ j); [lia|exact Hs].
  - rewrite F in Hr, Hs. simpl in *. exists k, j.
    split; [lia|]. split; [lia|]. split; [exact Hr|]. split; [exact Hs|].
    apply (Hsum _ j); [lia|exact Hs].
Qed.

(** X3.  When all four attempts fail, the fetcher has paused after each of
    them, the last one included: 1, 5, 25 and 125 seconds, 156 in all,
    before it raises. *)
Theorem fetch_url_exhaustion_pauses rq s :
  cache_get rq (cache s) = None ->
  (forall i, i < 4 -> status_code (response_at i rq s) <> 200%Z) ->
  sleeps (snd (_fetch_url rq s)) = (sleeps s ++ [1; 5; 25; 125])%list%Z
  /\ total_slept (snd (_fetch_url rq s)) = (total_slept s + 156)%Z.
Proof.
  intros Hmiss Hf.
  pose proof (fetch_url_body_exhausted rq s Hf) as Hb.
  destruct (retried_frame 4 0 rq s) as (_ & _ & _ & Hs).
  assert (P : pauses 0 4 = [1; 5; 25; 125]%Z) by (vm_compute; reflexivity).
  rewrite P in Hs.
  rewrite (fetch_url_miss_raise _ _ _ _ Hmiss Hb).
  change (snd (?[r], retried 4 0 rq s)) with (retried 4 0 rq s).
  split; [exact Hs|].
  unfold total_slept at 1. rewrite Hs, total_slept_app.
  f_equal.
Qed.

Lemma fetch_url_exhaustion_pauses_witness :
  total_slept (snd (_fetch_url studies_of_Gb1 (facing_outage 4))) = 156%Z.
Proof.
  destruct (fetch_url_exhaustion_pauses studies_of_Gb1 (facing_outage 4)) as (_ & H).
  - reflexivity.
  - intros [|[|[|[|i]]]] Hi; try discriminate; lia.
  - exact H.
Defined.

(** X4.  A fetch that raises stores nothing: the cache is as it was, with no
    entry for the request, so the next fetch of it asks the network again
    and, if that then answers 200, returns the payload after one request. *)
Theorem failed_fetch_is_not_cached rq s e s' :
  _fetch_url rq s = (Raise e, s') ->
  cache s' = cache s
  /\ cache_get rq (cache s') = None
  /\ (forall payload,
        response_at 0 rq s' = {| status_code := 200; body := Some payload |} ->
        fst (_fetch_url rq s') = Ok payload
        /\ requests (snd (_fetch_url rq s')) = (requests s' ++ [rq])%list).
Proof.
  intros H.
  destruct (fetch_url_cases rq s)
    as [(v & _ & E)|[Hmiss [(v & s1 & F & E)|(e1 & s1 & F & E)]]];
    rewrite E in H; try discriminate.
  injection H as <- <-.
  pose proof (fetch_attempts_frame (4 - 0) 0 rq s) as Fr. cbv zeta in Fr.
  fold (fetch_url_body rq s) in Fr. rewrite F in Fr. simpl in Fr.
  destruct Fr as (Hc & _).
  split; [exact Hc|]. split; [now rewrite Hc|].
  intros payload Hr.
  assert (Hb : fetch_url_body rq s1
               = (Ok payload, answered rq (response_at 0 rq s1) s1)).
  { rewrite (fetch_url_body_after rq s1 0);
      [| lia | intros i Hi; lia | now rewrite Hr].
    simpl retried. rewrite Hr. reflexivity. }
  rewrite (fetch_url_miss_ok rq s1 payload _ (eq_trans (f_equal (cache_get rq) Hc) Hmiss) Hb).
  split; reflexivity.
Qed.

Lemma failed_fetch_is_not_cached_witness :
  fst (_fetch_url studies_of_Gb1 (snd (_fetch_url studies_of_Gb1 (facing_outage 4))))
  = Ok study_Gs1.
Proof.
  assert (E : _fetch_url studies_of_Gb1 (facing_outage 4)
              = (Raise (Exception
                   "API call to https://gold.jgi.doe.gov/rest/nmdc/studies failed after 4 attempts"),
                 snd (_fetch_url studies_of_Gb1 (facing_outage 4))))
    by (vm_compute; reflexivity).
  assert (R : response_at 0 studies_of_Gb1
                (snd (_fetch_url studies_of_Gb1 (facing_outage 4)))
              = {| status_code := 200; body := Some study_Gs1 |})
    by (vm_compute; reflexivity).
  destruct (failed_fetch_is_not_cached _ _ _ _ E) as (_ & _ & H).
  exact (proj1 (H study_Gs1 R)).
Defined.

(** X5.  The cache is keyed by the exact endpoint URL, parameters, user and
    password: a fetch touches the entry of its own request only, so a
    request that differs in any of the four is neither answered from that
    entry nor loses its own. *)
Theorem fetch_touches_its_own_entry_only rq rq' s :
  endpoint_url rq' <> endpoint_url rq \/ params rq' <> params rq
  \/ user rq' <> user rq \/ passwd rq' <> passwd rq ->
  cache_get rq' (cache (snd (_fetch_url rq s))) = cache_get rq' (cache s).
Proof.
  intros Hd.
  assert (N : rq <> rq').
  { intros ->. destruct Hd as [H|[H|[H|H]]]; now apply H. }
  pose proof (fetch_attempts_frame (4 - 0) 0 rq s) as Fr. cbv zeta in Fr.
  fold (fetch_url_body rq s) in Fr.
  destruct (fetch_url_cases rq s)
    as [(v & _ & E)|[_ [(v & s1 & F & E)|(e1 & s1 & F & E)]]]; rewrite E; simpl.
  - reflexivity.
  - now apply cache_get_put_other.
  - rewrite F in Fr. simpl in Fr. destruct Fr as (Hc & _). now rewrite Hc.
Qed.

Lemma fetch_touches_its_own_entry_only_witness :
  cache_get {| endpoint_url := "https://gold.jgi.doe.gov/rest/nmdc/studies";
               params := [("biosampleGoldId", "Gb1")];
               user := "user"; passwd := "rotated" |}
            (cache (snd (_fetch_url studies_of_Gb1 (facing_outage 0))))
  = None.
Proof.
  rewrite (fetch_touches_its_own_entry_only studies_of_Gb1
             {| endpoint_url := "https://gold.jgi.doe.gov/rest/nmdc/studies";
                params := [("biosampleGoldId", "Gb1")];
                user := "user"; passwd := "rotated" |} (facing_outage 0)).
  - reflexivity.
  - right. right. right. discriminate.
Defined.

(** X6.  The second [@cache.memoize()] changes nothing: [_fetch_url] behaves
    as the fetch loop under a single decorator does, in what it returns and
    in the state it leaves. *)
Theorem stacked_memoize_is_memoize rq s :
  _fetch_url rq s = memoize fetch_url_body rq s.
Proof.
  pose proof (fetch_attempts_frame (4 - 0) 0 rq s) as Fr. cbv zeta in Fr.
  fold (fetch_url_body rq s) in Fr.
  destruct (fetch_url_cases rq s)
    as [(v & Hh & E)|[Hm [(v & s1 & F & E)|(e1 & s1 & F & E)]]]; rewrite E.
  - symmetry. now apply memoize_hit.
  - rewrite (memoize_miss_ok _ _ _ _ _ Hm F).
    rewrite F in Fr. simpl in Fr. destruct Fr as (Hc & _). now rewrite Hc.
  - symmetry. now apply memoize_miss_raise.
Qed.

(** X7.  A 200 response whose body does not decode is not retried: the
    exception of [json()] comes out after that one request, with no pause,
    and nothing is stored. *)
Theorem undecodable_body_is_not_retried rq s :
  cache_get rq (cache s) = None ->
  status_code (response_at 0 rq s) = 200%Z ->
  body (response_at 0 rq s) = None ->
  _fetch_url rq s = (Raise JSONDecodeError, answered rq (response_at 0 rq s) s)
  /\ requests (snd (_fetch_url rq s)) = (requests s ++ [rq])%list
  /\ sleeps (snd (_fetch_url rq s)) = sleeps s
  /\ cache (snd (_fetch_url rq s)) = cache s.
Proof.
  intros Hmiss Hok Hbody.
  assert (Hb : fetch_url_body rq s
               = (Raise JSONDecodeError, answered rq (response_at 0 rq s) s)).
  { rewrite (fetch_url_body_after rq s 0); [| lia | intros i Hi; lia | exact Hok].
    simpl retried. unfold response_json. now rewrite Hbody. }
  rewrite (fetch_url_miss_raise _ _ _ _ Hmiss Hb). repeat split.
Qed.

Lemma undecodable_body_is_not_retried_witness :
  fst (_fetch_url studies_of_Gb1 garbled_service) = Raise JSONDecodeError
  /\ requests (snd (_fetch_url studies_of_Gb1 garbled_service)) = [studies_of_Gb1].
Proof.
  destruct (undecodable_body_is_not_retried studies_of_Gb1 garbled_service)
    as (H & Hr & _); [reflexivity|reflexivity|reflexivity|].
  split; [exact (f_equal fst H)|exact Hr].
Defined.

(** X8.  After [clear_cache] a fetch goes to the network whatever the cache
    held: with the service answering 200 it returns the fresh payload after
    one request, and that entry is then the only one in the cache. *)
Theorem clear_cache_forces_refetch rq s payload :
  response_at 0 rq s = {| status_code := 200; body := Some payload |} ->
  let out := (GoldClient.clear_cache ;;; _fetch_url rq) s in
  fst out = Ok payload
  /\ requests (snd out) = (requests s ++ [rq])%list
  /\ cache (snd out) = [(rq, payload)].
Proof.
  intros Hr out. subst out.
  change ((GoldClient.clear_cache ;;; _fetch_url rq) s)
    with (_fetch_url rq (set_cache [] s)).
  assert (Hr' : response_at 0 rq (set_cache [] s)
                = {| status_code := 200; body := Some payload |}) by exact Hr.
  assert (Hb : fetch_url_body rq (set_cache [] s)
               = (Ok payload, answered rq (response_at 0 rq (set_cache [] s))
                                (set_cache [] s))).
  { rewrite (fetch_url_body_after rq (set_cache [] s) 0);
      [| lia | intros i Hi; lia | now rewrite Hr'].
    simpl retried. rewrite Hr'. reflexivity. }
  rewrite (fetch_url_miss_ok rq (set_cache [] s) payload _ eq_refl Hb).
  split; [reflexivity|]. split; reflexivity.
Qed.

Lemma clear_cache_forces_refetch_witness :
  fst (_fetch_url studies_of_Gb1 stale_cache) = Ok (JArr [])
  /\ fst ((GoldClient.clear_cache ;;; _fetch_url studies_of_Gb1) stale_cache)
     = Ok study_Gs1.
Proof.
  split; [reflexivity|].
  destruct (clear_cache_forces_refetch studies_of_Gb1 stale_cache study_Gs1 eq_refl)
    as (H & _).
  exact H.
Defined.

(** * The key file *)

Lemma split_on_none c s : count_char c s = 0 -> split_on c s = [s].
Proof.
  induction s as [|a s IH]; simpl; [reflexivity|].
  destruct (Ascii.eqb a c); [discriminate|]. intros H. now rewrite IH.
Qed.

Lemma split_on_sep c u p :
  count_char c u = 0 -> split_on c (u ++ String c p) = u :: split_on c p.
Proof.
  induction u as [|a u IH]; simpl.
  - intros _. now rewrite Ascii.eqb_refl.
  - destruct (Ascii.eqb a c); [discriminate|]. intros H. now rewrite IH.
Qed.

(** [split] gives one part more than there are separators. *)
Lemma split_on_length c s : List.length (split_on c s) = S (count_char c s).
Proof.
  induction s as [|a s IH]; simpl; [reflexivity|].
  destruct (Ascii.eqb a c); simpl; [now rewrite IH|].
  destruct (split_on c s); simpl in *; [discriminate|assumption].
Qed.

Lemma count_char_one c s :
  count_char c s = 1 ->
  exists u p, s = u ++ String c p /\ count_char c u = 0 /\ count_char c p = 0.
Proof.
  induction s as [|a s IH]; simpl; [discriminate|].
  destruct (Ascii.eqb a c) eqn:E.
  - intros H. apply Ascii.eqb_eq in E. subst a. exists EmptyString, s.
    repeat split. lia.
  - intros H. destruct (IH H) as (u & p & -> & Hu & Hp).
    exists (String a u), p. simpl. rewrite E. auto.
Qed.

(** X9.  [load_key] reads the key back as it was written: when the first
    line of the file, with the blanks and the line end around it stripped,
    is [user:passwd] and neither part holds a colon, the client's key
    becomes [(user, passwd)] and nothing else changes; the lines after the
    first are not looked at. *)
Theorem load_key_round_trip path s line rest u p :
  files s path = Some (line :: rest) ->
  strip line = u ++ ":" ++ p ->
  count_char ":" u = 0 -> count_char ":" p = 0 ->
  GoldClient.load_key path s = (Ok tt, set_gold_key (Some (u, p)) s).
Proof.
  intros Hf Hl Hu Hp. apply (load_key_ok path s line rest u p Hf).
  rewrite Hl. change (u ++ ":" ++ p) with (u ++ String ":" p).
  now rewrite (split_on_sep ":" u p Hu), (split_on_none ":" p Hp).
Qed.

Lemma load_key_round_trip_witness :
  gold_key (snd (GoldClient.load_key "config/gold-key.txt" key_on_disk))
  = Some ("alice", "s3cret").
Proof.
  rewrite (load_key_round_trip "config/gold-key.txt" key_on_disk
             (" alice:s3cret" ++ String "010"%char EmptyString) ["bob:other"]
             "alice" "s3cret"); reflexivity.
Defined.

(** X10.  What [load_key] does with any file: a missing file gives the
    error of [open], an empty one an [IndexError]; otherwise the key is set
    exactly when the stripped first line holds one colon, not more (a colon
    in the password) and not fewer, and a [ValueError] comes out when it
    does not.  Every failure leaves the client as it was, a key loaded
    before included. *)
Theorem load_key_needs_one_colon path s :
  match files s path with
  | None => GoldClient.load_key path s = (Raise FileNotFoundError, s)
  | Some [] => GoldClient.load_key path s = (Raise IndexError, s)
  | Some (line :: _) =>
      if Nat.eqb (count_char ":" (strip line)) 1
      then exists u p, strip line = u ++ ":" ++ p
             /\ GoldClient.load_key path s = (Ok tt, set_gold_key (Some (u, p)) s)
      else GoldClient.load_key path s = (Raise ValueError, s)
  end.
Proof.
  destruct (files s path) as [[|line rest]|] eqn:Hf.
  - unfold GoldClient.load_key, bind, read_lines. now rewrite Hf.
  - destruct (Nat.eqb (count_char ":" (strip line)) 1) eqn:E.
    + apply Nat.eqb_eq in E.
      destruct (count_char_one ":" (strip line) E) as (u & p & Hl & Hu & Hp).
      exists u, p. split; [exact Hl|].
      apply (load_key_ok path s line rest u p Hf).
      now rewrite Hl, (split_on_sep ":" u p Hu), (split_on_none ":" p Hp).
    + apply Nat.eqb_neq in E.
      pose proof (split_on_length ":" (strip line)) as Hlen.
      unfold GoldClient.load_key, bind, read_lines. rewrite Hf.
      destruct (split_on ":" (strip line)) as [|a [|b [|c parts]]];
        simpl in Hlen; try reflexivity.
      exfalso. apply E. lia.
  - unfold GoldClient.load_key, bind, read_lines. now rewrite Hf.
Qed.

(** * Calls *)

(** A fetch changes the requests, the pauses, the log and the cache at
    most. *)
Lemma fetch_url_frame rq s :
  gold_key (snd (_fetch_url rq s)) = gold_key s
  /\ num_calls (snd (_fetch_url rq s)) = num_calls s
  /\ network (snd (_fetch_url rq s)) = network s
  /\ files (snd (_fetch_url rq s)) = files s
  /\ written (snd (_fetch_url rq s)) = written s.
Proof.
  pose proof (fetch_attempts_frame (4 - 0) 0 rq s) as Fr. cbv zeta in Fr.
  fold (fetch_url_body rq s) in Fr.
  destruct (fetch_url_cases rq s)
    as [(v & _ & E)|[_ [(v & s1 & F & E)|(e1 & s1 & F & E)]]]; rewrite E.
  - repeat split.
  - rewrite F in Fr. destruct Fr as (_ & Hk & Hn & Hw & Hf & Hwr).
    repeat split; assumption.
  - rewrite F in Fr. destruct Fr as (_ & Hk & Hn & Hw & Hf & Hwr).
    repeat split; assumption.
Qed.

(** A call under a loaded key, and without one. *)
Lemma call_run endpoint ps s u p :
  gold_key s = Some (u, p) ->
  GoldClient._call endpoint ps s
  = match _fetch_url {| endpoint_url := GoldClient.url ++ "/" ++ endpoint;
                        params := ps; user := u; passwd := p |} s with
    | (Ok v, s1) => (Ok v, set_num_calls (num_calls s1 + 1) s1)
    | (Raise e, s1) => (Raise e, s1)
    end.
Proof.
  intros Hk. unfold GoldClient._call, bind at 1, gets at 1. rewrite Hk.
  unfold bind, modify, ret.
  destruct (_fetch_url _ s) as [[v|e] s1]; reflexivity.
Qed.

Lemma call_without_key endpoint ps s :
  gold_key s = None -> GoldClient._call endpoint ps s = (Raise TypeError, s).
Proof. intros Hk. unfold GoldClient._call, bind, gets. now rewrite Hk. Qed.

(** X11.  [num_calls] counts the calls that returned, whether the answer
    came from the network or from the cache, and no call that raised: a
    call answered from the cache adds one to the counter although it makes
    no request.  The key is never changed by a call. *)
Theorem call_counts_every_answer endpoint ps s :
  let out := GoldClient._call endpoint ps s in
  num_calls (snd out)
  = num_calls s + match fst out with Ok _ => 1 | Raise _ => 0 end
  /\ gold_key (snd out) = gold_key s
  /\ (forall u p v,
        gold_key s = Some (u, p) ->
        cache_get {| endpoint_url := GoldClient.url ++ "/" ++ endpoint; params := ps;
                     user := u; passwd := p |} (cache s) = Some v ->
        out = (Ok v, set_num_calls (num_calls s + 1) s)).
Proof.
  cbv zeta.
  destruct (gold_key s) as [[u p]|] eqn:Hk.
  - rewrite (call_run endpoint ps s u p Hk).
    set (rq := {| endpoint_url := GoldClient.url ++ "/" ++ endpoint; params := ps;
                  user := u; passwd := p |}).
    pose proof (fetch_url_frame rq s) as (Fk & Fn & _).
    split; [|split].
    + destruct (_fetch_url rq s) as [[v|e] s1]; simpl in *; lia.
    + destruct (_fetch_url rq s) as [[v|e] s1]; simpl in *; congruence.
    + intros u' p' v E Hhit. injection E as <- <-. fold rq in Hhit.
      now rewrite (fetch_url_hit rq s v Hhit).
  - rewrite (call_without_key endpoint ps s Hk).
    split; [simpl; lia|]. split; [exact Hk|]. discriminate.
Qed.

(** X12.  A client whose key was never loaded cannot fetch: every method
    that calls the service ends in the [TypeError] of unpacking [None],
    before any request is made; [fetch_study] and
    [fetch_study_by_biosample_id] have logged their first line by then. *)
Theorem without_key_nothing_is_fetched s id include :
  gold_key s = None ->
  (forall endpoint ps, GoldClient._call endpoint ps s = (Raise TypeError, s))
  /\ GoldClient.fetch_projects_by_study id s = (Raise TypeError, s)
  /\ GoldClient.fetch_biosamples_by_study id include s = (Raise TypeError, s)
  /\ GoldClient.fetch_study id include s
     = (Raise TypeError, announce_study (GoldClient._normalize_id id) s)
  /\ GoldClient.fetch_study_by_biosample_id id include s
     = (Raise TypeError, announce_study (GoldClient._normalize_id id) s)
  /\ GoldClient.fetch_studies_by_biosample_ids [id] s
     = (Raise TypeError,
        announce_study (GoldClient._normalize_id id)
          (add_log {| level := DEBUG; fmt := "{} is {} of {} // TOT: {}";
                      args := [LStr id; LNat 1; LNat 1; LNat 0] |}
             (add_log {| level := INFO; fmt := "Fetching {} samples";
                         args := [LNat 1] |} s))).
Proof.
  intros Hk.
  assert (Hcall : forall s', gold_key s' = None ->
            forall endpoint ps, GoldClient._call endpoint ps s' = (Raise TypeError, s')).
  { intros s' Hk' endpoint ps. now apply call_without_key. }
  split; [apply (Hcall s Hk)|].
  split; [apply (Hcall s Hk)|].
  split.
  { unfold GoldClient.fetch_biosamples_by_study, EXCLUSION_LIST. cbv zeta.
    cbn [existsb]. apply bind_raise. apply (Hcall s Hk). }
  assert (Hst : GoldClient.fetch_study_by_biosample_id id include s
     = (Raise TypeError, announce_study (GoldClient._normalize_id id) s)).
  { unfold GoldClient.fetch_study_by_biosample_id. cbv zeta.
    unfold bind at 1. unfold log at 1, modify at 1.
    fold (announce_study (GoldClient._normalize_id id) s).
    apply bind_raise. apply Hcall. exact Hk. }
  split; [|split; [exact Hst|]].
  - unfold GoldClient.fetch_study. cbv zeta.
    unfold bind at 1. unfold log at 1, modify at 1.
    fold (announce_study (GoldClient._normalize_id id) s).
    apply bind_raise. apply Hcall. exact Hk.
  - unfold GoldClient.fetch_studies_by_biosample_ids.
    unfold bind at 1. unfold log at 1, modify at 1.
    cbn [GoldClient.studies_loop List.length keyed_get Nat.add]. cbv zeta.
    unfold bind at 1. unfold log at 1, modify at 1.
    apply bind_raise.
    unfold GoldClient.fetch_study_by_biosample_id. cbv zeta.
    unfold bind at 1. unfold log at 1, modify at 1.
    match goal with
    | |- bind _ _ ?s0 = _ =>
        change s0 with s0;
        apply bind_raise; apply Hcall; exact Hk
    end.
Qed.

Lemma without_key_nothing_is_fetched_witness :
  fst (GoldClient.fetch_study "Gs1" true (next_run serving_S1)) = Raise TypeError
  /\ requests (snd (GoldClient.fetch_study "Gs1" true (next_run serving_S1))) = [].
Proof.
  destruct (without_key_nothing_is_fetched (next_run serving_S1) "Gs1" true eq_refl)
    as (_ & _ & _ & H & _).
  rewrite H. split; reflexivity.
Defined.

(** * What the methods of the client leave alone *)

Lemma confined_refl s : asked_gold s s /\ kept s s.
Proof.
  split; [exists []; now rewrite app_nil_r|].
  repeat split; auto.
Qed.

Lemma confined_trans s1 s2 s3 :
  asked_gold s1 s2 /\ kept s1 s2 -> asked_gold s2 s3 /\ kept s2 s3 ->
  asked_gold s1 s3 /\ kept s1 s3.
Proof.
  intros [(l1 & R1 & F1) (W1 & Fi1 & N1 & K1 & C1 & M1)]
         [(l2 & R2 & F2) (W2 & Fi2 & N2 & K2 & C2 & M2)].
  split.
  - exists (l1 ++ l2)%list. rewrite R2, R1, <- app_assoc. split; [reflexivity|].
    rewrite forallb_app, F1. now rewrite <- K1.
  - repeat split; try congruence; [lia|]. intros rq v H. now apply M2, M1.
Qed.

Lemma confined_ret {A} (a : A) : confined (ret a).
Proof. intros s. apply confined_refl. Qed.

Lemma confined_raise {A} e : confined (@raise A e).
Proof. intros s. apply confined_refl. Qed.

Lemma confined_lift {A} (r : Result A) : confined (lift r).
Proof. intros s. apply confined_refl. Qed.

Lemma confined_gets {A} (f : State -> A) : confined (gets f).
Proof. intros s. apply confined_refl. Qed.

Lemma confined_log lv f a : confined (log lv f a).
Proof.
  intros s. split; [exists []; simpl; now rewrite app_nil_r|].
  repeat split; auto.
Qed.

Lemma confined_bind {A B} (m : M A) (k : A -> M B) :
  confined m -> (forall a, confined (k a)) -> confined (bind m k).
Proof.
  intros Hm Hk s. unfold bind. specialize (Hm s).
  destruct (m s) as [[a|e] s1]; [|exact Hm].
  eapply confined_trans; [exact Hm|apply Hk].
Qed.

Lemma confined_read_lines path : confined (read_lines path).
Proof.
  intros s. unfold read_lines. destruct (files s path); apply confined_refl.
Qed.

(** The requests of one fetch are repetitions of its request. *)
Lemma fetch_url_requests rq s :
  exists k, requests (snd (_fetch_url rq s)) = (requests s ++ repeat rq k)%list.
Proof.
  destruct (fetch_attempts_trace rq (4 - 0) 0 s) as (k & j & _ & _ & Hr & _).
  fold (fetch_url_body rq s) in Hr.
  destruct (fetch_url_cases rq s)
    as [(v & _ & E)|[_ [(v & s' & F & E)|(e & s' & F & E)]]]; rewrite E.
  - exists 0. simpl. now rewrite app_nil_r.
  - exists k. rewrite F in Hr. exact Hr.
  - exists k. rewrite F in Hr. exact Hr.
Qed.

(** A fetch drops and replaces no cache entry. *)
Lemma fetch_url_keeps_entries rq s rq' v :
  cache_get rq' (cache s) = Some v ->
  cache_get rq' (cache (snd (_fetch_url rq s))) = Some v.
Proof.
  intros H.
  pose proof (fetch_attempts_frame (4 - 0) 0 rq s) as Fr. cbv zeta in Fr.
  fold (fetch_url_body rq s) in Fr.
  destruct (fetch_url_cases rq s)
    as [(v0 & _ & E)|[Hmiss [(v0 & s1 & F & E)|(e1 & s1 & F & E)]]]; rewrite E; simpl.
  - exact H.
  - rewrite cache_get_put_other; [exact H|]. intros ->. congruence.
  - rewrite F in Fr. destruct Fr as (Hc & _). simpl in Hc. now rewrite Hc.
Qed.

Lemma forallb_repeat {A} (f : A -> bool) x k :
  f x = true -> forallb f (repeat x k) = true.
Proof. intros H. induction k as [|k IH]; simpl; [reflexivity|]. now rewrite H, IH. Qed.

Lemma confined_call endpoint ps :
  In endpoint ["studies"; "biosamples"; "projects"] ->
  confined (GoldClient._call endpoint ps).
Proof.
  intros Hin s. destruct (gold_key s) as [[u p]|] eqn:Hk.
  - rewrite (call_run endpoint ps s u p Hk).
    set (rq := {| endpoint_url := GoldClient.url ++ "/" ++ endpoint; params := ps;
                  user := u; passwd := p |}).
    assert (Hg : to_gold (Some (u, p)) rq = true).
    { unfold to_gold, endpoint_is. simpl user. simpl passwd. simpl endpoint_url.
      rewrite !String.eqb_refl. simpl andb.
      destruct Hin as [<-|[<-|[<-|[]]]]; reflexivity. }
    destruct (fetch_url_requests rq s) as (k & Hr).
    pose proof (fetch_url_frame rq s) as (Fk & Fn & Fw & Ff & Fwr).
    pose proof (fetch_url_keeps_entries rq s) as Fc.
    assert (Hl : forallb (to_gold (gold_key s)) (repeat rq k) = true).
    { rewrite Hk. now apply forallb_repeat. }
    destruct (_fetch_url rq s) as [[v|e] s1]; cbn [fst snd] in *.
    + split; [exists (repeat rq k); split; [exact Hr|exact Hl]|].
      repeat split; auto. simpl. lia.
    + split; [exists (repeat rq k); split; [exact Hr|exact Hl]|].
      repeat split; auto; lia.
  - rewrite (call_without_key endpoint ps s Hk). apply confined_refl.
Qed.

Ltac confine :=
  repeat first
    [ apply confined_ret | apply confined_raise | apply confined_lift
    | apply confined_gets | apply confined_log | apply confined_read_lines
    | apply confined_call; simpl; tauto
    | apply confined_bind; [|intros ?]
    | match goal with
      | |- confined (if ?b then _ else _) => destruct b
      | |- confined (match ?x with _ => _ end) => destruct x
      end ].

Lemma confined_projects id : confined (GoldClient.fetch_projects_by_study id).
Proof. unfold GoldClient.fetch_projects_by_study. confine. Qed.

Lemma confined_weave_project id sbi projects project store :
  confined (GoldClient.weave_project id sbi projects project store).
Proof. unfold GoldClient.weave_project. cbv zeta. confine. Qed.

Lemma confined_weave_projects id sbi projects todo : forall store,
  confined (GoldClient.weave_projects id sbi projects todo store).
Proof.
  induction todo as [|p todo IH]; intros store; simpl; [apply confined_ret|].
  apply confined_bind; [apply confined_weave_project|]. intros store'. apply IH.
Qed.

Lemma confined_biosamples id include_project :
  confined (GoldClient.fetch_biosamples_by_study id include_project).
Proof.
  unfold GoldClient.fetch_biosamples_by_study. cbv zeta.
  destruct (existsb _ EXCLUSION_LIST); [apply confined_ret|].
  apply confined_bind; [apply confined_call; simpl; tauto|]. intros biosamples.
  destruct include_project; [|apply confined_ret].
  apply confined_bind; [apply confined_projects|]. intros projects.
  apply confined_bind; [apply confined_lift|]. intros samples.
  apply confined_bind; [apply confined_lift|]. intros sbi.
  apply confined_bind; [apply confined_lift|]. intros todo.
  apply confined_bind; [apply confined_weave_projects|]. intros store.
  apply confined_ret.
Qed.

Lemma confined_study id include_biosamples :
  confined (GoldClient.fetch_study id include_biosamples).
Proof.
  unfold GoldClient.fetch_study. cbv zeta.
  apply confined_bind; [apply confined_log|]. intros _.
  apply confined_bind; [apply confined_call; simpl; tauto|]. intros results.
  apply confined_bind; [apply confined_lift|]. intros study.
  destruct include_biosamples; [|apply confined_ret].
  apply confined_bind; [apply confined_biosamples|]. intros biosamples.
  apply confined_lift.
Qed.

Lemma confined_study_by_biosample id include_biosamples :
  confined (GoldClient.fetch_study_by_biosample_id id include_biosamples).
Proof.
  unfold GoldClient.fetch_study_by_biosample_id. cbv zeta.
  apply confined_bind; [apply confined_log|]. intros _.
  apply confined_bind; [apply confined_call; simpl; tauto|]. intros results.
  apply confined_bind; [apply confined_lift|]. intros n.
  apply confined_bind.
  { destruct (Nat.eqb n 0); [|apply confined_lift].
    apply confined_bind; [apply confined_log|]. intros _. apply confined_ret. }
  intros study.
  destruct include_biosamples; [|apply confined_ret].
  apply confined_bind; [apply confined_lift|]. intros sid.
  apply confined_bind; [apply confined_lift|]. intros sid'.
  apply confined_bind; [apply confined_biosamples|]. intros biosamples.
  apply confined_bind; [apply confined_lift|]. intros study'.
  apply confined_bind; [apply confined_lift|]. intros attached.
  apply confined_bind; [apply confined_lift|]. intros k.
  apply confined_bind; [apply confined_log|]. intros _. apply confined_ret.
Qed.

Lemma confined_record_samples study samples : forall m,
  confined (GoldClient.record_samples study samples m).
Proof.
  induction samples as [|b bs IH]; intros m; simpl; [apply confined_ret|].
  apply confined_bind; [apply confined_lift|]. intros sid.
  apply confined_bind; [apply confined_lift|]. intros study_id.
  apply confined_bind; [apply confined_log|]. intros _.
  destruct (hashable sid); [apply IH|apply confined_raise].
Qed.

Lemma confined_studies_loop total ids : forall n m studies,
  confined (GoldClient.studies_loop total ids n m studies).
Proof.
  induction ids as [|b rest IH]; intros n m studies; simpl; [apply confined_ret|].
  apply confined_bind; [apply confined_log|]. intros _.
  destruct (keyed_get (JStr b) m) as [owner|].
  - apply confined_bind; [apply confined_log|]. intros _. apply IH.
  - apply confined_bind; [apply confined_study_by_biosample|]. intros study.
    apply confined_bind; [apply confined_lift|]. intros attached.
    apply confined_bind; [apply confined_lift|]. intros k.
    apply confined_bind; [apply confined_log|]. intros _.
    apply confined_bind; [apply confined_lift|]. intros samples.
    apply confined_bind; [apply confined_record_samples|]. intros m'. apply IH.
Qed.

Lemma confined_for_each {A B} (f : A -> M B) l :
  (forall x, confined (f x)) -> confined (GoldClient.for_each f l).
Proof.
  intros Hf. induction l as [|x l IH]; simpl; [apply confined_ret|].
  apply confined_bind; [apply Hf|]. intros y.
  apply confined_bind; [apply IH|]. intros ys. apply confined_ret.
Qed.

Lemma confined_studies ids include_biosamples :
  confined (GoldClient.fetch_studies ids include_biosamples).
Proof.
  unfold GoldClient.fetch_studies.
  apply confined_bind; [apply confined_log|]. intros _.
  apply confined_for_each. intros id. apply confined_study.
Qed.

(** X13.  Whatever the state and the answers of the network, the fetch
    methods of the client only add to the list of requests made, and every
    request they add goes to the [studies], the [biosamples] or the
    [projects] endpoint under [GoldClient.url] with the user and the
    password of the loaded key: the key is sent nowhere else, and no
    request is made with another key or without one. *)
Theorem requests_go_to_gold_with_the_key s id ids path include :
  asked_gold s (snd (GoldClient.fetch_projects_by_study id s))
  /\ asked_gold s (snd (GoldClient.fetch_biosamples_by_study id include s))
  /\ asked_gold s (snd (GoldClient.fetch_study id include s))
  /\ asked_gold s (snd (GoldClient.fetch_study_by_biosample_id id include s))
  /\ asked_gold s (snd (GoldClient.fetch_studies_by_biosample_ids ids s))
  /\ asked_gold s (snd (GoldClient.fetch_studies ids include s))
  /\ asked_gold s (snd (GoldClient.fetch_studies_from_file path include s)).
Proof.
  split; [apply confined_projects|].
  split; [apply confined_biosamples|].
  split; [apply confined_study|].
  split; [apply confined_study_by_biosample|].
  split.
  { unfold GoldClient.fetch_studies_by_biosample_ids.
    apply confined_bind; [apply confined_log|]. intros _. apply confined_studies_loop. }
  split; [apply confined_studies|].
  unfold GoldClient.fetch_studies_from_file.
  apply confined_bind; [apply confined_read_lines|]. intros lines.
  apply confined_studies.
Qed.

(** X14.  Whatever the state and the answers of the network, the fetch
    methods of the client write no document, change no file and not the
    key, never lower [num_calls], and neither drop nor replace an entry of
    the cache: what was cached before a method ran is cached with the same
    payload after it. *)
Theorem fetch_methods_keep_what_is_cached s id ids path include :
  kept s (snd (GoldClient.fetch_projects_by_study id s))
  /\ kept s (snd (GoldClient.fetch_biosamples_by_study id include s))
  /\ kept s (snd (GoldClient.fetch_study id include s))
  /\ kept s (snd (GoldClient.fetch_study_by_biosample_id id include s))
  /\ kept s (snd (GoldClient.fetch_studies_by_biosample_ids ids s))
  /\ kept s (snd (GoldClient.fetch_studies ids include s))
  /\ kept s (snd (GoldClient.fetch_studies_from_file path include s)).
Proof.
  split; [apply confined_projects|].
  split; [apply confined_biosamples|].
  split; [apply confined_study|].
  split; [apply confined_study_by_biosample|].
  split.
  { unfold GoldClient.fetch_studies_by_biosample_ids.
    apply confined_bind; [apply confined_log|]. intros _. apply confined_studies_loop. }
  split; [apply confined_studies|].
  unfold GoldClient.fetch_studies_from_file.
  apply confined_bind; [apply confined_read_lines|]. intros lines.
  apply confined_studies.
Qed.

(** * Studies asked for by their own id *)

(** [fetch_study] against a consistent service that lists the study. *)
Lemma fetch_study_served api u p id include s :
  (include = true -> service_ok api u p) ->
  served api s -> gold_key s = Some (u, p) ->
  study_listed api u p id = true ->
  exists s', GoldClient.fetch_study id include s
             = (Ok (study_record api u p id include), s')
    /\ served api s'
    /\ gold_key s' = Some (u, p)
    /\ num_calls s' = num_calls s + calls_per_study include
    /\ List.length (requests s') <= List.length (requests s) + calls_per_study include.
Proof.
  intros Hok Hs Hk Hl.
  set (nid := GoldClient._normalize_id id).
  pose proof (same_world_log {| level := INFO; fmt := "Fetching study: {}";
                                args := [LStr nid] |} s) as W0.
  fold (announce_study nid s) in W0.
  assert (Hs0 := served_same_world _ _ _ W0 Hs).
  destruct W0 as (_ & R0 & _ & K0 & N0).
  destruct (call_served api u p "studies" "studyGoldId" nid (announce_study nid s)
              Hs0 (eq_trans K0 Hk)) as (s1 & Hc1 & Hs1 & Hk1 & Hn1 & Hr1).
  unfold study_listed in Hl. fold nid in Hl.
  unfold study_record, listed_study. fold nid.
  destruct (api (call_request u p "studies" "studyGoldId" nid))
    as [| | | |[|[| | | |l|d] rest]|] eqn:Ea; try discriminate.
  assert (Hrun : GoldClient.fetch_study id include s
    = (if include
       then biosamples <- GoldClient.fetch_biosamples_by_study nid true ;;
            lift (setitem (JObj d) "biosamples" biosamples)
       else ret (JObj d)) s1).
  { unfold GoldClient.fetch_study. cbv zeta. fold nid.
    unfold bind at 1. unfold log at 1, modify at 1. fold (announce_study nid s).
    rewrite (bind_ok _ _ _ _ _ Hc1). reflexivity. }
  rewrite Hrun. rewrite N0 in Hn1. rewrite R0 in Hr1. destruct include.
  - destruct (fetch_biosamples_served api u p nid s1 (Hok eq_refl) Hs1 Hk1)
      as (s2 & Hf & Hs2 & Hk2 & Hn2 & Hr2).
    exists s2. rewrite (bind_ok _ _ _ _ _ Hf).
    split; [reflexivity|]. split; [exact Hs2|]. split; [exact Hk2|].
    simpl calls_per_study. split; lia.
  - exists s1. split; [reflexivity|]. split; [exact Hs1|]. split; [exact Hk1|].
    simpl calls_per_study. split; lia.
Qed.

(** X15.  Against a service that answers consistently, [fetch_study] for
    an id the service lists a record for returns the first listed record
    after one call; with [include_biosamples] it makes three calls and
    returns that record with [biosamples] set to the biosamples, projects
    woven in, that the service lists for the id that was asked for (not
    for the [studyGoldId] of the record), every other key of the record
    as it was listed. *)
Theorem fetch_study_attaches_biosamples_of_requested_id api u p id include s :
  (include = true -> service_ok api u p) ->
  served api s -> gold_key s = Some (u, p) ->
  study_listed api u p id = true ->
  exists s', GoldClient.fetch_study id include s
             = (Ok (study_record api u p id include), s')
    /\ num_calls s' = num_calls s + calls_per_study include
    /\ List.length (requests s') <= List.length (requests s) + calls_per_study include
    /\ study_record api u p id false = listed_study api u p id
    /\ getitem (study_record api u p id true) "biosamples"
       = Ok (JArr (woven api u p (GoldClient._normalize_id id)))
    /\ (forall k, k <> "biosamples" ->
          getitem (study_record api u p id true) k = getitem (listed_study api u p id) k).
Proof.
  intros Hok Hs Hk Hl.
  destruct (fetch_study_served api u p id include s Hok Hs Hk Hl)
    as (s' & Hrun & _ & _ & Hn & Hr).
  exists s'. split; [exact Hrun|]. split; [exact Hn|]. split; [exact Hr|].
  split; [reflexivity|].
  unfold study_record, listed_study. unfold study_listed in Hl.
  destruct (api (call_request u p "studies" "studyGoldId" (GoldClient._normalize_id id)))
    as [| | | |[|[| | | |l|d] rest]|]; try discriminate.
  simpl. split.
  - now rewrite dict_get_set_same.
  - intros k N. rewrite dict_get_set_other; [reflexivity|]. intros E. now apply N.
Qed.

Lemma fetch_study_attaches_biosamples_of_requested_id_witness :
  fst (GoldClient.fetch_study "gold:S1" true serving_S1)
  = Ok (JObj [("studyGoldId", JStr "S1");
              ("biosamples",
               JArr [JObj [("biosampleGoldId", JStr "B1");
                           ("projects", JArr [project_of_B1])];
                     sample_B2])])
  /\ num_calls (snd (GoldClient.fetch_study "gold:S1" true serving_S1)) = 3.
Proof.
  destruct (fetch_study_attaches_biosamples_of_requested_id study_S1 "user" "pass"
              "gold:S1" true serving_S1 (fun _ => serving_S1_ok) serving_S1_served
              eq_refl eq_refl) as (s' & Hrun & Hn & _).
  rewrite Hrun. split; [reflexivity|exact Hn].
Defined.

(** The comprehension of [fetch_studies] over listed studies. *)
Lemma for_each_study_served api u p include ids : forall s,
  (include = true -> service_ok api u p) ->
  served api s -> gold_key s = Some (u, p) ->
  (forall id, In id ids -> study_listed api u p id = true) ->
  exists s', GoldClient.for_each (fun id => GoldClient.fetch_study id include) ids s
             = (Ok (map (fun id => study_record api u p id include) ids), s')
    /\ served api s'
    /\ gold_key s' = Some (u, p)
    /\ num_calls s' = num_calls s + calls_per_study include * List.length ids
    /\ List.length (requests s')
       <= List.length (requests s) + calls_per_study include * List.length ids.
Proof.
  induction ids as [|id ids IH]; intros s Hok Hs Hk Hl.
  - exists s. simpl. repeat split; auto; lia.
  - destruct (fetch_study_served api u p id include s Hok Hs Hk (Hl id (or_introl eq_refl)))
      as (s1 & Hrun & Hs1 & Hk1 & Hn1 & Hr1).
    destruct (IH s1 Hok Hs1 Hk1 (fun i Hi => Hl i (or_intror Hi)))
      as (s2 & Hrest & Hs2 & Hk2 & Hn2 & Hr2).
    exists s2. cbn [GoldClient.for_each map List.length].
    rewrite (bind_ok _ _ _ _ _ Hrun), (bind_ok _ _ _ _ _ Hrest).
    split; [reflexivity|]. split; [exact Hs2|]. split; [exact Hk2|]. split; nia.
Qed.

(** X16.  Against a service that answers consistently and lists a record
    for every id, [fetch_studies] returns one record for each id, in the
    order of the ids and as often as an id is given (nothing is passed
    over, unlike with biosample ids): the list of what [fetch_study]
    returns for each, at the price of one call an id, three with the
    biosamples. *)
Theorem fetch_studies_one_record_per_id api u p include ids s :
  (include = true -> service_ok api u p) ->
  served api s -> gold_key s = Some (u, p) ->
  (forall id, In id ids -> study_listed api u p id = true) ->
  exists s', GoldClient.fetch_studies ids include s
             = (Ok (map (fun id => study_record api u p id include) ids), s')
    /\ num_calls s' = num_calls s + calls_per_study include * List.length ids
    /\ List.length (requests s')
       <= List.length (requests s) + calls_per_study include * List.length ids.
Proof.
  intros Hok Hs Hk Hl.
  set (r := {| level := INFO; fmt := "Fetching {} studies";
               args := [LNat (List.length ids)] |}).
  pose proof (same_world_log r s) as W.
  assert (Hs0 := served_same_world _ _ _ W Hs).
  destruct W as (_ & R0 & _ & K0 & N0).
  destruct (for_each_study_served api u p include ids (add_log r s) Hok Hs0
              (eq_trans K0 Hk) Hl) as (s' & Hrun & _ & _ & Hn & Hr).
  exists s'. rewrite N0 in Hn. rewrite R0 in Hr.
  split; [|split; assumption].
  unfold GoldClient.fetch_studies, bind at 1, log at 1, modify at 1. fold r.
  exact Hrun.
Qed.

Lemma fetch_studies_one_record_per_id_witness :
  fst (GoldClient.fetch_studies ["S1"; "gold:S1"] false serving_S1)
  = Ok [JObj [("studyGoldId", JStr "S1")]; JObj [("studyGoldId", JStr "S1")]]
  /\ num_calls (snd (GoldClient.fetch_studies ["S1"; "gold:S1"] false serving_S1)) = 2.
Proof.
  destruct (fetch_studies_one_record_per_id study_S1 "user" "pass" false
              ["S1"; "gold:S1"] serving_S1 (fun _ => serving_S1_ok) serving_S1_served
              eq_refl (fun _ _ => eq_refl)) as (s' & Hrun & Hn & _).
  rewrite Hrun. split; [reflexivity|exact Hn].
Defined.

(** The comprehension stops at the first id without a record. *)
Lemma for_each_study_fails api u p include bad post pre : forall s,
  (include = true -> service_ok api u p) ->
  served api s -> gold_key s = Some (u, p) ->
  (forall id, In id pre -> study_listed api u p id = true) ->
  api (call_request u p "studies" "studyGoldId" (GoldClient._normalize_id bad)) = JArr [] ->
  exists s', GoldClient.for_each (fun id => GoldClient.fetch_study id include)
               (pre ++ bad :: post)%list s
             = (Raise IndexError, s')
    /\ num_calls s' = num_calls s + calls_per_study include * List.length pre + 1.
Proof.
  induction pre as [|id pre IH]; intros s Hok Hs Hk Hl Hbad.
  - set (nid := GoldClient._normalize_id bad).
    pose proof (same_world_log {| level := INFO; fmt := "Fetching study: {}";
                                  args := [LStr nid] |} s) as W0.
    fold (announce_study nid s) in W0.
    assert (Hs0 := served_same_world _ _ _ W0 Hs).
    destruct W0 as (_ & R0 & _ & K0 & N0).
    destruct (call_served api u p "studies" "studyGoldId" nid (announce_study nid s)
                Hs0 (eq_trans K0 Hk)) as (s1 & Hc1 & _ & _ & Hn1 & _).
    fold nid in Hbad. rewrite Hbad in Hc1.
    exists s1. split; [|rewrite Hn1, N0; simpl; lia].
    cbn [app GoldClient.for_each]. apply bind_raise.
    unfold GoldClient.fetch_study. cbv zeta. fold nid.
    unfold bind at 1. unfold log at 1, modify at 1. fold (announce_study nid s).
    rewrite (bind_ok _ _ _ _ _ Hc1). reflexivity.
  - destruct (fetch_study_served api u p id include s Hok Hs Hk (Hl id (or_introl eq_refl)))
      as (s1 & Hrun & Hs1 & Hk1 & Hn1 & _).
    destruct (IH s1 Hok Hs1 Hk1 (fun i Hi => Hl i (or_intror Hi)) Hbad)
      as (s2 & Hrest & Hn2).
    exists s2. cbn [app GoldClient.for_each List.length].
    rewrite (bind_ok _ _ _ _ _ Hrun), (bind_raise _ _ _ _ _ Hrest).
    split; [reflexivity|nia].
Qed.

(** X17.  [fetch_studies] fails as a whole: when the service lists no
    record for one of the ids, the call ends in the [IndexError] of that
    id and returns none of the records fetched for the ids before it; the
    ids after it are not asked for. *)
Theorem fetch_studies_fails_as_a_whole api u p include pre bad post s :
  (include = true -> service_ok api u p) ->
  served api s -> gold_key s = Some (u, p) ->
  (forall id, In id pre -> study_listed api u p id = true) ->
  api (call_request u p "studies" "studyGoldId" (GoldClient._normalize_id bad)) = JArr [] ->
  fst (GoldClient.fetch_studies (pre ++ bad :: post)%list include s) = Raise IndexError
  /\ num_calls (snd (GoldClient.fetch_studies (pre ++ bad :: post)%list include s))
     = num_calls s + calls_per_study include * List.length pre + 1.
Proof.
  intros Hok Hs Hk Hl Hbad.
  set (r := {| level := INFO; fmt := "Fetching {} studies";
               args := [LNat (List.length (pre ++ bad :: post)%list)] |}).
  pose proof (same_world_log r s) as W.
  assert (Hs0 := served_same_world _ _ _ W Hs).
  destruct W as (_ & _ & _ & K0 & N0).
  destruct (for_each_study_fails api u p include bad post pre (add_log r s) Hok Hs0
              (eq_trans K0 Hk) Hl Hbad) as (s' & Hrun & Hn).
  assert (E : GoldClient.fetch_studies (pre ++ bad :: post)%list include s
              = (Raise IndexError, s')).
  { unfold GoldClient.fetch_studies, bind at 1, log at 1, modify at 1. fold r.
    exact Hrun. }
  rewrite E. split; [reflexivity|]. simpl snd. now rewrite Hn, N0.
Qed.

Lemma serving_only_S1_served : served only_S1 serving_only_S1.
Proof. intros rq. right. split; [reflexivity|]. intros n _. reflexivity. Defined.

Lemma fetch_studies_fails_as_a_whole_witness :
  fst (GoldClient.fetch_studies ["S1"; "S9"; "S1"] false serving_only_S1)
  = Raise IndexError
  /\ num_calls (snd (GoldClient.fetch_studies ["S1"; "S9"; "S1"] false serving_only_S1))
     = 2.
Proof.
  apply (fetch_studies_fails_as_a_whole only_S1 "user" "pass" false ["S1"] "S9" ["S1"]
           serving_only_S1).
  - discriminate.
  - exact serving_only_S1_served.
  - reflexivity.
  - intros id [<-|[]]. reflexivity.
  - reflexivity.
Defined.

(** X18.  [fetch_studies_from_file] asks for the lines that start with
    [Gs], each one stripped, and for no other line: a line that starts
    with anything else, blanks before a [Gs] included, is left out.
    Against a service that answers consistently and lists a record for
    each of these ids it returns their records in the order of the
    lines. *)
Theorem fetch_studies_from_file_takes_study_lines api u p include path lines s :
  files s path = Some lines ->
  (include = true -> service_ok api u p) ->
  served api s -> gold_key s = Some (u, p) ->
  (forall line, In line lines -> startswith "Gs" line = true ->
     study_listed api u p (strip line) = true) ->
  exists s', GoldClient.fetch_studies_from_file path include s
             = (Ok (map (fun line => study_record api u p (strip line) include)
                      (filter (startswith "Gs") lines)), s')
    /\ num_calls s'
       = num_calls s
         + calls_per_study include * List.length (filter (startswith "Gs") lines).
Proof.
  intros Hf Hok Hs Hk Hl.
  set (ids := map strip (filter (startswith "Gs") lines)).
  set (r := {| level := INFO; fmt := "Fetching {} studies";
               args := [LNat (List.length ids)] |}).
  pose proof (same_world_log r s) as W.
  assert (Hs0 := served_same_world _ _ _ W Hs).
  destruct W as (_ & _ & _ & K0 & N0).
  assert (Hids : forall id, In id ids -> study_listed api u p id = true).
  { intros id Hin. apply in_map_iff in Hin as (line & <- & Hin).
    apply filter_In in Hin as [Hin Hgs]. now apply Hl. }
  destruct (for_each_study_served api u p include ids (add_log r s) Hok Hs0
              (eq_trans K0 Hk) Hids) as (s' & Hrun & _ & _ & Hn & _).
  exists s'. split.
  - unfold GoldClient.fetch_studies_from_file.
    rewrite (bind_ok _ _ s lines s) by (unfold read_lines; now rewrite Hf).
    fold ids.
    unfold GoldClient.fetch_studies, bind at 1, log at 1, modify at 1. fold r.
    rewrite Hrun. unfold ids. now rewrite map_map.
  - rewrite Hn, N0. unfold ids. now rewrite length_map.
Qed.

Lemma list_on_disk_served : served study_S1 list_on_disk.
Proof. intros rq. right. split; [reflexivity|]. intros n _. reflexivity. Defined.

Lemma fetch_studies_from_file_takes_study_lines_witness :
  fst (GoldClient.fetch_studies_from_file "studies.txt" false list_on_disk)
  = Ok [JObj [("studyGoldId", JStr "S1")]; JObj [("studyGoldId", JStr "S1")]]
  /\ num_calls (snd (GoldClient.fetch_studies_from_file "studies.txt" false list_on_disk))
     = 2.
Proof.
  destruct (fetch_studies_from_file_takes_study_lines study_S1 "user" "pass" false
              "studies.txt"
              ["Gs1" ++ String "010"%char EmptyString; " Gs2"; "Gb3"; "Gs1"]
              list_on_disk eq_refl (fun _ => serving_S1_ok) list_on_disk_served
              eq_refl (fun _ _ _ => eq_refl)) as (s' & Hrun & Hn).
  rewrite Hrun. split; [reflexivity|exact Hn].
Defined.

(** * The command [fetch-studies] *)

Lemma served_ext api s s' :
  network s' = network s -> requests s' = requests s -> cache s' = cache s ->
  served api s -> served api s'.
Proof. intros Hn Hr Hc Hs rq. rewrite Hc, Hr, Hn. apply Hs. Qed.

(** The command, once the key is loaded and the id file read: what it does
    with no id, with ids of both kinds, with study ids and with biosample
    ids. *)
Lemma command_run idfile directory (clear_cache : bool) output_format
    authentication_file include_biosamples s st lines :
  GoldClient.load_key authentication_file (command_started include_biosamples s)
  = (Ok tt, st) ->
  files s idfile = Some lines ->
  let s0 := if clear_cache then set_cache [] st else st in
  fetch_studies idfile directory clear_cache output_format authentication_file
    include_biosamples s
  = if Nat.eqb (List.length (ids_of lines)) 0
    then (Raise (Exception ("No ids in " ++ idfile)), s0)
    else
      match filter (startswith "Gs") (ids_of lines),
            filter (startswith "Gb") (ids_of lines) with
      | _ :: _, _ :: _ =>
          (Raise (Exception "Cannot mix and match study and sample IDs"), s0)
      | _ :: _, [] =>
          ((if truthy directory
            then dump_each (match directory with Some dir => dir | None => "" end)
                   output_format include_biosamples (ids_of lines)
            else studies <- GoldClient.fetch_studies (ids_of lines) include_biosamples ;;
                 log INFO "Retrieved {} studies" [LNat (List.length studies)] ;;;
                 dump None output_format (JArr studies)) ;;;
           calls <- gets num_calls ;;
           log INFO "DONE. Calls = {}" [LNat calls]) s0
      | [], _ =>
          ((studies <- GoldClient.fetch_studies_by_biosample_ids (ids_of lines) ;;
            log INFO "Retrieved {} studies" [LNat (List.length studies)] ;;;
            dump None output_format (JArr studies)) ;;;
           calls <- gets num_calls ;;
           log INFO "DONE. Calls = {}" [LNat calls]) s0
      end.
Proof.
  intros Hload Hf s0.
  pose proof (load_key_frame authentication_file (command_started include_biosamples s))
    as (_ & Hfiles & _).
  rewrite Hload in Hfiles. simpl in Hfiles.
  assert (Hrd : read_lines idfile s0 = (Ok lines, s0)).
  { unfold read_lines.
    replace (files s0) with (files s) by (subst s0; now destruct clear_cache).
    now rewrite Hf. }
  unfold fetch_studies.
  unfold bind at 1. unfold log at 1, modify at 1.
  unfold bind at 1. unfold GoldClient.new at 1, modify at 1.
  fold (command_started include_biosamples s).
  unfold bind at 1. rewrite Hload.
  assert (Hcc : (if clear_cache then GoldClient.clear_cache else ret tt) st = (Ok tt, s0)).
  { subst s0. now destruct clear_cache. }
  rewrite (bind_ok _ _ _ _ _ Hcc), (bind_ok _ _ _ _ _ Hrd).
  cbv zeta. fold (ids_of lines).
  destruct (Nat.eqb (List.length (ids_of lines)) 0); [reflexivity|].
  destruct (filter (startswith "Gs") (ids_of lines)) as [|a sids],
           (filter (startswith "Gb") (ids_of lines)) as [|b bids];
    try reflexivity.
  destruct directory as [[|c dir]|]; reflexivity.
Qed.

(** Loading the key leaves the cache, the network and the counter alone. *)
Lemma load_key_world path s :
  cache (snd (GoldClient.load_key path s)) = cache s
  /\ network (snd (GoldClient.load_key path s)) = network s
  /\ num_calls (snd (GoldClient.load_key path s)) = num_calls s.
Proof.
  unfold GoldClient.load_key, bind, read_lines.
  destruct (files s path) as [[|line rest]|]; simpl; auto.
  destruct (split_on ":" (strip line)) as [|u [|p [|x parts]]]; simpl; auto.
Qed.

Lemma filter_all {A} (f : A -> bool) l :
  (forall x, In x l -> f x = true) -> filter f l = l.
Proof.
  induction l as [|x l IH]; intros H; simpl; [reflexivity|].
  rewrite (H x (or_introl eq_refl)), IH; [reflexivity|].
  intros y Hy. apply H. now right.
Qed.

Lemma filter_none {A} (f : A -> bool) l :
  (forall x, In x l -> f x = false) -> filter f l = [].
Proof.
  induction l as [|x l IH]; intros H; simpl; [reflexivity|].
  rewrite (H x (or_introl eq_refl)). apply IH.
  intros y Hy. apply H. now right.
Qed.

(** A stripped study line is a study id and no biosample id, and the other
    way round. *)
Lemma stripped_study_line l :
  startswith "Gs" l = true ->
  startswith "Gs" (strip l) = true /\ startswith "Gb" (strip l) = false.
Proof.
  intros H.
  assert (Hs : startswith "Gs" (strip l) = true)
    by (now apply strip_keeps_prefix).
  split; [exact Hs|].
  apply startswith_two in Hs as [rest ->]. reflexivity.
Qed.

Lemma stripped_biosample_line l :
  startswith "Gb" l = true ->
  startswith "Gb" (strip l) = true /\ startswith "Gs" (strip l) = false.
Proof.
  intros H.
  assert (Hs : startswith "Gb" (strip l) = true)
    by (now apply strip_keeps_prefix).
  split; [exact Hs|].
  apply startswith_two in Hs as [rest ->]. reflexivity.
Qed.

(** An id file without biosample lines gives study ids only. *)
Lemma ids_of_study_lines lines :
  (forall l, In l lines -> startswith "Gb" l = false) ->
  ids_of lines = map strip (filter (startswith "Gs") lines)
  /\ filter (startswith "Gs") (ids_of lines) = ids_of lines
  /\ filter (startswith "Gb") (ids_of lines) = [].
Proof.
  intros H.
  assert (E : ids_of lines = map strip (filter (startswith "Gs") lines)).
  { unfold ids_of. f_equal. apply filter_ext_in. intros l Hl.
    rewrite (H l Hl). apply orb_false_r. }
  split; [exact E|]. rewrite E. split.
  - apply filter_all. intros x Hx. apply in_map_iff in Hx as (l & <- & Hl).
    apply filter_In in Hl as [_ Hl]. now apply stripped_study_line.
  - apply filter_none. intros x Hx. apply in_map_iff in Hx as (l & <- & Hl).
    apply filter_In in Hl as [_ Hl]. now apply stripped_study_line.
Qed.

(** An id file without study lines gives biosample ids only. *)
Lemma ids_of_biosample_lines lines :
  (forall l, In l lines -> startswith "Gs" l = false) ->
  ids_of lines = map strip (filter (startswith "Gb") lines)
  /\ filter (startswith "Gs") (ids_of lines) = [].
Proof.
  intros H.
  assert (E : ids_of lines = map strip (filter (startswith "Gb") lines)).
  { unfold ids_of. f_equal. apply filter_ext_in. intros l Hl. now rewrite (H l Hl). }
  split; [exact E|]. rewrite E.
  apply filter_none. intros x Hx. apply in_map_iff in Hx as (l & <- & Hl).
  apply filter_In in Hl as [_ Hl]. now apply stripped_biosample_line.
Qed.

Lemma ids_of_nonempty lines l :
  In l lines -> startswith "Gs" l || startswith "Gb" l = true ->
  Nat.eqb (List.length (ids_of lines)) 0 = false.
Proof.
  intros Hin Hl.
  assert (I : In (strip l) (ids_of lines)).
  { unfold ids_of. apply in_map, filter_In. now split. }
  destruct (ids_of lines); [contradiction|reflexivity].
Qed.

(** X19.  With a loaded key and an id file in which no line starts with
    [Gs] or [Gb], the command ends in the exception [No ids in <idfile>]
    before any request is made and before anything is written, whatever
    the other options are; the cache has been cleared by then when
    [--clear-cache] was given. *)
Theorem command_stops_without_ids idfile directory (clear_cache : bool) output_format
    authentication_file include_biosamples s st lines :
  GoldClient.load_key authentication_file (command_started include_biosamples s)
  = (Ok tt, st) ->
  files s idfile = Some lines ->
  (forall l, In l lines -> startswith "Gs" l = false /\ startswith "Gb" l = false) ->
  let out := fetch_studies idfile directory clear_cache output_format
               authentication_file include_biosamples s in
  fst out = Raise (Exception ("No ids in " ++ idfile))
  /\ requests (snd out) = requests s
  /\ written (snd out) = written s
  /\ cache (snd out) = if clear_cache then [] else cache s.
Proof.
  intros Hload Hf Hno out. subst out.
  rewrite (command_run _ directory clear_cache output_format _ _ _ _ _ Hload Hf).
  cbv zeta.
  assert (E : ids_of lines = []).
  { unfold ids_of. rewrite filter_none; [reflexivity|].
    intros l Hl. destruct (Hno l Hl) as [-> ->]. reflexivity. }
  rewrite E. cbn [List.length Nat.eqb fst snd].
  pose proof (load_key_frame authentication_file (command_started include_biosamples s))
    as (Hreq & _ & Hwr).
  rewrite Hload in Hreq, Hwr. simpl in Hreq, Hwr.
  assert (Hc : cache st = cache s).
  { destruct (load_key_world authentication_file
                (command_started include_biosamples s)) as (Hc0 & _).
    rewrite Hload in Hc0. exact Hc0. }
  split; [reflexivity|].
  destruct clear_cache; simpl; auto.
Qed.

Lemma command_stops_without_ids_witness :
  fst (fetch_studies "ids.txt" (Some "out") true "yaml" "config/gold-key.txt" false
         (machine_with ["# studies"; " Gs1"; "gold:Gs2"]))
  = Raise (Exception "No ids in ids.txt").
Proof.
  apply (command_stops_without_ids "ids.txt" (Some "out") true "yaml"
           "config/gold-key.txt" false (machine_with ["# studies"; " Gs1"; "gold:Gs2"])
           (set_gold_key (Some ("user", "pass"))
              (command_started false (machine_with ["# studies"; " Gs1"; "gold:Gs2"])))
           ["# studies"; " Gs1"; "gold:Gs2"]).
  - reflexivity.
  - reflexivity.
  - intros l [<-|[<-|[<-|[]]]]; split; reflexivity.
Defined.

(** The command up to the reading of the id file. *)
Lemma command_prefix {B} (k : list string -> M B) idfile (clear_cache : bool)
    authentication_file include_biosamples s :
  (log INFO "Additional args: {}"
       [LJson (JObj [("include_biosamples", JBool include_biosamples)])] ;;;
   GoldClient.new ;;;
   GoldClient.load_key authentication_file ;;;
   (if clear_cache then GoldClient.clear_cache else ret tt) ;;;
   lines <- read_lines idfile ;;
   k lines) s
  = match GoldClient.load_key authentication_file
            (command_started include_biosamples s) with
    | (Raise e, st) => (Raise e, st)
    | (Ok _, st) =>
        match files s idfile with
        | None => (Raise FileNotFoundError, if clear_cache then set_cache [] st else st)
        | Some lines => k lines (if clear_cache then set_cache [] st else st)
        end
    end.
Proof.
  pose proof (load_key_frame authentication_file (command_started include_biosamples s))
    as (_ & Hfiles & _).
  unfold bind at 1. unfold log at 1, modify at 1.
  unfold bind at 1. unfold GoldClient.new at 1, modify at 1.
  fold (command_started include_biosamples s).
  unfold bind at 1.
  destruct (GoldClient.load_key authentication_file
              (command_started include_biosamples s)) as [[[]|e] st]; [|reflexivity].
  simpl in Hfiles.
  assert (Hcc : (if clear_cache then GoldClient.clear_cache else ret tt) st
                = (Ok tt, if clear_cache then set_cache [] st else st))
    by (now destruct clear_cache).
  rewrite (bind_ok _ _ _ _ _ Hcc).
  unfold bind, read_lines.
  replace (files (if clear_cache then set_cache [] st else st)) with (files s)
    by (now destruct clear_cache).
  destruct (files s idfile); reflexivity.
Qed.

(** X20.  [--directory] has no effect unless the id file has a line that
    starts with [Gs]: with biosample ids, with no ids, with an unreadable
    id file or key file, the command returns the same and leaves the same
    state, output included, as without the option. *)
Theorem directory_is_ignored_without_study_ids idfile dir (clear_cache : bool)
    output_format authentication_file include_biosamples s :
  (forall lines l, files s idfile = Some lines -> In l lines ->
     startswith "Gs" l = false) ->
  fetch_studies idfile (Some dir) clear_cache output_format authentication_file
    include_biosamples s
  = fetch_studies idfile None clear_cache output_format authentication_file
      include_biosamples s.
Proof.
  intros H. unfold fetch_studies. rewrite !command_prefix.
  destruct (GoldClient.load_key authentication_file
              (command_started include_biosamples s)) as [[[]|e] st]; [|reflexivity].
  destruct (files s idfile) as [lines|] eqn:Hf; [|reflexivity].
  cbv zeta. fold (ids_of lines).
  destruct (ids_of_biosample_lines lines (fun l Hl => H lines l eq_refl Hl)) as (_ & E).
  rewrite E.
  destruct (Nat.eqb (List.length (ids_of lines)) 0); reflexivity.
Qed.

Lemma directory_is_ignored_without_study_ids_witness :
  fetch_studies "ids.txt" (Some "out") false "yaml" "config/gold-key.txt" true
    (machine_with ["Gb1"; "Gb2"])
  = fetch_studies "ids.txt" None false "yaml" "config/gold-key.txt" true
      (machine_with ["Gb1"; "Gb2"]).
Proof.
  apply (directory_is_ignored_without_study_ids "ids.txt" "out" false "yaml"
           "config/gold-key.txt" true (machine_with ["Gb1"; "Gb2"])).
  intros lines l E. injection E as <-. intros [<-|[<-|[]]]; reflexivity.
Defined.

(** The loop that writes one file for each study, when every file can be
    opened. *)
Lemma dump_each_served api u p dir output_format include ids : forall s,
  (include = true -> service_ok api u p) ->
  served api s -> gold_key s = Some (u, p) ->
  (forall id, In id ids -> study_listed api u p id = true) ->
  (forall id, In id ids ->
     unwritable (files s) (dir ++ "/" ++ id ++ "." ++ output_format) = None) ->
  exists s', dump_each dir output_format include ids s = (Ok tt, s')
    /\ num_calls s' = num_calls s + calls_per_study include * List.length ids
    /\ List.length (requests s')
       <= List.length (requests s) + calls_per_study include * List.length ids
    /\ written s'
       = (written s ++ map (study_file api u p dir output_format include) ids)%list.
Proof.
  induction ids as [|id ids IH]; intros s Hok Hs Hk Hl Hopen.
  - exists s. simpl. rewrite app_nil_r. repeat split; lia.
  - destruct (fetch_study_served api u p id include s Hok Hs Hk (Hl id (or_introl eq_refl)))
      as (s1 & Hrun & Hs1 & Hk1 & Hn1 & Hr1).
    destruct (confined_study id include s) as [_ (Hw & Hfi & _)].
    rewrite Hrun in Hw, Hfi. simpl in Hw, Hfi.
    set (s2 := add_written (study_file api u p dir output_format include id)
                 (add_log {| level := INFO; fmt := "Retrieved {}"; args := [LStr id] |}
                    s1)).
    assert (Hs2 : served api s2) by (now apply (served_ext api s1 s2)).
    assert (Hopen2 : forall i, In i ids ->
              unwritable (files s2) (dir ++ "/" ++ i ++ "." ++ output_format) = None).
    { intros i Hi. change (files s2) with (files s1). rewrite Hfi.
      apply Hopen. now right. }
    destruct (IH s2 Hok Hs2 Hk1 (fun i Hi => Hl i (or_intror Hi)) Hopen2)
      as (s' & Hrest & Hn & Hr & Hwr).
    exists s'. split.
    + cbn [dump_each]. rewrite (bind_ok _ _ _ _ _ Hrun). cbv zeta.
      unfold bind at 1. unfold log at 1, modify at 1.
      unfold bind at 1. unfold open_for_writing at 1.
      change (files (add_log {| level := INFO; fmt := "Retrieved {}";
                               args := [LStr id] |} s1)) with (files s1).
      rewrite Hfi, (Hopen id (or_introl eq_refl)). exact Hrest.
    + cbn [List.length map]. simpl in Hn, Hr, Hwr.
      rewrite Hwr, Hw, <- app_assoc. simpl.
      split; [nia|]. split; [nia|reflexivity].
Qed.

(** The loop stops at the first file that cannot be opened: the study has
    been fetched by then, the files before it are written. *)
Lemma dump_each_stops api u p dir output_format include bad post e pre : forall s,
  (include = true -> service_ok api u p) ->
  served api s -> gold_key s = Some (u, p) ->
  (forall id, In id (pre ++ [bad])%list -> study_listed api u p id = true) ->
  (forall id, In id pre ->
     unwritable (files s) (dir ++ "/" ++ id ++ "." ++ output_format) = None) ->
  unwritable (files s) (dir ++ "/" ++ bad ++ "." ++ output_format) = Some e ->
  exists s', dump_each dir output_format include (pre ++ bad :: post)%list s
             = (Raise e, s')
    /\ num_calls s' = num_calls s + calls_per_study include * (List.length pre + 1)
    /\ written s'
       = (written s ++ map (study_file api u p dir output_format include) pre)%list.
Proof.
  induction pre as [|id pre IH]; intros s Hok Hs Hk Hl Hopen Hbad.
  - destruct (fetch_study_served api u p bad include s Hok Hs Hk (Hl bad (or_introl eq_refl)))
      as (s1 & Hrun & _ & _ & Hn1 & _).
    destruct (confined_study bad include s) as [_ (Hw & Hfi & _)].
    rewrite Hrun in Hw, Hfi. simpl in Hw, Hfi.
    exists (add_log {| level := INFO; fmt := "Retrieved {}"; args := [LStr bad] |} s1).
    split; [|split].
    + cbn [app dump_each]. rewrite (bind_ok _ _ _ _ _ Hrun). cbv zeta.
      unfold bind at 1. unfold log at 1, modify at 1.
      apply bind_raise. unfold open_for_writing.
      change (files (add_log {| level := INFO; fmt := "Retrieved {}";
                               args := [LStr bad] |} s1)) with (files s1).
      now rewrite Hfi, Hbad.
    + simpl. rewrite Hn1. lia.
    + simpl. now rewrite Hw, app_nil_r.
  - destruct (fetch_study_served api u p id include s Hok Hs Hk (Hl id (or_introl eq_refl)))
      as (s1 & Hrun & Hs1 & Hk1 & Hn1 & _).
    destruct (confined_study id include s) as [_ (Hw & Hfi & _)].
    rewrite Hrun in Hw, Hfi. simpl in Hw, Hfi.
    set (s2 := add_written (study_file api u p dir output_format include id)
                 (add_log {| level := INFO; fmt := "Retrieved {}"; args := [LStr id] |}
                    s1)).
    assert (Hs2 : served api s2) by (now apply (served_ext api s1 s2)).
    assert (Hopen2 : forall i, In i pre ->
              unwritable (files s2) (dir ++ "/" ++ i ++ "." ++ output_format) = None).
    { intros i Hi. change (files s2) with (files s1). rewrite Hfi.
      apply Hopen. now right. }
    assert (Hbad2 : unwritable (files s2) (dir ++ "/" ++ bad ++ "." ++ output_format)
                    = Some e).
    { change (files s2) with (files s1). now rewrite Hfi. }
    destruct (IH s2 Hok Hs2 Hk1 (fun i Hi => Hl i (or_intror Hi)) Hopen2 Hbad2)
      as (s' & Hrest & Hn & Hwr).
    exists s'. split.
    + cbn [app dump_each]. rewrite (bind_ok _ _ _ _ _ Hrun). cbv zeta.
      unfold bind at 1. unfold log at 1, modify at 1.
      unfold bind at 1. unfold open_for_writing at 1.
      change (files (add_log {| level := INFO; fmt := "Retrieved {}";
                               args := [LStr id] |} s1)) with (files s1).
      rewrite Hfi, (Hopen id (or_introl eq_refl)). exact Hrest.
    + cbn [List.length map]. simpl in Hn, Hwr.
      rewrite Hwr, Hw, <- app_assoc. simpl. split; [nia|reflexivity].
Qed.

(** The state in which the command starts to fetch. *)
Lemma command_ready api u p (clear_cache : bool) include s :
  served api (if clear_cache then set_cache [] s else s) ->
  let st := set_gold_key (Some (u, p)) (command_started include s) in
  let s0 := if clear_cache then set_cache [] st else st in
  served api s0 /\ gold_key s0 = Some (u, p) /\ num_calls s0 = 0
  /\ written s0 = written s /\ requests s0 = requests s /\ files s0 = files s.
Proof.
  intros Hs st s0. subst s0 st.
  destruct clear_cache; (split; [|repeat split]);
    eapply served_ext; try exact Hs; reflexivity.
Qed.

(** X21.  With [--directory] and an id file of study ids the command
    writes one file for each id, in the order of the lines and a file
    again for an id that is given again: [<directory>/<id>.<format>] holds
    what [fetch_study] returns for the id, dumped as YAML when the format
    is [yaml] and as JSON for any other format.  This is so when each of
    these paths can be opened for writing, for which the directory has to
    exist: the command makes no directory.  Nothing goes to [--output],
    and the calls counted are those of the studies.  At the first path
    that cannot be opened the command ends in the error of [open], after
    that study has been fetched, with the files of the ids before it
    written and none after it. *)
Theorem command_writes_one_file_per_study api u p idfile dir (clear_cache : bool)
    output_format authentication_file include_biosamples s key_line key_rest lines :
  files s authentication_file = Some (key_line :: key_rest) ->
  split_on ":" (strip key_line) = [u; p] ->
  files s idfile = Some lines ->
  (exists l, In l lines /\ startswith "Gs" l = true) ->
  (forall l, In l lines -> startswith "Gb" l = false) ->
  dir <> EmptyString ->
  (include_biosamples = true -> service_ok api u p) ->
  served api (if clear_cache then set_cache [] s else s) ->
  (forall l, In l lines -> startswith "Gs" l = true ->
     study_listed api u p (strip l) = true) ->
  let ids := map strip (filter (startswith "Gs") lines) in
  let outpath := fun id => dir ++ "/" ++ id ++ "." ++ output_format in
  let out := fetch_studies idfile (Some dir) clear_cache output_format
               authentication_file include_biosamples s in
  ((forall id, In id ids -> unwritable (files s) (outpath id) = None) ->
   fst out = Ok tt
   /\ written (snd out)
      = (written s
         ++ map (study_file api u p dir output_format include_biosamples) ids)%list
   /\ num_calls (snd out) = calls_per_study include_biosamples * List.length ids)
  /\ (forall pre bad post e,
        ids = (pre ++ bad :: post)%list ->
        (forall id, In id pre -> unwritable (files s) (outpath id) = None) ->
        unwritable (files s) (outpath bad) = Some e ->
        fst out = Raise e
        /\ written (snd out)
           = (written s
              ++ map (study_file api u p dir output_format include_biosamples) pre)%list
        /\ num_calls (snd out)
           = calls_per_study include_biosamples * (List.length pre + 1)).
Proof.
  intros Hkf Hkey Hf (l0 & Hin0 & Hgs0) Hnob Hdir Hok Hs Hl ids outpath out.
  assert (Hload := load_key_ok authentication_file (command_started include_biosamples s)
                     key_line key_rest u p Hkf Hkey).
  destruct (ids_of_study_lines lines Hnob) as (Eids & Es & Eb).
  fold ids in Eids.
  assert (Hne : exists a rest, ids = a :: rest).
  { assert (I : In (strip l0) ids) by (apply in_map, filter_In; now split).
    destruct ids as [|a rest]; [contradiction|eauto]. }
  destruct Hne as (a & rest & Ea).
  assert (Ht : truthy (Some dir) = true) by (destruct dir; [contradiction|reflexivity]).
  destruct (command_ready api u p clear_cache include_biosamples s Hs)
    as (Hs0 & Hk0 & Hn0 & Hw0 & _ & Hf0).
  assert (Hids : forall id, In id ids -> study_listed api u p id = true).
  { intros id Hin. apply in_map_iff in Hin as (line & <- & Hin).
    apply filter_In in Hin as [Hin Hgs]. now apply Hl. }
  assert (Hout : out
    = (dump_each dir output_format include_biosamples ids ;;;
       calls <- gets num_calls ;;
       log INFO "DONE. Calls = {}" [LNat calls])
        (if clear_cache
         then set_cache [] (set_gold_key (Some (u, p))
                              (command_started include_biosamples s))
         else set_gold_key (Some (u, p)) (command_started include_biosamples s))).
  { subst out.
    rewrite (command_run _ (Some dir) clear_cache output_format _ _ _ _ _ Hload Hf).
    cbv zeta.
    rewrite (ids_of_nonempty lines l0 Hin0) by (now rewrite Hgs0).
    rewrite Eb, Es, Eids, Ht. rewrite Ea at 1. reflexivity. }
  split.
  - intros Hopen.
    assert (Hopen0 : forall id, In id ids ->
      unwritable
        (files (if clear_cache
                then set_cache [] (set_gold_key (Some (u, p))
                                     (command_started include_biosamples s))
                else set_gold_key (Some (u, p)) (command_started include_biosamples s)))
        (dir ++ "/" ++ id ++ "." ++ output_format) = None).
    { intros id Hin. rewrite Hf0. now apply Hopen. }
    destruct (dump_each_served api u p dir output_format include_biosamples ids _
                Hok Hs0 Hk0 Hids Hopen0) as (s' & Hrun & Hn & _ & Hwr).
    assert (E : out = (Ok tt, command_done s')).
    { rewrite Hout, (bind_ok _ _ _ _ _ Hrun). reflexivity. }
    rewrite E. cbn [fst snd]. split; [reflexivity|]. split.
    + change (written (command_done s')) with (written s'). now rewrite Hwr, Hw0.
    + change (num_calls (command_done s')) with (num_calls s').
      rewrite Hn, Hn0. reflexivity.
  - intros pre bad post e Epre Hopen Hbad.
    assert (Hpre : forall id, In id (pre ++ [bad])%list -> study_listed api u p id = true).
    { intros id Hin. apply Hids. rewrite Epre. apply in_app_iff.
      apply in_app_iff in Hin as [Hin|[<-|[]]]; [now left|right; now left]. }
    assert (Hopen0 : forall id, In id pre ->
      unwritable
        (files (if clear_cache
                then set_cache [] (set_gold_key (Some (u, p))
                                     (command_started include_biosamples s))
                else set_gold_key (Some (u, p)) (command_started include_biosamples s)))
        (dir ++ "/" ++ id ++ "." ++ output_format) = None).
    { intros id Hin. rewrite Hf0. now apply Hopen. }
    assert (Hbad0 :
      unwritable
        (files (if clear_cache
                then set_cache [] (set_gold_key (Some (u, p))
                                     (command_started include_biosamples s))
                else set_gold_key (Some (u, p)) (command_started include_biosamples s)))
        (dir ++ "/" ++ bad ++ "." ++ output_format) = Some e).
    { rewrite Hf0. exact Hbad. }
    destruct (dump_each_stops api u p dir output_format include_biosamples bad post e pre
                _ Hok Hs0 Hk0 Hpre Hopen0 Hbad0) as (s' & Hrun & Hn & Hwr).
    assert (E : out = (Raise e, s')).
    { rewrite Hout, Epre. now apply bind_raise. }
    rewrite E. cbn [fst snd]. split; [reflexivity|]. split.
    + now rewrite Hwr, Hw0.
    + rewrite Hn, Hn0. reflexivity.
Qed.

Lemma machine_with_served (clear_cache : bool) lines :
  served study_S1
    (if clear_cache then set_cache [] (machine_with lines) else machine_with lines).
Proof.
  intros rq. right. destruct clear_cache; (split; [reflexivity|]); intros n _; reflexivity.
Defined.

Lemma command_writes_one_file_per_study_witness :
  written (snd (fetch_studies "ids.txt" (Some "out") false "json" "config/gold-key.txt"
                  false (machine_with ["Gs1"; "# comment"; "Gs2 "])))
  = [ {| target := Some "out/Gs1.json"; format := JSONFMT;
         payload := JObj [("studyGoldId", JStr "S1")] |};
      {| target := Some "out/Gs2.json"; format := JSONFMT;
         payload := JObj [("studyGoldId", JStr "S1")] |} ]
  /\ fst (fetch_studies "ids.txt" (Some "elsewhere") false "json" "config/gold-key.txt"
            false (machine_with ["Gs1"; "# comment"; "Gs2 "]))
     = Raise FileNotFoundError.
Proof.
  split.
  - destruct (command_writes_one_file_per_study study_S1 "user" "pass" "ids.txt" "out"
                false "json" "config/gold-key.txt" false
                (machine_with ["Gs1"; "# comment"; "Gs2 "]) "user:pass" []
                ["Gs1"; "# comment"; "Gs2 "]) as (Hall & _).
    + reflexivity.
    + reflexivity.
    + reflexivity.
    + exists "Gs1". split; [now left|reflexivity].
    + intros l [<-|[<-|[<-|[]]]]; reflexivity.
    + discriminate.
    + discriminate.
    + exact (machine_with_served false _).
    + intros l _ _. reflexivity.
    + destruct Hall as (_ & Hw & _); [|exact Hw].
      intros id [<-|[<-|[]]]; reflexivity.
  - destruct (command_writes_one_file_per_study study_S1 "user" "pass" "ids.txt"
                "elsewhere" false "json" "config/gold-key.txt" false
                (machine_with ["Gs1"; "# comment"; "Gs2 "]) "user:pass" []
                ["Gs1"; "# comment"; "Gs2 "]) as (_ & Hstop).
    + reflexivity.
    + reflexivity.
    + reflexivity.
    + exists "Gs1". split; [now left|reflexivity].
    + intros l [<-|[<-|[<-|[]]]]; reflexivity.
    + discriminate.
    + discriminate.
    + exact (machine_with_served false _).
    + intros l _ _. reflexivity.
    + destruct (Hstop [] "Gs1" ["Gs2"] FileNotFoundError) as (He & _).
      * reflexivity.
      * intros id [].
      * reflexivity.
      * exact He.
Defined.

(** [GoldClient.fetch_studies] over listed studies, and what it leaves. *)
Lemma client_fetch_studies_served api u p include ids s :
  (include = true -> service_ok api u p) ->
  served api s -> gold_key s = Some (u, p) ->
  (forall id, In id ids -> study_listed api u p id = true) ->
  exists s', GoldClient.fetch_studies ids include s
             = (Ok (map (fun id => study_record api u p id include) ids), s')
    /\ num_calls s' = num_calls s + calls_per_study include * List.length ids
    /\ written s' = written s.
Proof.
  intros Hok Hs Hk Hl.
  set (r := {| level := INFO; fmt := "Fetching {} studies";
               args := [LNat (List.length ids)] |}).
  pose proof (same_world_log r s) as W.
  assert (Hs0 := served_same_world _ _ _ W Hs).
  destruct W as (_ & _ & _ & K0 & N0).
  destruct (for_each_study_served api u p include ids (add_log r s) Hok Hs0
              (eq_trans K0 Hk) Hl) as (s' & Hrun & _ & _ & Hn & _).
  assert (E : GoldClient.fetch_studies ids include s
              = (Ok (map (fun id => study_record api u p id include) ids), s')).
  { unfold GoldClient.fetch_studies, bind at 1, log at 1, modify at 1. fold r.
    exact Hrun. }
  exists s'. split; [exact E|]. split; [now rewrite Hn, N0|].
  destruct (confined_studies ids include s) as [_ (Hw & _)].
  rewrite E in Hw. exact Hw.
Qed.

(** X22.  Without [--directory] (or with an empty one) and an id file of
    study ids the command writes one document to [--output]: the list of
    what [fetch_study] returns for each id, in the order of the lines,
    dumped as YAML when the format is [yaml] and as JSON for any other
    format.  No other document is written. *)
Theorem command_writes_one_document api u p idfile directory (clear_cache : bool)
    output_format authentication_file include_biosamples s key_line key_rest lines :
  files s authentication_file = Some (key_line :: key_rest) ->
  split_on ":" (strip key_line) = [u; p] ->
  files s idfile = Some lines ->
  (exists l, In l lines /\ startswith "Gs" l = true) ->
  (forall l, In l lines -> startswith "Gb" l = false) ->
  truthy directory = false ->
  (include_biosamples = true -> service_ok api u p) ->
  served api (if clear_cache then set_cache [] s else s) ->
  (forall l, In l lines -> startswith "Gs" l = true ->
     study_listed api u p (strip l) = true) ->
  let ids := map strip (filter (startswith "Gs") lines) in
  let out := fetch_studies idfile directory clear_cache output_format
               authentication_file include_biosamples s in
  fst out = Ok tt
  /\ written (snd out)
     = (written s
        ++ [studies_document output_format
              (map (fun id => study_record api u p id include_biosamples) ids)])%list
  /\ num_calls (snd out) = calls_per_study include_biosamples * List.length ids.
Proof.
  intros Hkf Hkey Hf (l0 & Hin0 & Hgs0) Hnob Ht Hok Hs Hl ids out.
  assert (Hload := load_key_ok authentication_file (command_started include_biosamples s)
                     key_line key_rest u p Hkf Hkey).
  destruct (ids_of_study_lines lines Hnob) as (Eids & Es & Eb).
  fold ids in Eids.
  assert (Hne : exists a rest, ids = a :: rest).
  { assert (I : In (strip l0) ids) by (apply in_map, filter_In; now split).
    destruct ids as [|a rest]; [contradiction|eauto]. }
  destruct Hne as (a & rest & Ea).
  destruct (command_ready api u p clear_cache include_biosamples s Hs)
    as (Hs0 & Hk0 & Hn0 & Hw0 & _).
  assert (Hids : forall id, In id ids -> study_listed api u p id = true).
  { intros id Hin. apply in_map_iff in Hin as (line & <- & Hin).
    apply filter_In in Hin as [Hin Hgs]. now apply Hl. }
  destruct (client_fetch_studies_served api u p include_biosamples ids _
              Hok Hs0 Hk0 Hids) as (s1 & Hrun & Hn & Hwr).
  set (studies := map (fun id => study_record api u p id include_biosamples) ids) in *.
  set (s2 := add_written (studies_document output_format studies)
               (add_log {| level := INFO; fmt := "Retrieved {} studies";
                           args := [LNat (List.length studies)] |} s1)).
  assert (E : out = (Ok tt, command_done s2)).
  { subst out.
    rewrite (command_run _ directory clear_cache output_format _ _ _ _ _ Hload Hf).
    cbv zeta.
    rewrite (ids_of_nonempty lines l0 Hin0) by (now rewrite Hgs0).
    rewrite Eb, Es, Eids, Ht. rewrite Ea at 1. cbv iota.
    assert (Hinner :
      (studies0 <- GoldClient.fetch_studies ids include_biosamples ;;
       log INFO "Retrieved {} studies" [LNat (List.length studies0)] ;;;
       dump None output_format (JArr studies0))
        (if clear_cache
         then set_cache [] (set_gold_key (Some (u, p))
                              (command_started include_biosamples s))
         else set_gold_key (Some (u, p)) (command_started include_biosamples s))
      = (Ok tt, s2)).
    { rewrite (bind_ok _ _ _ _ _ Hrun). reflexivity. }
    rewrite (bind_ok _ _ _ _ _ Hinner). reflexivity. }
  rewrite E. cbn [fst snd]. split; [reflexivity|].
  split.
  - change (written (command_done s2))
      with (written s1 ++ [studies_document output_format studies])%list.
    now rewrite Hwr, Hw0.
  - change (num_calls (command_done s2)) with (num_calls s1). rewrite Hn, Hn0. reflexivity.
Qed.

Lemma command_writes_one_document_witness :
  written (snd (fetch_studies "ids.txt" None true "yaml" "config/gold-key.txt"
                  false (machine_with ["Gs1"; "Gs1"])))
  = [ {| target := None; format := YAML;
         payload := JArr [JObj [("studyGoldId", JStr "S1")];
                          JObj [("studyGoldId", JStr "S1")]] |} ].
Proof.
  destruct (command_writes_one_document study_S1 "user" "pass" "ids.txt" None
              true "yaml" "config/gold-key.txt" false
              (machine_with ["Gs1"; "Gs1"]) "user:pass" [] ["Gs1"; "Gs1"])
    as (_ & Hw & _).
  - reflexivity.
  - reflexivity.
  - reflexivity.
  - exists "Gs1". split; [now left|reflexivity].
  - intros l [<-|[<-|[]]]; reflexivity.
  - reflexivity.
  - discriminate.
  - exact (machine_with_served true _).
  - intros l _ _. reflexivity.
  - exact Hw.
Defined.

Lemma confined_studies_by_biosample_ids ids :
  confined (GoldClient.fetch_studies_by_biosample_ids ids).
Proof.
  unfold GoldClient.fetch_studies_by_biosample_ids.
  apply confined_bind; [apply confined_log|]. intros _. apply confined_studies_loop.
Qed.

(** [fetch_studies_by_biosample_ids] against a consistent service, and what
    it leaves. *)
Lemma client_fetch_by_biosample_ids_served api u p ids s :
  service_ok api u p -> served api s -> gold_key s = Some (u, p) ->
  exists s', GoldClient.fetch_studies_by_biosample_ids ids s
             = (Ok (plan api u p ids []), s')
    /\ num_calls s' = num_calls s + 3 * List.length (plan api u p ids [])
    /\ written s' = written s.
Proof.
  intros Hok Hs Hk.
  set (r := {| level := INFO; fmt := "Fetching {} samples";
               args := [LNat (List.length ids)] |}).
  pose proof (same_world_log r s) as W.
  assert (Hs0 := served_same_world _ _ _ W Hs).
  destruct W as (_ & _ & _ & K0 & N0).
  destruct (studies_loop_plan api u p (List.length ids) ids 0 [] [] [] (add_log r s)
              Hok Hs0 (eq_trans K0 Hk) tracks_nil) as (s' & Hrun & Hn & _).
  assert (E : GoldClient.fetch_studies_by_biosample_ids ids s
              = (Ok (plan api u p ids []), s')) by exact Hrun.
  exists s'. split; [exact E|]. split; [now rewrite Hn, N0|].
  destruct (confined_studies_by_biosample_ids ids s) as [_ (Hw & _)].
  rewrite E in Hw. exact Hw.
Qed.

(** X23.  With an id file of biosample ids the command writes one document
    to [--output], whatever [--directory] and [--include-biosamples] are:
    the studies that [fetch_studies_by_biosample_ids] returns for the ids,
    each with its biosamples (they are always included), at three calls a
    study. *)
Theorem command_writes_the_studies_of_biosamples api u p idfile directory
    (clear_cache : bool) output_format authentication_file include_biosamples s
    key_line key_rest lines :
  files s authentication_file = Some (key_line :: key_rest) ->
  split_on ":" (strip key_line) = [u; p] ->
  files s idfile = Some lines ->
  (exists l, In l lines /\ startswith "Gb" l = true) ->
  (forall l, In l lines -> startswith "Gs" l = false) ->
  service_ok api u p ->
  served api (if clear_cache then set_cache [] s else s) ->
  let ids := map strip (filter (startswith "Gb") lines) in
  let out := fetch_studies idfile directory clear_cache output_format
               authentication_file include_biosamples s in
  fst out = Ok tt
  /\ written (snd out)
     = (written s ++ [studies_document output_format (plan api u p ids [])])%list
  /\ num_calls (snd out) = 3 * List.length (plan api u p ids []).
Proof.
  intros Hkf Hkey Hf (l0 & Hin0 & Hgb0) Hnos Hok Hs ids out.
  assert (Hload := load_key_ok authentication_file (command_started include_biosamples s)
                     key_line key_rest u p Hkf Hkey).
  destruct (ids_of_biosample_lines lines Hnos) as (Eids & Es).
  fold ids in Eids.
  destruct (command_ready api u p clear_cache include_biosamples s Hs)
    as (Hs0 & Hk0 & Hn0 & Hw0 & _).
  destruct (client_fetch_by_biosample_ids_served api u p ids _ Hok Hs0 Hk0)
    as (s1 & Hrun & Hn & Hwr).
  set (studies := plan api u p ids []) in *.
  set (s2 := add_written (studies_document output_format studies)
               (add_log {| level := INFO; fmt := "Retrieved {} studies";
                           args := [LNat (List.length studies)] |} s1)).
  assert (E : out = (Ok tt, command_done s2)).
  { subst out.
    rewrite (command_run _ directory clear_cache output_format _ _ _ _ _ Hload Hf).
    cbv zeta.
    rewrite (ids_of_nonempty lines l0 Hin0) by (rewrite Hgb0; apply orb_true_r).
    rewrite Es, Eids.
    assert (Hinner :
      (studies0 <- GoldClient.fetch_studies_by_biosample_ids ids ;;
       log INFO "Retrieved {} studies" [LNat (List.length studies0)] ;;;
       dump None output_format (JArr studies0))
        (if clear_cache
         then set_cache [] (set_gold_key (Some (u, p))
                              (command_started include_biosamples s))
         else set_gold_key (Some (u, p)) (command_started include_biosamples s))
      = (Ok tt, s2)).
    { rewrite (bind_ok _ _ _ _ _ Hrun). reflexivity. }
    rewrite (bind_ok _ _ _ _ _ Hinner). reflexivity. }
  rewrite E. cbn [fst snd]. split; [reflexivity|].
  split.
  - change (written (command_done s2))
      with (written s1 ++ [studies_document output_format studies])%list.
    now rewrite Hwr, Hw0.
  - change (num_calls (command_done s2)) with (num_calls s1). rewrite Hn, Hn0. reflexivity.
Qed.

Lemma command_writes_the_studies_of_biosamples_witness :
  written (snd (fetch_studies "ids.txt" (Some "out") false "json" "config/gold-key.txt"
                  false (machine_with ["GbB1"; "B2"])))
  = [ studies_document "json" (plan study_S1 "user" "pass" ["GbB1"] []) ].
Proof.
  destruct (command_writes_the_studies_of_biosamples study_S1 "user" "pass" "ids.txt"
              (Some "out") false "json" "config/gold-key.txt" false
              (machine_with ["GbB1"; "B2"]) "user:pass" [] ["GbB1"; "B2"])
    as (_ & Hw & _).
  - reflexivity.
  - reflexivity.
  - reflexivity.
  - exists "GbB1". split; [now left|reflexivity].
  - intros l [<-|[<-|[]]]; reflexivity.
  - exact serving_S1_ok.
  - exact (machine_with_served false _).
  - exact Hw.
Defined.

(** * Running again over the cache of an earlier run *)

Lemma cache_le_refl c : cache_le c c.
Proof. intros rq v H. exact H. Qed.

Lemma cache_le_trans c1 c2 c3 : cache_le c1 c2 -> cache_le c2 c3 -> cache_le c1 c3.
Proof. intros H1 H2 rq v H. now apply H2, H1. Qed.

(** A step that is the same function of the state in both processes, keeps
    the cache and what [follows] looks at, and writes nothing. *)
Lemma resumable_quiet {A} C (m : M A) :
  (forall s, cache (snd (m s)) = cache s /\ written (snd (m s)) = written s
             /\ requests (snd (m s)) = requests s /\ sleeps (snd (m s)) = sleeps s) ->
  (forall s t, gold_key t = gold_key s -> num_calls t = num_calls s ->
               files t = files s ->
               fst (m t) = fst (m s)
               /\ gold_key (snd (m t)) = gold_key (snd (m s))
               /\ num_calls (snd (m t)) = num_calls (snd (m s))
               /\ files (snd (m t)) = files (snd (m s))) ->
  resumable C m.
Proof.
  intros Hq Hsame. split.
  - intros s. destruct (Hq s) as (Hc & _). rewrite Hc. apply cache_le_refl.
  - intros s v s' t Hrun _ (Fk & Fn & Ff & Fc).
    destruct (Hsame s t Fk Fn Ff) as (Ev & Ek & En & Efi).
    destruct (Hq s) as (_ & Hws & _). destruct (Hq t) as (Hct & Hwt & Hrt & Hst).
    rewrite Hrun in *. cbn [fst snd] in *.
    exists (snd (m t)). split; [now rewrite <- Ev, <- surjective_pairing|].
    split; [repeat split; try assumption; now rewrite Hct|].
    split; [exact Hrt|]. split; [exact Hst|]. split; [exact Hct|].
    exists []. now rewrite !app_nil_r.
Qed.

Lemma resumable_ret {A} C (a : A) : resumable C (ret a).
Proof. apply resumable_quiet; intros; repeat split; assumption. Qed.

Lemma resumable_raise {A} C e : resumable C (@raise A e).
Proof. apply resumable_quiet; intros; repeat split; assumption. Qed.

Lemma resumable_lift {A} C (r : Result A) : resumable C (lift r).
Proof. apply resumable_quiet; intros; repeat split; assumption. Qed.

Lemma resumable_log C lv f a : resumable C (log lv f a).
Proof. apply resumable_quiet; intros; repeat split; assumption. Qed.

Lemma resumable_gets_key C : resumable C (gets gold_key).
Proof.
  apply resumable_quiet; intros; repeat split; try assumption.
  simpl. now f_equal.
Qed.

Lemma resumable_gets_calls C : resumable C (gets num_calls).
Proof.
  apply resumable_quiet; intros; repeat split; try assumption.
  simpl. now f_equal.
Qed.

Lemma resumable_count C :
  resumable C (modify (fun s => set_num_calls (num_calls s + 1) s)).
Proof.
  apply resumable_quiet; intros; repeat split; try assumption.
  simpl. now f_equal.
Qed.

Lemma resumable_new C : resumable C GoldClient.new.
Proof. apply resumable_quiet; intros; repeat split; assumption. Qed.

Lemma resumable_read_lines C path : resumable C (read_lines path).
Proof.
  apply resumable_quiet.
  - intros s. unfold read_lines. destruct (files s path); repeat split.
  - intros s t Hk Hn Hf. unfold read_lines. rewrite Hf.
    destruct (files s path); repeat split; assumption.
Qed.

Lemma resumable_load_key C path : resumable C (GoldClient.load_key path).
Proof.
  apply resumable_quiet.
  - intros s. unfold GoldClient.load_key, bind, read_lines.
    destruct (files s path) as [[|line rest]|]; simpl; auto.
    destruct (split_on ":" (strip line)) as [|u [|p [|x parts]]]; simpl; auto.
  - intros s t Hk Hn Hf. unfold GoldClient.load_key, bind, read_lines. rewrite Hf.
    destruct (files s path) as [[|line rest]|]; simpl; auto.
    destruct (split_on ":" (strip line)) as [|u [|p [|x parts]]]; simpl; auto.
Qed.

Lemma resumable_dump C path output_format doc : resumable C (dump path output_format doc).
Proof.
  split.
  - intros s. apply cache_le_refl.
  - intros s v s' t Hrun _ (Fk & Fn & Ff & Fc).
    unfold dump, modify in *. injection Hrun as <- <-.
    eexists. split; [reflexivity|]. split; [repeat split; assumption|].
    repeat split. eexists. split; reflexivity.
Qed.

Lemma resumable_bind {A B} C (m : M A) (k : A -> M B) :
  resumable C m -> (forall a, resumable C (k a)) -> resumable C (bind m k).
Proof.
  intros [Km Rm] Hk. split.
  - intros s. unfold bind. specialize (Km s).
    destruct (m s) as [[a|e] s1]; [|exact Km].
    eapply cache_le_trans; [exact Km|apply (proj1 (Hk a))].
  - intros s v s' t Hrun HC Hf.
    apply bind_ok_inv in Hrun as (a & s1 & Hm & Hka).
    destruct (Hk a) as [Kk Rk].
    assert (HC1 : cache_le (cache s1) C).
    { eapply cache_le_trans; [|exact HC]. specialize (Kk s1). now rewrite Hka in Kk. }
    destruct (Rm s a s1 t Hm HC1 Hf)
      as (t1 & Hmt & Hf1 & Hr1 & Hs1 & Hc1 & docs1 & Hw1 & Hwt1).
    destruct (Rk s1 v s' t1 Hka HC Hf1)
      as (t' & Hkt & Hf' & Hr' & Hs' & Hc' & docs2 & Hw2 & Hwt2).
    exists t'. split; [now rewrite (bind_ok _ _ _ _ _ Hmt)|].
    split; [exact Hf'|]. split; [congruence|]. split; [congruence|].
    split; [congruence|].
    exists (docs1 ++ docs2)%list. rewrite Hw2, Hw1, Hwt2, Hwt1, !app_assoc. auto.
Qed.

(** A fetch that returned is in the cache, and so is answered from the
    cache of the later process. *)
Lemma resumable_fetch_url C rq : resumable C (_fetch_url rq).
Proof.
  split.
  - intros s rq' v H. now apply fetch_url_keeps_entries.
  - intros s v s' t Hrun HC (Fk & Fn & Ff & Fc).
    pose proof (fetch_url_frame rq s) as (Gk & Gn & _ & Gf & Gw).
    rewrite Hrun in Gk, Gn, Gf, Gw. cbn [snd] in *.
    assert (Hhit : cache_get rq (cache t) = Some v).
    { apply Fc, HC. exact (fetch_url_ok_cached rq s v s' Hrun). }
    exists t. split; [exact (fetch_url_hit rq t v Hhit)|].
    split; [repeat split; try congruence; exact Fc|].
    repeat split. exists []. now rewrite Gw, !app_nil_r.
Qed.

Lemma resumable_call C endpoint ps : resumable C (GoldClient._call endpoint ps).
Proof.
  unfold GoldClient._call.
  apply resumable_bind; [apply resumable_gets_key|]. intros [[u p]|].
  - apply resumable_bind; [apply resumable_fetch_url|]. intros obj.
    apply resumable_bind; [apply resumable_count|]. intros _. apply resumable_ret.
  - apply resumable_raise.
Qed.

Ltac resume :=
  repeat first
    [ apply resumable_ret | apply resumable_raise | apply resumable_lift
    | apply resumable_log | apply resumable_read_lines | apply resumable_call
    | apply resumable_dump | apply resumable_gets_calls | apply resumable_new
    | apply resumable_load_key
    | apply resumable_bind; [|intros ?]
    | match goal with
      | |- resumable _ (if ?b then _ else _) => destruct b
      | |- resumable _ (match ?x with _ => _ end) => destruct x
      end ].

Lemma resumable_weave_project C id sbi projects project store :
  resumable C (GoldClient.weave_project id sbi projects project store).
Proof. unfold GoldClient.weave_project. cbv zeta. resume. Qed.

Lemma resumable_weave_projects C id sbi projects todo : forall store,
  resumable C (GoldClient.weave_projects id sbi projects todo store).
Proof.
  induction todo as [|p todo IH]; intros store; simpl; [apply resumable_ret|].
  apply resumable_bind; [apply resumable_weave_project|]. intros store'. apply IH.
Qed.

Lemma resumable_biosamples C id include_project :
  resumable C (GoldClient.fetch_biosamples_by_study id include_project).
Proof.
  unfold GoldClient.fetch_biosamples_by_study, GoldClient.fetch_projects_by_study.
  cbv zeta.
  destruct (existsb _ EXCLUSION_LIST); [apply resumable_ret|].
  apply resumable_bind; [apply resumable_call|]. intros biosamples.
  destruct include_project; [|apply resumable_ret].
  apply resumable_bind; [apply resumable_call|]. intros projects.
  apply resumable_bind; [apply resumable_lift|]. intros samples.
  apply resumable_bind; [apply resumable_lift|]. intros sbi.
  apply resumable_bind; [apply resumable_lift|]. intros todo.
  apply resumable_bind; [apply resumable_weave_projects|]. intros store.
  apply resumable_ret.
Qed.

Lemma resumable_study C id include_biosamples :
  resumable C (GoldClient.fetch_study id include_biosamples).
Proof.
  unfold GoldClient.fetch_study. cbv zeta.
  apply resumable_bind; [apply resumable_log|]. intros _.
  apply resumable_bind; [apply resumable_call|]. intros results.
  apply resumable_bind; [apply resumable_lift|]. intros study.
  destruct include_biosamples; [|apply resumable_ret].
  apply resumable_bind; [apply resumable_biosamples|]. intros biosamples.
  apply resumable_lift.
Qed.

Lemma resumable_study_by_biosample C id include_biosamples :
  resumable C (GoldClient.fetch_study_by_biosample_id id include_biosamples).
Proof.
  unfold GoldClient.fetch_study_by_biosample_id. cbv zeta.
  apply resumable_bind; [apply resumable_log|]. intros _.
  apply resumable_bind; [apply resumable_call|]. intros results.
  apply resumable_bind; [apply resumable_lift|]. intros n.
  apply resumable_bind.
  { destruct (Nat.eqb n 0); [|apply resumable_lift].
    apply resumable_bind; [apply resumable_log|]. intros _. apply resumable_ret. }
  intros study.
  destruct include_biosamples; [|apply resumable_ret].
  apply resumable_bind; [apply resumable_lift|]. intros sid.
  apply resumable_bind; [apply resumable_lift|]. intros sid'.
  apply resumable_bind; [apply resumable_biosamples|]. intros biosamples.
  apply resumable_bind; [apply resumable_lift|]. intros study'.
  apply resumable_bind; [apply resumable_lift|]. intros attached.
  apply resumable_bind; [apply resumable_lift|]. intros k.
  apply resumable_bind; [apply resumable_log|]. intros _. apply resumable_ret.
Qed.

Lemma resumable_record_samples C study samples : forall m,
  resumable C (GoldClient.record_samples study samples m).
Proof.
  induction samples as [|b bs IH]; intros m; simpl; [apply resumable_ret|].
  apply resumable_bind; [apply resumable_lift|]. intros sid.
  apply resumable_bind; [apply resumable_lift|]. intros study_id.
  apply resumable_bind; [apply resumable_log|]. intros _.
  destruct (hashable sid); [apply IH|apply resumable_raise].
Qed.

Lemma resumable_studies_loop C total ids : forall n m studies,
  resumable C (GoldClient.studies_loop total ids n m studies).
Proof.
  induction ids as [|b rest IH]; intros n m studies; simpl; [apply resumable_ret|].
  apply resumable_bind; [apply resumable_log|]. intros _.
  destruct (keyed_get (JStr b) m) as [owner|].
  - apply resumable_bind; [apply resumable_log|]. intros _. apply IH.
  - apply resumable_bind; [apply resumable_study_by_biosample|]. intros study.
    apply resumable_bind; [apply resumable_lift|]. intros attached.
    apply resumable_bind; [apply resumable_lift|]. intros k.
    apply resumable_bind; [apply resumable_log|]. intros _.
    apply resumable_bind; [apply resumable_lift|]. intros samples.
    apply resumable_bind; [apply resumable_record_samples|]. intros m'. apply IH.
Qed.

Lemma resumable_studies_by_biosample_ids C ids :
  resumable C (GoldClient.fetch_studies_by_biosample_ids ids).
Proof.
  unfold GoldClient.fetch_studies_by_biosample_ids.
  apply resumable_bind; [apply resumable_log|]. intros _. apply resumable_studies_loop.
Qed.

Lemma resumable_for_each {A B} C (f : A -> M B) l :
  (forall x, resumable C (f x)) -> resumable C (GoldClient.for_each f l).
Proof.
  intros Hf. induction l as [|x l IH]; simpl; [apply resumable_ret|].
  apply resumable_bind; [apply Hf|]. intros y.
  apply resumable_bind; [apply IH|]. intros ys. apply resumable_ret.
Qed.

Lemma resumable_studies C ids include_biosamples :
  resumable C (GoldClient.fetch_studies ids include_biosamples).
Proof.
  unfold GoldClient.fetch_studies.
  apply resumable_bind; [apply resumable_log|]. intros _.
  apply resumable_for_each. intros id. apply resumable_study.
Qed.

(** Where the first process could open a file the later one can: the files
    are the same. *)
Lemma resumable_open C path : resumable C (open_for_writing path).
Proof.
  apply resumable_quiet.
  - intros s. unfold open_for_writing.
    destruct (unwritable (files s) path); repeat split.
  - intros s t Hk Hn Hf. unfold open_for_writing. rewrite Hf.
    destruct (unwritable (files s) path); repeat split; assumption.
Qed.

Lemma resumable_dump_each C directory output_format include_biosamples ids :
  resumable C (dump_each directory output_format include_biosamples ids).
Proof.
  induction ids as [|id ids IH]; cbn [dump_each]; [apply resumable_ret|].
  apply resumable_bind; [apply resumable_study|]. intros study.
  apply resumable_bind; [apply resumable_log|]. intros _. cbv zeta.
  apply resumable_bind; [apply resumable_open|]. intros _.
  apply resumable_bind; [apply resumable_dump|]. intros _. exact IH.
Qed.

(** The command without [--clear-cache]. *)
Lemma resumable_command C idfile directory output_format authentication_file
    include_biosamples :
  resumable C (fetch_studies idfile directory false output_format authentication_file
                 include_biosamples).
Proof.
  unfold fetch_studies.
  apply resumable_bind; [apply resumable_log|]. intros _.
  apply resumable_bind; [apply resumable_new|]. intros _.
  apply resumable_bind; [apply resumable_load_key|]. intros _.
  apply resumable_bind; [apply resumable_ret|]. intros _.
  apply resumable_bind; [apply resumable_read_lines|]. intros lines.
  cbv zeta.
  destruct (Nat.eqb _ 0); [apply resumable_raise|].
  apply resumable_bind.
  { destruct (Nat.ltb 0 _); [|apply resumable_ret].
    destruct (Nat.ltb 0 _); [apply resumable_raise|apply resumable_ret]. }
  intros id_type.
  apply resumable_bind.
  2:{ intros _. apply resumable_bind; [apply resumable_gets_calls|]. intros calls.
      apply resumable_log. }
  assert (Hall : resumable C
    (studies <- match id_type with
                | id_study => GoldClient.fetch_studies
                                (map strip
                                   (filter (fun line => startswith "Gs" line
                                                        || startswith "Gb" line) lines))
                                include_biosamples
                | id_biosample => GoldClient.fetch_studies_by_biosample_ids
                                    (map strip
                                       (filter (fun line => startswith "Gs" line
                                                            || startswith "Gb" line) lines))
                end ;;
     log INFO "Retrieved {} studies" [LNat (List.length studies)] ;;;
     dump None output_format (JArr studies))).
  { apply resumable_bind.
    - destruct id_type; [apply resumable_studies|apply resumable_studies_by_biosample_ids].
    - intros studies. apply resumable_bind; [apply resumable_log|]. intros _.
      apply resumable_dump. }
  destruct id_type, directory as [[|c dir]|]; try exact Hall.
  apply resumable_dump_each.
Qed.

(** The command makes a client of its own: the key and the counter it
    finds make no difference. *)
Lemma command_forgets_client idfile directory (clear_cache : bool) output_format
    authentication_file include_biosamples key n s :
  fetch_studies idfile directory clear_cache output_format authentication_file
    include_biosamples (set_num_calls n (set_gold_key key s))
  = fetch_studies idfile directory clear_cache output_format authentication_file
      include_biosamples s.
Proof. unfold fetch_studies. rewrite !command_prefix. reflexivity. Qed.

(** X24.  The command can be run again from the cache: after a run without
    [--clear-cache] that succeeded, a later run with the same arguments
    and files over a cache that holds at least what the first run left
    succeeds as well and writes the same documents, without a single
    request or pause and without adding to the cache, whatever the service
    answers by then and whatever key and counter the process starts
    with. *)
Theorem command_resumes_from_the_cache idfile directory output_format
    authentication_file include_biosamples s s' t :
  fetch_studies idfile directory false output_format authentication_file
    include_biosamples s = (Ok tt, s') ->
  files t = files s ->
  cache_le (cache s') (cache t) ->
  exists docs t',
    written s' = (written s ++ docs)%list
    /\ fetch_studies idfile directory false output_format authentication_file
         include_biosamples t = (Ok tt, t')
    /\ written t' = (written t ++ docs)%list
    /\ requests t' = requests t /\ sleeps t' = sleeps t /\ cache t' = cache t.
Proof.
  intros Hrun Hf Hc.
  destruct (resumable_command (cache s') idfile directory output_format
              authentication_file include_biosamples) as [_ R].
  destruct (R s tt s' (set_num_calls (num_calls s) (set_gold_key (gold_key s) t))
              Hrun (cache_le_refl _))
    as (t' & Hrun' & _ & Hr & Hs & Hc' & docs & Hw & Hw').
  { repeat split; assumption. }
  rewrite command_forgets_client in Hrun'.
  exists docs, t'. repeat split; assumption.
Qed.

Lemma command_resumes_from_the_cache_witness :
  fst (fetch_studies "ids.txt" None false "yaml" "config/gold-key.txt" true
         (offline (snd (fetch_studies "ids.txt" None false "yaml" "config/gold-key.txt"
                          true (machine_with ["Gs1"])))))
  = Ok tt
  /\ requests (snd (fetch_studies "ids.txt" None false "yaml" "config/gold-key.txt" true
                      (offline (snd (fetch_studies "ids.txt" None false "yaml"
                                       "config/gold-key.txt" true
                                       (machine_with ["Gs1"]))))))
     = [].
Proof.
  pose (s1 := snd (fetch_studies "ids.txt" None false "yaml" "config/gold-key.txt" true
                     (machine_with ["Gs1"]))).
  assert (E : fetch_studies "ids.txt" None false "yaml" "config/gold-key.txt" true
                (machine_with ["Gs1"]) = (Ok tt, s1))
    by (vm_compute; reflexivity).
  assert (F : files (offline s1) = files (machine_with ["Gs1"]))
    by (vm_compute; reflexivity).
  change (fst (fetch_studies "ids.txt" None false "yaml" "config/gold-key.txt" true
                 (offline s1)) = Ok tt
          /\ requests (snd (fetch_studies "ids.txt" None false "yaml"
                              "config/gold-key.txt" true (offline s1))) = []).
  clearbody s1.
  destruct (command_resumes_from_the_cache "ids.txt" None "yaml" "config/gold-key.txt"
              true (machine_with ["Gs1"]) s1 (offline s1) E F (fun rq v H => H))
    as (docs & t' & _ & Hrun & _ & Hr & _).
  rewrite Hrun. split; [reflexivity|exact Hr].
Defined.

(** X25.  What a fetch method returned once it returns again from the
    cache: in any process with the same key over a cache that holds at
    least what the first call left, the same call returns the same result
    without a request, a pause or a new cache entry, whatever the service
    answers by then. *)
Theorem fetched_once_is_replayed_from_the_cache C id ids path include :
  replays C (GoldClient.fetch_projects_by_study id)
  /\ replays C (GoldClient.fetch_biosamples_by_study id include)
  /\ replays C (GoldClient.fetch_study id include)
  /\ replays C (GoldClient.fetch_study_by_biosample_id id include)
  /\ replays C (GoldClient.fetch_studies_by_biosample_ids ids)
  /\ replays C (GoldClient.fetch_studies ids include)
  /\ replays C (GoldClient.fetch_studies_from_file path include).
Proof.
  split; [apply resumable_call|].
  split; [apply resumable_biosamples|].
  split; [apply resumable_study|].
  split; [apply resumable_study_by_biosample|].
  split; [apply resumable_studies_by_biosample_ids|].
  split; [apply resumable_studies|].
  unfold GoldClient.fetch_studies_from_file.
  apply resumable_bind; [apply resumable_read_lines|]. intros lines.
  apply resumable_studies.
Qed.

(** * The study of a biosample *)

(** [fetch_study_by_biosample_id] without the biosamples. *)
Lemma fetch_study_by_biosample_plain api u p b s :
  service_ok api u p -> served api s -> gold_key s = Some (u, p) ->
  exists s', GoldClient.fetch_study_by_biosample_id b false s
             = (Ok (resolved api u p b), s')
    /\ num_calls s' = num_calls s + 1.
Proof.
  intros Hok Hs Hk.
  set (nid := GoldClient._normalize_id b).
  pose proof (same_world_log {| level := INFO; fmt := "Fetching study: {}";
                                args := [LStr nid] |} s) as W0.
  fold (announce_study nid s) in W0.
  assert (Hs0 := served_same_world _ _ _ W0 Hs).
  destruct W0 as (_ & _ & _ & K0 & N0).
  destruct (call_served api u p "studies" "biosampleGoldId" nid (announce_study nid s)
              Hs0 (eq_trans K0 Hk)) as (s1 & Hc1 & _ & _ & Hn1 & _).
  assert (Hst := proj1 Hok nid). unfold studies_ok in Hst.
  unfold resolved. fold nid.
  destruct (api (call_request u p "studies" "biosampleGoldId" nid))
    as [| | | |[|first rest]|] eqn:Ea; try discriminate.
  - exists (warn_stub nid s1). split; [|simpl; now rewrite Hn1, N0].
    unfold GoldClient.fetch_study_by_biosample_id. cbv zeta. fold nid.
    unfold bind at 1. unfold log at 1, modify at 1. fold (announce_study nid s).
    rewrite (bind_ok _ _ _ _ _ Hc1). reflexivity.
  - exists s1. split; [|now rewrite Hn1, N0].
    unfold GoldClient.fetch_study_by_biosample_id. cbv zeta. fold nid.
    unfold bind at 1. unfold log at 1, modify at 1. fold (announce_study nid s).
    rewrite (bind_ok _ _ _ _ _ Hc1). reflexivity.
Qed.

(** X26.  Against a service that answers consistently,
    [fetch_study_by_biosample_id] returns, after one call, the first study
    the service lists for the biosample, or the stub when it lists none;
    with [include_biosamples] it makes three calls and returns that study
    with [biosamples] set to the biosamples, projects woven in, of the
    study's own [studyGoldId] (the stub's made-up id for a stub), and the
    [studyGoldId] as it was. *)
Theorem fetch_study_by_biosample_id_resolves api u p b include s :
  service_ok api u p -> served api s -> gold_key s = Some (u, p) ->
  exists s', GoldClient.fetch_study_by_biosample_id b include s
             = (Ok (if include then full_study api u p b else resolved api u p b), s')
    /\ num_calls s' = num_calls s + calls_per_study include
    /\ study_id_of (full_study api u p b) = study_id_of (resolved api u p b)
    /\ getitem (full_study api u p b) "biosamples"
       = Ok (JArr (woven api u p (study_id_of (resolved api u p b)))).
Proof.
  intros Hok Hs Hk.
  destruct (full_study_id api u p b Hok) as (Hid & Hbs).
  destruct include.
  - destruct (fetch_study_by_biosample_served api u p b s Hok Hs Hk)
      as (s' & Hrun & _ & _ & Hn & _).
    exists s'. repeat split; assumption.
  - destruct (fetch_study_by_biosample_plain api u p b s Hok Hs Hk) as (s' & Hrun & Hn).
    exists s'. repeat split; assumption.
Qed.

Lemma fetch_study_by_biosample_id_resolves_witness :
  fst (GoldClient.fetch_study_by_biosample_id "gold:Gb7" true empty_service)
  = Ok (JObj [("studyGoldId", JStr "GsFAKE-Gb7"); ("biosamples", JArr [])])
  /\ num_calls (snd (GoldClient.fetch_study_by_biosample_id "gold:Gb7" true
                       empty_service)) = 3.
Proof.
  assert (Hok : service_ok (fun _ => JArr []) "user" "pass").
  { split; [intros b; reflexivity|]. split; [intros sid; split; reflexivity|].
    intros sid. split; [reflexivity|]. split; [constructor|reflexivity]. }
  assert (Hs : served (fun _ => JArr []) empty_service).
  { intros rq. right. split; [reflexivity|]. intros n _. reflexivity. }
  destruct (fetch_study_by_biosample_id_resolves (fun _ => JArr []) "user" "pass"
              "gold:Gb7" true empty_service Hok Hs eq_refl) as (s' & Hrun & Hn & _).
  rewrite Hrun. split; [reflexivity|exact Hn].
Defined.

(** * Records with a key missing *)

(** The comprehension stops at the first sample without an id. *)
Lemma index_samples_unnamed good d rest : forall i acc,
  forallb sample_ok good = true ->
  dict_get "biosampleGoldId" d = None ->
  GoldClient.index_samples i (good ++ JObj d :: rest)%list acc
  = Raise (KeyError "biosampleGoldId").
Proof.
  induction good as [|b good IH]; intros i acc Hok Hd; simpl.
  - now rewrite Hd.
  - apply andb_true_iff in Hok as [Hb Hok].
    rewrite (sample_ok_getitem b Hb). simpl. now apply IH.
Qed.

(** X27.  A biosample record without a [biosampleGoldId] makes
    [fetch_biosamples_by_study] fail when the projects are woven in: the
    [KeyError] of that key comes out of the dict comprehension, after both
    the biosamples and the projects have been fetched (two calls counted)
    and whatever the projects are, and no biosample is returned.  Without
    [include_project] the same list is returned as it was fetched. *)
Theorem sample_without_id_fails_the_weaving api u p id s good d rest :
  served api s -> gold_key s = Some (u, p) ->
  api (call_request u p "biosamples" "studyGoldId" (GoldClient._normalize_id id))
  = JArr (good ++ JObj d :: rest)%list ->
  forallb sample_ok good = true ->
  dict_get "biosampleGoldId" d = None ->
  fst (GoldClient.fetch_biosamples_by_study id true s)
  = Raise (KeyError "biosampleGoldId")
  /\ num_calls (snd (GoldClient.fetch_biosamples_by_study id true s)) = num_calls s + 2
  /\ fst (GoldClient.fetch_biosamples_by_study id false s)
     = Ok (JArr (good ++ JObj d :: rest)%list).
Proof.
  intros Hs Hk Ha Hgood Hd.
  destruct (call_served api u p "biosamples" "studyGoldId"
              (GoldClient._normalize_id id) s Hs Hk) as (s1 & Hc1 & Hs1 & Hk1 & Hn1 & _).
  destruct (call_served api u p "projects" "studyGoldId"
              (GoldClient._normalize_id (GoldClient._normalize_id id)) s1 Hs1 Hk1)
    as (s2 & Hc2 & _ & _ & Hn2 & _).
  rewrite Ha in Hc1.
  assert (E : GoldClient.fetch_biosamples_by_study id true s
              = (Raise (KeyError "biosampleGoldId"), s2)).
  { unfold GoldClient.fetch_biosamples_by_study, EXCLUSION_LIST. cbv zeta.
    cbn [existsb].
    rewrite (bind_ok _ _ _ _ _ Hc1).
    unfold GoldClient.fetch_projects_by_study. rewrite (bind_ok _ _ _ _ _ Hc2).
    unfold bind at 1. unfold lift at 1. simpl py_iter.
    apply bind_raise. unfold lift.
    now rewrite (index_samples_unnamed good d rest 0 [] Hgood Hd). }
  rewrite E. split; [reflexivity|]. split; [simpl; lia|].
  unfold GoldClient.fetch_biosamples_by_study, EXCLUSION_LIST. cbv zeta.
  cbn [existsb]. now rewrite (bind_ok _ _ _ _ _ Hc1).
Qed.

Lemma sample_without_id_fails_the_weaving_witness :
  fst (GoldClient.fetch_biosamples_by_study "S1" true
         (started (always study_with_unnamed_sample) [] "user" "pass"))
  = Raise (KeyError "biosampleGoldId").
Proof.
  apply (sample_without_id_fails_the_weaving study_with_unnamed_sample "user" "pass"
           "S1" (started (always study_with_unnamed_sample) [] "user" "pass")
           [sample_B1] [("biosampleName", JStr "soil")] [sample_B2]).
  - intros rq. right. split; [reflexivity|]. intros n _. reflexivity.
  - reflexivity.
  - reflexivity.
  - reflexivity.
  - reflexivity.
Defined.

Lemma weave_projects_app id sbi projects l1 l2 : forall store s,
  GoldClient.weave_projects id sbi projects (l1 ++ l2)%list store s
  = (store' <- GoldClient.weave_projects id sbi projects l1 store ;;
     GoldClient.weave_projects id sbi projects l2 store') s.
Proof.
  induction l1 as [|x l1 IH]; intros store s; simpl; [reflexivity|].
  unfold bind.
  destruct (GoldClient.weave_project id sbi projects x store s) as [[store1|e] s1].
  - rewrite IH. reflexivity.
  - reflexivity.
Qed.

(** X28.  A project that names a fetched biosample but has no
    [projectGoldId] makes [fetch_biosamples_by_study] fail: the [KeyError]
    of that key comes out of the debug message that announces the
    attachment, so the project is attached to nothing and no biosample is
    returned, although the projects before it were dealt with. *)
Theorem matched_project_without_id_fails api u p id s bs good d rest name :
  served api s -> gold_key s = Some (u, p) ->
  api (call_request u p "biosamples" "studyGoldId" (GoldClient._normalize_id id))
  = JArr bs ->
  forallb sample_ok bs = true ->
  NoDup (map sample_name bs) ->
  api (call_request u p "projects" "studyGoldId"
         (GoldClient._normalize_id (GoldClient._normalize_id id)))
  = JArr (good ++ JObj d :: rest)%list ->
  forallb project_ok good = true ->
  dict_get "biosampleGoldId" d = Some (JStr name) ->
  In name (map sample_name bs) ->
  dict_get "projectGoldId" d = None ->
  fst (GoldClient.fetch_biosamples_by_study id true s) = Raise (KeyError "projectGoldId")
  /\ num_calls (snd (GoldClient.fetch_biosamples_by_study id true s)) = num_calls s + 2.
Proof.
  intros Hs Hk Hb Hok Hnd Hp Hgood Hname Hin Hpid.
  destruct (call_served api u p "biosamples" "studyGoldId"
              (GoldClient._normalize_id id) s Hs Hk) as (s1 & Hc1 & Hs1 & Hk1 & Hn1 & _).
  destruct (call_served api u p "projects" "studyGoldId"
              (GoldClient._normalize_id (GoldClient._normalize_id id)) s1 Hs1 Hk1)
    as (s2 & Hc2 & _ & _ & Hn2 & _).
  rewrite Hb in Hc1. rewrite Hp in Hc2.
  set (nid := GoldClient._normalize_id id) in *.
  set (s3 := add_logs (flat_map (project_log nid bs
                                   (List.length (good ++ JObj d :: rest)%list)) good) s2).
  assert (Hprefix :
    GoldClient.weave_projects nid (positions (map sample_name bs) 0)
      (JArr (good ++ JObj d :: rest)%list) good bs s2
    = (Ok (map (attach good) bs), s3)).
  { rewrite <- (attach_nil bs) at 2.
    apply (weave_projects_run nid bs _ (JArr (good ++ JObj d :: rest)%list) good [] s2
             Hok Hnd Hgood). reflexivity. }
  assert (Hbad :
    GoldClient.weave_project nid (positions (map sample_name bs) 0)
      (JArr (good ++ JObj d :: rest)%list) (JObj d) (map (attach good) bs) s3
    = (Raise (KeyError "projectGoldId"), s3)).
  { unfold GoldClient.weave_project.
    rewrite (bind_ok _ _ s3 (JStr name) s3) by (unfold lift; simpl; now rewrite Hname).
    cbn [negb hashable]. rewrite keyed_get_positions.
    destruct (index_of name (map sample_name bs)) as [i|] eqn:Ei.
    - cbn [option_map]. cbv zeta. apply bind_raise.
      unfold lift. simpl. now rewrite Hpid.
    - apply index_of_none in Ei. contradiction. }
  assert (E : GoldClient.fetch_biosamples_by_study id true s
              = (Raise (KeyError "projectGoldId"), s3)).
  { unfold GoldClient.fetch_biosamples_by_study, EXCLUSION_LIST. cbv zeta.
    cbn [existsb]. fold nid.
    rewrite (bind_ok _ _ _ _ _ Hc1).
    unfold GoldClient.fetch_projects_by_study. rewrite (bind_ok _ _ _ _ _ Hc2).
    unfold bind at 1. unfold lift at 1. simpl py_iter.
    unfold bind at 1. unfold lift at 1.
    rewrite (index_samples_positions bs 0 [] Hok Hnd) by reflexivity.
    simpl app.
    unfold bind at 1. unfold lift at 1. simpl py_iter.
    apply bind_raise.
    rewrite weave_projects_app.
    rewrite (bind_ok _ _ _ _ _ Hprefix).
    cbn [GoldClient.weave_projects]. apply bind_raise. exact Hbad. }
  rewrite E. split; [reflexivity|].
  cbn [snd].
  pose proof (same_world_logs
                (flat_map (project_log nid bs
                             (List.length (good ++ JObj d :: rest)%list)) good) s2)
    as (_ & _ & _ & _ & Wn).
  fold s3 in Wn. rewrite Wn. lia.
Qed.

Lemma matched_project_without_id_fails_witness :
  fst (GoldClient.fetch_biosamples_by_study "S1" true
         (started (always study_with_unnamed_project) [] "user" "pass"))
  = Raise (KeyError "projectGoldId").
Proof.
  apply (matched_project_without_id_fails study_with_unnamed_project "user" "pass"
           "S1" (started (always study_with_unnamed_project) [] "user" "pass")
           [sample_B1; sample_B2] [project_of_B3] [("biosampleGoldId", JStr "B1")] []
           "B1").
  - intros rq. right. split; [reflexivity|]. intros n _. reflexivity.
  - reflexivity.
  - reflexivity.
  - reflexivity.
  - change (NoDup ["B1"; "B2"]). repeat constructor; simpl; intuition discriminate.
  - reflexivity.
  - reflexivity.
  - reflexivity.
  - now left.
  - reflexivity.
Defined.

(** X29.  The command loads the key before anything else: when the key
    file is missing, empty, or its stripped first line does not hold
    exactly one colon, the command ends in the error of [load_key] without
    reading the id file, making a request or writing anything, and
    without clearing the cache even when [--clear-cache] is given. *)
Theorem command_needs_the_key_first idfile directory (clear_cache : bool) output_format
    authentication_file include_biosamples s :
  match files s authentication_file with
  | Some (line :: _) => count_char ":" (strip line) <> 1
  | _ => True
  end ->
  exists e,
    fetch_studies idfile directory clear_cache output_format authentication_file
      include_biosamples s
    = (Raise e, command_started include_biosamples s)
    /\ e = match files s authentication_file with
           | None => FileNotFoundError
           | Some [] => IndexError
           | Some (_ :: _) => ValueError
           end.
Proof.
  intros H.
  assert (Hload : exists e,
    GoldClient.load_key authentication_file (command_started include_biosamples s)
    = (Raise e, command_started include_biosamples s)
    /\ e = match files s authentication_file with
           | None => FileNotFoundError
           | Some [] => IndexError
           | Some (_ :: _) => ValueError
           end).
  { unfold GoldClient.load_key, bind, read_lines.
    change (files (command_started include_biosamples s)) with (files s).
    destruct (files s authentication_file) as [[|line rest]|].
    - exists IndexError. split; reflexivity.
    - pose proof (split_on_length ":" (strip line)) as Hlen.
      exists ValueError.
      destruct (split_on ":" (strip line)) as [|a [|b [|c parts]]];
        simpl in Hlen; try (split; reflexivity).
      exfalso. apply H. lia.
    - exists FileNotFoundError. split; reflexivity. }
  destruct Hload as (e & Hload & He). exists e. split; [|exact He].
  unfold fetch_studies. rewrite command_prefix. now rewrite Hload.
Qed.

Lemma command_needs_the_key_first_witness :
  fst (fetch_studies "ids.txt" None true "yaml" "no-such-file" false
         (machine_with ["Gs1"]))
  = Raise FileNotFoundError.
Proof.
  destruct (command_needs_the_key_first "ids.txt" None true "yaml" "no-such-file" false
              (machine_with ["Gs1"]) I) as (e & Hrun & ->).
  rewrite Hrun. reflexivity.
Defined.

(** * Biosamples that share an id *)

Lemma keyed_get_set_name {V} k name (v : V) d :
  keyed_get k (keyed_set (JStr name) v d)
  = if key_eqb (JStr name) k then Some v else keyed_get k d.
Proof.
  induction d as [|[k' v'] d IH]; cbn [keyed_get keyed_set]; [reflexivity|].
  destruct (key_eqb k' (JStr name)) eqn:E1; cbn [keyed_get].
  - destruct k' as [| | |n'| |]; try discriminate. simpl in E1.
    apply String.eqb_eq in E1. subst n'.
    destruct (key_eqb (JStr name) k); reflexivity.
  - rewrite IH.
    destruct (key_eqb k' k) eqn:E2, (key_eqb (JStr name) k) eqn:E3; try reflexivity.
    destruct k as [| | |n| |]; try discriminate. simpl in E3.
    apply String.eqb_eq in E3. subst n. congruence.
Qed.

Lemma last_index_none name names : last_index name names = None <-> ~ In name names.
Proof.
  induction names as [|n names IH]; simpl; [tauto|].
  destruct (last_index name names) as [i|].
  - split; [discriminate|]. intros H. exfalso. apply H. right.
    destruct (in_dec string_dec name names) as [Hin|Hn]; [exact Hin|].
    apply IH in Hn. discriminate.
  - destruct (String.eqb n name) eqn:E.
    + apply String.eqb_eq in E. split; [discriminate|]. intros H. exfalso. auto.
    + apply String.eqb_neq in E. split; [|reflexivity].
      intros _ [H|H]; [contradiction|]. now apply (proj1 IH).
Qed.

(** The comprehension maps each id to the position of its last sample. *)
Lemma index_samples_last bs : forall from acc,
  forallb sample_ok bs = true ->
  exists d, GoldClient.index_samples from bs acc = Ok d
    /\ forall k, keyed_get k d
         = match k with
           | JStr name =>
               match last_index name (map sample_name bs) with
               | Some i => Some (from + i)
               | None => keyed_get k acc
               end
           | _ => keyed_get k acc
           end.
Proof.
  induction bs as [|b bs IH]; intros from acc Hok; simpl.
  - exists acc. split; [reflexivity|]. now intros [].
  - apply andb_true_iff in Hok as [Hb Hok].
    rewrite (sample_ok_getitem b Hb). simpl.
    destruct (IH (S from) (keyed_set (JStr (sample_name b)) from acc) Hok)
      as (d & Hd & Hget).
    exists d. split; [exact Hd|]. intros k. rewrite Hget, keyed_get_set_name.
    destruct k as [| | |name| |]; try reflexivity. simpl.
    destruct (last_index name (map sample_name bs)) as [i|].
    + f_equal. lia.
    + destruct (String.eqb (sample_name b) name); [|reflexivity].
      f_equal. lia.
Qed.

Lemma attach_last_nil bs : attach_last [] bs = bs.
Proof.
  induction bs as [|b bs IH]; simpl; [reflexivity|].
  rewrite IH. now destruct (shadowed b bs).
Qed.

Lemma attach_last_ok ps bs :
  forallb sample_ok bs = true -> forallb sample_ok (attach_last ps bs) = true.
Proof.
  induction bs as [|b bs IH]; simpl; [reflexivity|].
  intros H. apply andb_true_iff in H as [Hb Hbs]. rewrite (IH Hbs), andb_true_r.
  destruct (shadowed b bs); [exact Hb|now apply attach_ok].
Qed.

(** A project of no sample of the list changes nothing. *)
Lemma attach_last_unknown done p bs :
  known bs p = false -> attach_last (done ++ [p]) bs = attach_last done bs.
Proof.
  unfold known. induction bs as [|b bs IH]; simpl; [reflexivity|].
  intros H. apply orb_false_iff in H as [Hb Hbs].
  rewrite (IH Hbs), attach_snoc, Hb. reflexivity.
Qed.

Lemma known_last_index name p bs :
  getitem p "biosampleGoldId" = Ok (JStr name) ->
  known bs p = match last_index name (map sample_name bs) with
               | Some _ => true
               | None => false
               end.
Proof.
  intros Hp. unfold known, belongs_to. rewrite Hp.
  induction bs as [|b bs IH]; simpl; [reflexivity|].
  rewrite IH. destruct (last_index name (map sample_name bs)).
  - apply orb_true_r.
  - rewrite orb_false_r. now destruct (String.eqb (sample_name b) name).
Qed.

(** Appending to the sample at the last position of the project's id. *)
Lemma update_at_last done p name bs : forall i,
  getitem p "biosampleGoldId" = Ok (JStr name) ->
  last_index name (map sample_name bs) = Some i ->
  update_nth i (add_project (nth i (attach_last done bs) JNull) p) (attach_last done bs)
  = attach_last (done ++ [p]) bs.
Proof.
  intros i Hp. revert i.
  induction bs as [|b bs IH]; intros i Hi; simpl in Hi; [discriminate|].
  cbn [attach_last].
  destruct (last_index name (map sample_name bs)) as [j|] eqn:Ej.
  - injection Hi as <-. cbn [nth update_nth]. rewrite (IH j eq_refl). f_equal.
    destruct (shadowed b bs) eqn:Es; [reflexivity|].
    rewrite attach_snoc. unfold belongs_to. rewrite Hp.
    destruct (String.eqb (sample_name b) name) eqn:E; [|reflexivity].
    apply String.eqb_eq in E. exfalso.
    assert (Hin : In name (map sample_name bs)).
    { destruct (in_dec string_dec name (map sample_name bs)) as [H|H]; [exact H|].
      apply last_index_none in H. congruence. }
    apply in_map_iff in Hin as (b' & Hn & Hb').
    assert (shadowed b bs = true); [|congruence].
    apply existsb_exists. exists b'. split; [exact Hb'|].
    rewrite Hn, E. apply String.eqb_refl.
  - destruct (String.eqb (sample_name b) name) eqn:E; [|discriminate].
    injection Hi as <-. cbn [nth update_nth].
    assert (Hk : known bs p = false).
    { rewrite (known_last_index name p bs Hp). now rewrite Ej. }
    rewrite (attach_last_unknown done p bs Hk). f_equal.
    assert (Es : shadowed b bs = false).
    { destruct (shadowed b bs) eqn:Es; [|reflexivity].
      apply existsb_exists in Es as (b' & Hb' & Hn). apply String.eqb_eq in Hn.
      apply String.eqb_eq in E. apply last_index_none in Ej. exfalso. apply Ej.
      rewrite <- E, <- Hn. now apply in_map. }
    rewrite Es, attach_snoc. unfold belongs_to. now rewrite Hp, E.
Qed.

Lemma nth_attach_last_ok done bs i name :
  forallb sample_ok bs = true ->
  last_index name (map sample_name bs) = Some i ->
  sample_ok (nth i (attach_last done bs) JNull) = true.
Proof.
  intros Hok. revert i.
  induction bs as [|b bs IH]; intros i Hi; simpl in Hi; [discriminate|].
  simpl in Hok. apply andb_true_iff in Hok as [Hb Hbs]. cbn [attach_last].
  destruct (last_index name (map sample_name bs)) as [j|].
  - injection Hi as <-. simpl. now apply IH.
  - destruct (String.eqb (sample_name b) name); [|discriminate].
    injection Hi as <-. simpl.
    destruct (shadowed b bs); [exact Hb|now apply attach_ok].
Qed.

(** One turn of the loop when ids may repeat. *)
Lemma weave_project_last id sbi bs n projects done p s :
  forallb sample_ok bs = true ->
  (forall k, keyed_get k sbi
             = match k with
               | JStr name => last_index name (map sample_name bs)
               | _ => None
               end) ->
  project_ok p = true ->
  py_len projects = Ok n ->
  exists s', GoldClient.weave_project id sbi projects p (attach_last done bs) s
             = (Ok (attach_last (done ++ [p]) bs), s')
    /\ same_world s s'.
Proof.
  intros Hok Hsbi Hp Hn.
  destruct p as [| | | |l|d]; try discriminate. simpl in Hp.
  destruct (dict_get "biosampleGoldId" d) as [k|] eqn:Ek; [|discriminate].
  destruct (dict_get "projectGoldId" d) as [pid|] eqn:Epid; [|discriminate].
  assert (Hget : getitem (JObj d) "biosampleGoldId" = Ok k) by (simpl; now rewrite Ek).
  unfold GoldClient.weave_project. rewrite (bind_ok _ _ s k s); [|now rewrite Hget].
  assert (Hmiss : keyed_get k sbi = None -> known bs (JObj d) = false ->
    exists s',
      (log ERROR "Sample {} not not samples for {}" [LJson k; LStr id] ;;;
       log ERROR "All samples: {}" [LKeys (map fst sbi)] ;;;
       n0 <- lift (py_len projects) ;;
       log ERROR "Projects: {}" [LNat n0] ;;;
       log ERROR "Project: {}" [LJson (JObj d)] ;;;
       ret (attach_last done bs)) s
      = (Ok (attach_last (done ++ [JObj d]) bs), s')
      /\ same_world s s').
  { intros _ Hk. rewrite (attach_last_unknown _ _ _ Hk).
    eexists. unfold bind, log, modify, lift, ret. rewrite Hn.
    split; [reflexivity|]. repeat split. }
  destruct k as [| | |name| |]; try discriminate.
  - exists s. split; [|apply same_world_refl].
    rewrite (attach_last_unknown done (JObj d) bs); [reflexivity|].
    apply known_not_str. intros name. rewrite Hget. discriminate.
  - cbn [negb hashable]. rewrite (Hsbi (JBool b)).
    apply Hmiss; [apply Hsbi|].
    apply known_not_str. intros name. rewrite Hget. discriminate.
  - cbn [negb hashable]. rewrite (Hsbi (JInt n0)).
    apply Hmiss; [apply Hsbi|].
    apply known_not_str. intros name. rewrite Hget. discriminate.
  - cbn [negb hashable]. pose proof (Hsbi (JStr name)) as Hpos. cbv beta iota in Hpos.
    destruct (last_index name (map sample_name bs)) as [i|] eqn:Ei.
    + rewrite Hpos. cbv zeta.
      rewrite (bind_ok _ _ s pid s) by (unfold lift; simpl; now rewrite Epid).
      unfold bind at 1. unfold log at 1, modify at 1.
      rewrite append_project_run by (now apply (nth_attach_last_ok done bs i name)).
      rewrite (update_at_last done (JObj d) name bs i Hget Ei).
      eexists. split; [reflexivity|]. apply same_world_log.
    + rewrite Hpos. apply Hmiss; [exact Hpos|].
      rewrite (known_last_index name _ bs Hget). now rewrite Ei.
Qed.

Lemma weave_projects_last id sbi bs n projects todo : forall done s,
  forallb sample_ok bs = true ->
  (forall k, keyed_get k sbi
             = match k with
               | JStr name => last_index name (map sample_name bs)
               | _ => None
               end) ->
  forallb project_ok todo = true ->
  py_len projects = Ok n ->
  exists s', GoldClient.weave_projects id sbi projects todo (attach_last done bs) s
             = (Ok (attach_last (done ++ todo) bs), s')
    /\ same_world s s'.
Proof.
  induction todo as [|p todo IH]; intros done s Hok Hsbi Hps Hn; simpl.
  - exists s. rewrite app_nil_r. split; [reflexivity|apply same_world_refl].
  - apply andb_true_iff in Hps as [Hp Hps].
    destruct (weave_project_last id sbi bs n projects done p s Hok Hsbi Hp Hn)
      as (s1 & Hstep & W1).
    destruct (IH (done ++ [p])%list s1 Hok Hsbi Hps Hn) as (s2 & Hrest & W2).
    exists s2. rewrite (bind_ok _ _ _ _ _ Hstep), Hrest, <- app_assoc.
    split; [reflexivity|]. now apply (same_world_trans s s1 s2).
Qed.

Lemma attach_last_distinct ps bs :
  NoDup (map sample_name bs) -> attach_last ps bs = map (attach ps) bs.
Proof.
  induction bs as [|b bs IH]; simpl; [reflexivity|].
  intros H. inversion H as [|? ? Hnotin Hnd]; subst. rewrite (IH Hnd). f_equal.
  destruct (shadowed b bs) eqn:Es; [|reflexivity].
  apply existsb_exists in Es as (b' & Hb' & Hn). apply String.eqb_eq in Hn.
  exfalso. apply Hnotin. rewrite <- Hn. now apply in_map.
Qed.

(** X30.  When biosamples of a study share a [biosampleGoldId], the
    projects of that id all go to the last biosample with the id and the
    biosamples with the id before it come back as they were fetched,
    without [projects] added: [fetch_biosamples_by_study] returns the
    fetched biosamples in their order, each one that no later one shadows
    with its projects attached.  With distinct ids this is every
    biosample with its projects. *)
Theorem repeated_sample_id_last_one_wins api u p id s bs ps :
  served api s -> gold_key s = Some (u, p) ->
  api (call_request u p "biosamples" "studyGoldId" (GoldClient._normalize_id id))
  = JArr bs ->
  forallb sample_ok bs = true ->
  api (call_request u p "projects" "studyGoldId"
         (GoldClient._normalize_id (GoldClient._normalize_id id)))
  = JArr ps ->
  forallb project_ok ps = true ->
  fst (GoldClient.fetch_biosamples_by_study id true s) = Ok (JArr (attach_last ps bs))
  /\ num_calls (snd (GoldClient.fetch_biosamples_by_study id true s)) = num_calls s + 2
  /\ (NoDup (map sample_name bs) -> attach_last ps bs = map (attach ps) bs)
  /\ (forall b1 b2, bs = [b1; b2] -> sample_name b1 = sample_name b2 ->
        attach_last ps bs = [b1; attach ps b2]).
Proof.
  intros Hs Hk Hb Hok Hp Hps.
  destruct (call_served api u p "biosamples" "studyGoldId"
              (GoldClient._normalize_id id) s Hs Hk) as (s1 & Hc1 & Hs1 & Hk1 & Hn1 & _).
  destruct (call_served api u p "projects" "studyGoldId"
              (GoldClient._normalize_id (GoldClient._normalize_id id)) s1 Hs1 Hk1)
    as (s2 & Hc2 & _ & _ & Hn2 & _).
  rewrite Hb in Hc1. rewrite Hp in Hc2.
  destruct (index_samples_last bs 0 [] Hok) as (sbi & Hidx & Hget).
  assert (Hsbi : forall k, keyed_get k sbi
                           = match k with
                             | JStr name => last_index name (map sample_name bs)
                             | _ => None
                             end).
  { intros k. rewrite Hget. destruct k as [| | |name| |]; try reflexivity.
    now destruct (last_index name (map sample_name bs)). }
  destruct (weave_projects_last (GoldClient._normalize_id id) sbi bs (List.length ps)
              (JArr ps) ps [] s2 Hok Hsbi Hps eq_refl) as (s3 & Hrun & W).
  rewrite attach_last_nil in Hrun. simpl app in Hrun.
  assert (E : GoldClient.fetch_biosamples_by_study id true s
              = (Ok (JArr (attach_last ps bs)), s3)).
  { unfold GoldClient.fetch_biosamples_by_study, EXCLUSION_LIST. cbv zeta.
    cbn [existsb].
    rewrite (bind_ok _ _ _ _ _ Hc1).
    unfold GoldClient.fetch_projects_by_study. rewrite (bind_ok _ _ _ _ _ Hc2).
    unfold bind at 1. unfold lift at 1. simpl py_iter.
    unfold bind at 1. unfold lift at 1. rewrite Hidx.
    unfold bind at 1. unfold lift at 1. simpl py_iter.
    rewrite (bind_ok _ _ _ _ _ Hrun). reflexivity. }
  rewrite E. split; [reflexivity|]. split; [|split].
  - cbn [snd]. destruct W as (_ & _ & _ & _ & Wn). rewrite Wn. lia.
  - apply attach_last_distinct.
  - intros b1 b2 -> Hn. simpl. unfold shadowed. simpl.
    rewrite Hn, String.eqb_refl. reflexivity.
Qed.

Lemma repeated_sample_id_last_one_wins_witness :
  fst (GoldClient.fetch_biosamples_by_study "S1" true
         (started (always study_with_twin_samples) [] "user" "pass"))
  = Ok (JArr [sample_B1; sample_B2;
              JObj [("biosampleGoldId", JStr "B1"); ("n", JInt 2);
                    ("projects", JArr [project_of_B1])]]).
Proof.
  destruct (repeated_sample_id_last_one_wins study_with_twin_samples "user" "pass" "S1"
              (started (always study_with_twin_samples) [] "user" "pass")
              [sample_B1; sample_B2; JObj [("biosampleGoldId", JStr "B1"); ("n", JInt 2)]]
              [project_of_B1; project_of_B3]) as (H & _).
  - intros rq. right. split; [reflexivity|]. intros n _. reflexivity.
  - reflexivity.
  - reflexivity.
  - reflexivity.
  - reflexivity.
  - reflexivity.
  - rewrite H. reflexivity.
Defined.
